(** * The baton relay of picohttp/wt_baton.c

    A shallow embedding of the WebTransport "baton" test protocol of
    picoquic (picohttp/wt_baton.c): the session context, the stream
    contexts of the h3zero stream tree, the calls made to the transport,
    and the functions that close a session, relay a baton, check an
    incoming baton, decode and encode the baton frame, handle datagrams
    and initialise a context.

    Conventions.  C integers are values of [Z]; the wrap-around of each
    width is written where the C code computes in that width.  A pointer to
    a stream context is the key of that context in the stream tree, [None]
    standing for NULL.  Every function that the C code calls for its effect
    on the transport appends the call to the [trace] of the world; what the
    transport answers is read from the connection record. *)

From stdpp Require Import gmap strings list.

Local Open Scope Z_scope.

(** ** Machine integers *)

Definition UINT64_MAX : Z := 18446744073709551615.

(** Truncation to [uint8_t], [uint64_t] (and [size_t], 64 bits here). *)
Definition u8 (x : Z) : Z := x mod 256.
Definition u64 (x : Z) : Z := x mod 18446744073709551616.

(** Arithmetic on [int]: the result is brought back into 32 bits, two's
    complement. *)
Definition s32 (x : Z) : Z := (x + 2147483648) mod 4294967296 - 2147483648.

(** ** Stream identifiers (picoquic.h)

    Modelled from the spec: the macros IS_BIDIR_STREAM_ID and
    IS_LOCAL_STREAM_ID are declared in picoquic.h, which is not part of the
    sources at hand.  The spec has a stream record with a direction and an
    initiated_locally attribute; as in QUIC, both are read off the stream
    identifier: bit 1 is clear for a bidirectional stream, bit 0 is clear
    for a stream opened by the client. *)
Definition IS_BIDIR_STREAM_ID (id : Z) : bool := Z.land id 2 =? 0.

Definition IS_LOCAL_STREAM_ID (id client_mode : Z) : bool :=
  negb (Z.land (Z.lxor id client_mode) 1 =? 0).

(** ** Constants of h3zero.h and wt_baton.h

    Modelled from the spec: the stream type tags and the session error
    codes are declared in headers that are not part of the sources at hand;
    the spec names the codes success, insufficient-stream-credit,
    malformed-baton-message, all-streams-reset, idle-timeout, in that
    order. *)
Definition h3zero_stream_type_webtransport : Z := 0x54.
Definition h3zero_frame_webtransport_stream : Z := 0x41.

Definition WT_BATON_SESSION_ERR_DA_YAMN : Z := 1.
Definition WT_BATON_SESSION_ERR_BRUH : Z := 2.
Definition WT_BATON_SESSION_ERR_GAME_OVER : Z := 3.
Definition WT_BATON_SESSION_ERR_BORED : Z := 4.

(** ** The session context *)

Inductive wt_baton_state_enum : Type :=
  | wt_baton_state_none
  | wt_baton_state_ready
  | wt_baton_state_sent
  | wt_baton_state_done
  | wt_baton_state_error
  | wt_baton_state_closed.

Definition state_eqb (a b : wt_baton_state_enum) : bool :=
  match a, b with
  | wt_baton_state_none, wt_baton_state_none
  | wt_baton_state_ready, wt_baton_state_ready
  | wt_baton_state_sent, wt_baton_state_sent
  | wt_baton_state_done, wt_baton_state_done
  | wt_baton_state_error, wt_baton_state_error
  | wt_baton_state_closed, wt_baton_state_closed => true
  | _, _ => false
  end.

(** The fields of [wt_baton_ctx_t] that wt_baton.c reads or writes.  The
    flags are [int]s holding 0 or 1 in C; [h3_ctx] tells whether the
    pointer to the h3zero context is set; [receive_buffer] holds the bytes
    stored so far in the fixed array of the same name. *)
Record wt_baton_ctx_t : Type := mk_baton_ctx {
  h3_ctx : bool;
  control_stream_id : Z;
  is_client : Z;
  baton_state : wt_baton_state_enum;
  nb_turns_required : Z;
  nb_turns : Z;
  first_baton : Z;
  baton : Z;
  baton_received : Z;
  is_sending : bool;
  sending_stream_id : Z;
  padding_required : Z;
  padding_sent : Z;
  is_receiving : bool;
  receiving_stream_id : Z;
  padding_expected : Z;
  padding_received : Z;
  receive_buffer : list Z;
  nb_receive_buffer_bytes : Z;
  nb_baton_bytes_received : Z;
  nb_baton_bytes_sent : Z;
  is_datagram_ready : bool;
  baton_datagram_send_next : Z;
  baton_datagram_received : Z;
  nb_datagrams_received : Z;
  nb_datagram_bytes_received : Z;
  nb_datagrams_sent : Z;
  nb_datagram_bytes_sent : Z
}.


(** Field updates, one per field that the code assigns. *)
Definition set_h3_ctx (v : bool) (c : wt_baton_ctx_t) : wt_baton_ctx_t :=
  mk_baton_ctx v (control_stream_id c) (is_client c) (baton_state c)
    (nb_turns_required c) (nb_turns c) (first_baton c) (baton c)
    (baton_received c) (is_sending c) (sending_stream_id c) (padding_required
    c) (padding_sent c) (is_receiving c) (receiving_stream_id c)
    (padding_expected c) (padding_received c) (receive_buffer c)
    (nb_receive_buffer_bytes c) (nb_baton_bytes_received c)
    (nb_baton_bytes_sent c) (is_datagram_ready c) (baton_datagram_send_next
    c) (baton_datagram_received c) (nb_datagrams_received c)
    (nb_datagram_bytes_received c) (nb_datagrams_sent c)
    (nb_datagram_bytes_sent c).
Definition set_control_stream_id (v : Z) (c : wt_baton_ctx_t) : wt_baton_ctx_t :=
  mk_baton_ctx (h3_ctx c) v (is_client c) (baton_state c) (nb_turns_required
    c) (nb_turns c) (first_baton c) (baton c) (baton_received c) (is_sending
    c) (sending_stream_id c) (padding_required c) (padding_sent c)
    (is_receiving c) (receiving_stream_id c) (padding_expected c)
    (padding_received c) (receive_buffer c) (nb_receive_buffer_bytes c)
    (nb_baton_bytes_received c) (nb_baton_bytes_sent c) (is_datagram_ready c)
    (baton_datagram_send_next c) (baton_datagram_received c)
    (nb_datagrams_received c) (nb_datagram_bytes_received c)
    (nb_datagrams_sent c) (nb_datagram_bytes_sent c).
Definition set_baton_state (v : wt_baton_state_enum) (c : wt_baton_ctx_t) : wt_baton_ctx_t :=
  mk_baton_ctx (h3_ctx c) (control_stream_id c) (is_client c) v
    (nb_turns_required c) (nb_turns c) (first_baton c) (baton c)
    (baton_received c) (is_sending c) (sending_stream_id c) (padding_required
    c) (padding_sent c) (is_receiving c) (receiving_stream_id c)
    (padding_expected c) (padding_received c) (receive_buffer c)
    (nb_receive_buffer_bytes c) (nb_baton_bytes_received c)
    (nb_baton_bytes_sent c) (is_datagram_ready c) (baton_datagram_send_next
    c) (baton_datagram_received c) (nb_datagrams_received c)
    (nb_datagram_bytes_received c) (nb_datagrams_sent c)
    (nb_datagram_bytes_sent c).
Definition set_nb_turns_required (v : Z) (c : wt_baton_ctx_t) : wt_baton_ctx_t :=
  mk_baton_ctx (h3_ctx c) (control_stream_id c) (is_client c) (baton_state c)
    v (nb_turns c) (first_baton c) (baton c) (baton_received c) (is_sending
    c) (sending_stream_id c) (padding_required c) (padding_sent c)
    (is_receiving c) (receiving_stream_id c) (padding_expected c)
    (padding_received c) (receive_buffer c) (nb_receive_buffer_bytes c)
    (nb_baton_bytes_received c) (nb_baton_bytes_sent c) (is_datagram_ready c)
    (baton_datagram_send_next c) (baton_datagram_received c)
    (nb_datagrams_received c) (nb_datagram_bytes_received c)
    (nb_datagrams_sent c) (nb_datagram_bytes_sent c).
Definition set_nb_turns (v : Z) (c : wt_baton_ctx_t) : wt_baton_ctx_t :=
  mk_baton_ctx (h3_ctx c) (control_stream_id c) (is_client c) (baton_state c)
    (nb_turns_required c) v (first_baton c) (baton c) (baton_received c)
    (is_sending c) (sending_stream_id c) (padding_required c) (padding_sent
    c) (is_receiving c) (receiving_stream_id c) (padding_expected c)
    (padding_received c) (receive_buffer c) (nb_receive_buffer_bytes c)
    (nb_baton_bytes_received c) (nb_baton_bytes_sent c) (is_datagram_ready c)
    (baton_datagram_send_next c) (baton_datagram_received c)
    (nb_datagrams_received c) (nb_datagram_bytes_received c)
    (nb_datagrams_sent c) (nb_datagram_bytes_sent c).
Definition set_first_baton (v : Z) (c : wt_baton_ctx_t) : wt_baton_ctx_t :=
  mk_baton_ctx (h3_ctx c) (control_stream_id c) (is_client c) (baton_state c)
    (nb_turns_required c) (nb_turns c) v (baton c) (baton_received c)
    (is_sending c) (sending_stream_id c) (padding_required c) (padding_sent
    c) (is_receiving c) (receiving_stream_id c) (padding_expected c)
    (padding_received c) (receive_buffer c) (nb_receive_buffer_bytes c)
    (nb_baton_bytes_received c) (nb_baton_bytes_sent c) (is_datagram_ready c)
    (baton_datagram_send_next c) (baton_datagram_received c)
    (nb_datagrams_received c) (nb_datagram_bytes_received c)
    (nb_datagrams_sent c) (nb_datagram_bytes_sent c).
Definition set_baton (v : Z) (c : wt_baton_ctx_t) : wt_baton_ctx_t :=
  mk_baton_ctx (h3_ctx c) (control_stream_id c) (is_client c) (baton_state c)
    (nb_turns_required c) (nb_turns c) (first_baton c) v (baton_received c)
    (is_sending c) (sending_stream_id c) (padding_required c) (padding_sent
    c) (is_receiving c) (receiving_stream_id c) (padding_expected c)
    (padding_received c) (receive_buffer c) (nb_receive_buffer_bytes c)
    (nb_baton_bytes_received c) (nb_baton_bytes_sent c) (is_datagram_ready c)
    (baton_datagram_send_next c) (baton_datagram_received c)
    (nb_datagrams_received c) (nb_datagram_bytes_received c)
    (nb_datagrams_sent c) (nb_datagram_bytes_sent c).
Definition set_baton_received (v : Z) (c : wt_baton_ctx_t) : wt_baton_ctx_t :=
  mk_baton_ctx (h3_ctx c) (control_stream_id c) (is_client c) (baton_state c)
    (nb_turns_required c) (nb_turns c) (first_baton c) (baton c) v
    (is_sending c) (sending_stream_id c) (padding_required c) (padding_sent
    c) (is_receiving c) (receiving_stream_id c) (padding_expected c)
    (padding_received c) (receive_buffer c) (nb_receive_buffer_bytes c)
    (nb_baton_bytes_received c) (nb_baton_bytes_sent c) (is_datagram_ready c)
    (baton_datagram_send_next c) (baton_datagram_received c)
    (nb_datagrams_received c) (nb_datagram_bytes_received c)
    (nb_datagrams_sent c) (nb_datagram_bytes_sent c).
Definition set_is_sending (v : bool) (c : wt_baton_ctx_t) : wt_baton_ctx_t :=
  mk_baton_ctx (h3_ctx c) (control_stream_id c) (is_client c) (baton_state c)
    (nb_turns_required c) (nb_turns c) (first_baton c) (baton c)
    (baton_received c) v (sending_stream_id c) (padding_required c)
    (padding_sent c) (is_receiving c) (receiving_stream_id c)
    (padding_expected c) (padding_received c) (receive_buffer c)
    (nb_receive_buffer_bytes c) (nb_baton_bytes_received c)
    (nb_baton_bytes_sent c) (is_datagram_ready c) (baton_datagram_send_next
    c) (baton_datagram_received c) (nb_datagrams_received c)
    (nb_datagram_bytes_received c) (nb_datagrams_sent c)
    (nb_datagram_bytes_sent c).
Definition set_sending_stream_id (v : Z) (c : wt_baton_ctx_t) : wt_baton_ctx_t :=
  mk_baton_ctx (h3_ctx c) (control_stream_id c) (is_client c) (baton_state c)
    (nb_turns_required c) (nb_turns c) (first_baton c) (baton c)
    (baton_received c) (is_sending c) v (padding_required c) (padding_sent c)
    (is_receiving c) (receiving_stream_id c) (padding_expected c)
    (padding_received c) (receive_buffer c) (nb_receive_buffer_bytes c)
    (nb_baton_bytes_received c) (nb_baton_bytes_sent c) (is_datagram_ready c)
    (baton_datagram_send_next c) (baton_datagram_received c)
    (nb_datagrams_received c) (nb_datagram_bytes_received c)
    (nb_datagrams_sent c) (nb_datagram_bytes_sent c).
Definition set_padding_required (v : Z) (c : wt_baton_ctx_t) : wt_baton_ctx_t :=
  mk_baton_ctx (h3_ctx c) (control_stream_id c) (is_client c) (baton_state c)
    (nb_turns_required c) (nb_turns c) (first_baton c) (baton c)
    (baton_received c) (is_sending c) (sending_stream_id c) v (padding_sent
    c) (is_receiving c) (receiving_stream_id c) (padding_expected c)
    (padding_received c) (receive_buffer c) (nb_receive_buffer_bytes c)
    (nb_baton_bytes_received c) (nb_baton_bytes_sent c) (is_datagram_ready c)
    (baton_datagram_send_next c) (baton_datagram_received c)
    (nb_datagrams_received c) (nb_datagram_bytes_received c)
    (nb_datagrams_sent c) (nb_datagram_bytes_sent c).
Definition set_padding_sent (v : Z) (c : wt_baton_ctx_t) : wt_baton_ctx_t :=
  mk_baton_ctx (h3_ctx c) (control_stream_id c) (is_client c) (baton_state c)
    (nb_turns_required c) (nb_turns c) (first_baton c) (baton c)
    (baton_received c) (is_sending c) (sending_stream_id c) (padding_required
    c) v (is_receiving c) (receiving_stream_id c) (padding_expected c)
    (padding_received c) (receive_buffer c) (nb_receive_buffer_bytes c)
    (nb_baton_bytes_received c) (nb_baton_bytes_sent c) (is_datagram_ready c)
    (baton_datagram_send_next c) (baton_datagram_received c)
    (nb_datagrams_received c) (nb_datagram_bytes_received c)
    (nb_datagrams_sent c) (nb_datagram_bytes_sent c).
Definition set_is_receiving (v : bool) (c : wt_baton_ctx_t) : wt_baton_ctx_t :=
  mk_baton_ctx (h3_ctx c) (control_stream_id c) (is_client c) (baton_state c)
    (nb_turns_required c) (nb_turns c) (first_baton c) (baton c)
    (baton_received c) (is_sending c) (sending_stream_id c) (padding_required
    c) (padding_sent c) v (receiving_stream_id c) (padding_expected c)
    (padding_received c) (receive_buffer c) (nb_receive_buffer_bytes c)
    (nb_baton_bytes_received c) (nb_baton_bytes_sent c) (is_datagram_ready c)
    (baton_datagram_send_next c) (baton_datagram_received c)
    (nb_datagrams_received c) (nb_datagram_bytes_received c)
    (nb_datagrams_sent c) (nb_datagram_bytes_sent c).
Definition set_receiving_stream_id (v : Z) (c : wt_baton_ctx_t) : wt_baton_ctx_t :=
  mk_baton_ctx (h3_ctx c) (control_stream_id c) (is_client c) (baton_state c)
    (nb_turns_required c) (nb_turns c) (first_baton c) (baton c)
    (baton_received c) (is_sending c) (sending_stream_id c) (padding_required
    c) (padding_sent c) (is_receiving c) v (padding_expected c)
    (padding_received c) (receive_buffer c) (nb_receive_buffer_bytes c)
    (nb_baton_bytes_received c) (nb_baton_bytes_sent c) (is_datagram_ready c)
    (baton_datagram_send_next c) (baton_datagram_received c)
    (nb_datagrams_received c) (nb_datagram_bytes_received c)
    (nb_datagrams_sent c) (nb_datagram_bytes_sent c).
Definition set_padding_expected (v : Z) (c : wt_baton_ctx_t) : wt_baton_ctx_t :=
  mk_baton_ctx (h3_ctx c) (control_stream_id c) (is_client c) (baton_state c)
    (nb_turns_required c) (nb_turns c) (first_baton c) (baton c)
    (baton_received c) (is_sending c) (sending_stream_id c) (padding_required
    c) (padding_sent c) (is_receiving c) (receiving_stream_id c) v
    (padding_received c) (receive_buffer c) (nb_receive_buffer_bytes c)
    (nb_baton_bytes_received c) (nb_baton_bytes_sent c) (is_datagram_ready c)
    (baton_datagram_send_next c) (baton_datagram_received c)
    (nb_datagrams_received c) (nb_datagram_bytes_received c)
    (nb_datagrams_sent c) (nb_datagram_bytes_sent c).
Definition set_padding_received (v : Z) (c : wt_baton_ctx_t) : wt_baton_ctx_t :=
  mk_baton_ctx (h3_ctx c) (control_stream_id c) (is_client c) (baton_state c)
    (nb_turns_required c) (nb_turns c) (first_baton c) (baton c)
    (baton_received c) (is_sending c) (sending_stream_id c) (padding_required
    c) (padding_sent c) (is_receiving c) (receiving_stream_id c)
    (padding_expected c) v (receive_buffer c) (nb_receive_buffer_bytes c)
    (nb_baton_bytes_received c) (nb_baton_bytes_sent c) (is_datagram_ready c)
    (baton_datagram_send_next c) (baton_datagram_received c)
    (nb_datagrams_received c) (nb_datagram_bytes_received c)
    (nb_datagrams_sent c) (nb_datagram_bytes_sent c).
Definition set_receive_buffer (v : list Z) (c : wt_baton_ctx_t) : wt_baton_ctx_t :=
  mk_baton_ctx (h3_ctx c) (control_stream_id c) (is_client c) (baton_state c)
    (nb_turns_required c) (nb_turns c) (first_baton c) (baton c)
    (baton_received c) (is_sending c) (sending_stream_id c) (padding_required
    c) (padding_sent c) (is_receiving c) (receiving_stream_id c)
    (padding_expected c) (padding_received c) v (nb_receive_buffer_bytes c)
    (nb_baton_bytes_received c) (nb_baton_bytes_sent c) (is_datagram_ready c)
    (baton_datagram_send_next c) (baton_datagram_received c)
    (nb_datagrams_received c) (nb_datagram_bytes_received c)
    (nb_datagrams_sent c) (nb_datagram_bytes_sent c).
Definition set_nb_receive_buffer_bytes (v : Z) (c : wt_baton_ctx_t) : wt_baton_ctx_t :=
  mk_baton_ctx (h3_ctx c) (control_stream_id c) (is_client c) (baton_state c)
    (nb_turns_required c) (nb_turns c) (first_baton c) (baton c)
    (baton_received c) (is_sending c) (sending_stream_id c) (padding_required
    c) (padding_sent c) (is_receiving c) (receiving_stream_id c)
    (padding_expected c) (padding_received c) (receive_buffer c) v
    (nb_baton_bytes_received c) (nb_baton_bytes_sent c) (is_datagram_ready c)
    (baton_datagram_send_next c) (baton_datagram_received c)
    (nb_datagrams_received c) (nb_datagram_bytes_received c)
    (nb_datagrams_sent c) (nb_datagram_bytes_sent c).
Definition set_nb_baton_bytes_received (v : Z) (c : wt_baton_ctx_t) : wt_baton_ctx_t :=
  mk_baton_ctx (h3_ctx c) (control_stream_id c) (is_client c) (baton_state c)
    (nb_turns_required c) (nb_turns c) (first_baton c) (baton c)
    (baton_received c) (is_sending c) (sending_stream_id c) (padding_required
    c) (padding_sent c) (is_receiving c) (receiving_stream_id c)
    (padding_expected c) (padding_received c) (receive_buffer c)
    (nb_receive_buffer_bytes c) v (nb_baton_bytes_sent c) (is_datagram_ready
    c) (baton_datagram_send_next c) (baton_datagram_received c)
    (nb_datagrams_received c) (nb_datagram_bytes_received c)
    (nb_datagrams_sent c) (nb_datagram_bytes_sent c).
Definition set_nb_baton_bytes_sent (v : Z) (c : wt_baton_ctx_t) : wt_baton_ctx_t :=
  mk_baton_ctx (h3_ctx c) (control_stream_id c) (is_client c) (baton_state c)
    (nb_turns_required c) (nb_turns c) (first_baton c) (baton c)
    (baton_received c) (is_sending c) (sending_stream_id c) (padding_required
    c) (padding_sent c) (is_receiving c) (receiving_stream_id c)
    (padding_expected c) (padding_received c) (receive_buffer c)
    (nb_receive_buffer_bytes c) (nb_baton_bytes_received c) v
    (is_datagram_ready c) (baton_datagram_send_next c)
    (baton_datagram_received c) (nb_datagrams_received c)
    (nb_datagram_bytes_received c) (nb_datagrams_sent c)
    (nb_datagram_bytes_sent c).
Definition set_is_datagram_ready (v : bool) (c : wt_baton_ctx_t) : wt_baton_ctx_t :=
  mk_baton_ctx (h3_ctx c) (control_stream_id c) (is_client c) (baton_state c)
    (nb_turns_required c) (nb_turns c) (first_baton c) (baton c)
    (baton_received c) (is_sending c) (sending_stream_id c) (padding_required
    c) (padding_sent c) (is_receiving c) (receiving_stream_id c)
    (padding_expected c) (padding_received c) (receive_buffer c)
    (nb_receive_buffer_bytes c) (nb_baton_bytes_received c)
    (nb_baton_bytes_sent c) v (baton_datagram_send_next c)
    (baton_datagram_received c) (nb_datagrams_received c)
    (nb_datagram_bytes_received c) (nb_datagrams_sent c)
    (nb_datagram_bytes_sent c).
Definition set_baton_datagram_send_next (v : Z) (c : wt_baton_ctx_t) : wt_baton_ctx_t :=
  mk_baton_ctx (h3_ctx c) (control_stream_id c) (is_client c) (baton_state c)
    (nb_turns_required c) (nb_turns c) (first_baton c) (baton c)
    (baton_received c) (is_sending c) (sending_stream_id c) (padding_required
    c) (padding_sent c) (is_receiving c) (receiving_stream_id c)
    (padding_expected c) (padding_received c) (receive_buffer c)
    (nb_receive_buffer_bytes c) (nb_baton_bytes_received c)
    (nb_baton_bytes_sent c) (is_datagram_ready c) v (baton_datagram_received
    c) (nb_datagrams_received c) (nb_datagram_bytes_received c)
    (nb_datagrams_sent c) (nb_datagram_bytes_sent c).
Definition set_baton_datagram_received (v : Z) (c : wt_baton_ctx_t) : wt_baton_ctx_t :=
  mk_baton_ctx (h3_ctx c) (control_stream_id c) (is_client c) (baton_state c)
    (nb_turns_required c) (nb_turns c) (first_baton c) (baton c)
    (baton_received c) (is_sending c) (sending_stream_id c) (padding_required
    c) (padding_sent c) (is_receiving c) (receiving_stream_id c)
    (padding_expected c) (padding_received c) (receive_buffer c)
    (nb_receive_buffer_bytes c) (nb_baton_bytes_received c)
    (nb_baton_bytes_sent c) (is_datagram_ready c) (baton_datagram_send_next
    c) v (nb_datagrams_received c) (nb_datagram_bytes_received c)
    (nb_datagrams_sent c) (nb_datagram_bytes_sent c).
Definition set_nb_datagrams_received (v : Z) (c : wt_baton_ctx_t) : wt_baton_ctx_t :=
  mk_baton_ctx (h3_ctx c) (control_stream_id c) (is_client c) (baton_state c)
    (nb_turns_required c) (nb_turns c) (first_baton c) (baton c)
    (baton_received c) (is_sending c) (sending_stream_id c) (padding_required
    c) (padding_sent c) (is_receiving c) (receiving_stream_id c)
    (padding_expected c) (padding_received c) (receive_buffer c)
    (nb_receive_buffer_bytes c) (nb_baton_bytes_received c)
    (nb_baton_bytes_sent c) (is_datagram_ready c) (baton_datagram_send_next
    c) (baton_datagram_received c) v (nb_datagram_bytes_received c)
    (nb_datagrams_sent c) (nb_datagram_bytes_sent c).
Definition set_nb_datagram_bytes_received (v : Z) (c : wt_baton_ctx_t) : wt_baton_ctx_t :=
  mk_baton_ctx (h3_ctx c) (control_stream_id c) (is_client c) (baton_state c)
    (nb_turns_required c) (nb_turns c) (first_baton c) (baton c)
    (baton_received c) (is_sending c) (sending_stream_id c) (padding_required
    c) (padding_sent c) (is_receiving c) (receiving_stream_id c)
    (padding_expected c) (padding_received c) (receive_buffer c)
    (nb_receive_buffer_bytes c) (nb_baton_bytes_received c)
    (nb_baton_bytes_sent c) (is_datagram_ready c) (baton_datagram_send_next
    c) (baton_datagram_received c) (nb_datagrams_received c) v
    (nb_datagrams_sent c) (nb_datagram_bytes_sent c).
Definition set_nb_datagrams_sent (v : Z) (c : wt_baton_ctx_t) : wt_baton_ctx_t :=
  mk_baton_ctx (h3_ctx c) (control_stream_id c) (is_client c) (baton_state c)
    (nb_turns_required c) (nb_turns c) (first_baton c) (baton c)
    (baton_received c) (is_sending c) (sending_stream_id c) (padding_required
    c) (padding_sent c) (is_receiving c) (receiving_stream_id c)
    (padding_expected c) (padding_received c) (receive_buffer c)
    (nb_receive_buffer_bytes c) (nb_baton_bytes_received c)
    (nb_baton_bytes_sent c) (is_datagram_ready c) (baton_datagram_send_next
    c) (baton_datagram_received c) (nb_datagrams_received c)
    (nb_datagram_bytes_received c) v (nb_datagram_bytes_sent c).
Definition set_nb_datagram_bytes_sent (v : Z) (c : wt_baton_ctx_t) : wt_baton_ctx_t :=
  mk_baton_ctx (h3_ctx c) (control_stream_id c) (is_client c) (baton_state c)
    (nb_turns_required c) (nb_turns c) (first_baton c) (baton c)
    (baton_received c) (is_sending c) (sending_stream_id c) (padding_required
    c) (padding_sent c) (is_receiving c) (receiving_stream_id c)
    (padding_expected c) (padding_received c) (receive_buffer c)
    (nb_receive_buffer_bytes c) (nb_baton_bytes_received c)
    (nb_baton_bytes_sent c) (is_datagram_ready c) (baton_datagram_send_next
    c) (baton_datagram_received c) (nb_datagrams_received c)
    (nb_datagram_bytes_received c) (nb_datagrams_sent c) v.

(** ** Stream contexts, the connection and the world *)

(** The fields of [picohttp_server_stream_ctx_t] that wt_baton.c uses.
    [stream_control_stream_id] is the field [control_stream_id] of the
    stream context; [path_callback] tells whether the callback of the
    stream is bound to this session. *)
Record picohttp_server_stream_ctx_t : Type := mk_stream_ctx {
  stream_id : Z;
  stream_control_stream_id : Z;
  is_fin_sent : bool;
  is_fin_received : bool;
  path_callback : bool
}.

Definition set_stream_control_stream_id (v : Z)
    (s : picohttp_server_stream_ctx_t) : picohttp_server_stream_ctx_t :=
  mk_stream_ctx (stream_id s) v (is_fin_sent s) (is_fin_received s)
    (path_callback s).

Definition set_is_fin_sent (v : bool)
    (s : picohttp_server_stream_ctx_t) : picohttp_server_stream_ctx_t :=
  mk_stream_ctx (stream_id s) (stream_control_stream_id s) v
    (is_fin_received s) (path_callback s).

Definition set_is_fin_received (v : bool)
    (s : picohttp_server_stream_ctx_t) : picohttp_server_stream_ctx_t :=
  mk_stream_ctx (stream_id s) (stream_control_stream_id s) (is_fin_sent s) v
    (path_callback s).

Definition set_path_callback (v : bool)
    (s : picohttp_server_stream_ctx_t) : picohttp_server_stream_ctx_t :=
  mk_stream_ctx (stream_id s) (stream_control_stream_id s) (is_fin_sent s)
    (is_fin_received s) v.

(** The calls that wt_baton.c makes to the transport and to h3zero for
    their effect, with the arguments that matter. *)
Inductive transport_call : Type :=
  | Call_add_to_stream (sid : Z) (data : list Z) (set_fin : bool)
  | Call_mark_active_stream (sid : Z)
  | Call_send_close_session_message (sid : Z) (err : Z) (err_msg : option string)
  | Call_set_datagram_ready (sid : Z)
  | Call_provide_stream_data_buffer (nb_bytes : Z) (is_fin is_still_active : bool)
      (written : list Z)
  | Call_provide_datagram_buffer (written : list Z)
  | Call_close (err : Z)
  | Call_declare_stream_prefix (sid : Z)
  | Call_delete_stream_prefix (sid : Z).

(** The connection [picoquic_cnx_t], as far as wt_baton.c observes it: the
    role, whether a callback context is set, the next stream identifiers
    the connection will hand out, and the answers to the calls above (return
    codes, whether a stream context or a datagram buffer can be had), which
    the code of wt_baton.c does not decide. *)
Record picoquic_cnx_t : Type := mk_cnx {
  client_mode : Z;
  callback_context : bool;
  next_local_bidir : Z;
  next_local_unidir : Z;
  stream_ctx_alloc : Z -> bool;
  add_to_stream_ret : Z -> Z;
  mark_active_stream_ret : Z -> Z;
  send_close_ret : Z -> Z;
  declare_prefix_ret : Z -> Z;
  close_ret : Z;
  datagram_buffer : bool
}.

Record world : Type := mk_world {
  ctx : wt_baton_ctx_t;
  streams : gmap Z picohttp_server_stream_ctx_t;
  cnx : picoquic_cnx_t;
  trace : list transport_call
}.

Definition upd_ctx (f : wt_baton_ctx_t -> wt_baton_ctx_t) (w : world) : world :=
  mk_world (f (ctx w)) (streams w) (cnx w) (trace w).

Definition upd_stream (sid : Z)
    (f : picohttp_server_stream_ctx_t -> picohttp_server_stream_ctx_t)
    (w : world) : world :=
  mk_world (ctx w) (alter f sid (streams w)) (cnx w) (trace w).

Definition emit (e : transport_call) (w : world) : world :=
  mk_world (ctx w) (streams w) (cnx w) (trace w ++ [e]).

(** ** Variable-length integers (picoquic frames)

    Modelled from the spec: picoquic_frames_varint_encode,
    picoquic_frames_varint_decode, picoquic_frames_fixed_skip,
    picoquic_frames_uint8_decode and the macro VARINT_LEN_T belong to
    picoquic and are not part of the sources at hand.  The spec says that
    the length is a variable-length non-negative integer, that one byte
    encodes values up to 0x3F and two bytes values up to 0x3FFF, and that
    the high bits of the first byte tell how many bytes the encoding
    occupies; this is the QUIC encoding, with 4 and 8 byte forms for the
    larger values. *)
Definition VARINT_LEN_T (buf : list Z) : Z :=
  Z.shiftl 1 (Z.shiftr (Z.land (nth 0 buf 0) 0xC0) 6).

Definition picoquic_frames_varint_encode (n64 : Z) : list Z :=
  if n64 <? 16384 then
    if n64 <? 64 then [u8 n64]
    else [u8 (Z.lor (Z.shiftr n64 8) 0x40); u8 n64]
  else if n64 <? 1073741824 then
    [u8 (Z.lor (Z.shiftr n64 24) 0x80); u8 (Z.shiftr n64 16);
     u8 (Z.shiftr n64 8); u8 n64]
  else
    [u8 (Z.lor (Z.shiftr n64 56) 0xC0); u8 (Z.shiftr n64 48);
     u8 (Z.shiftr n64 40); u8 (Z.shiftr n64 32); u8 (Z.shiftr n64 24);
     u8 (Z.shiftr n64 16); u8 (Z.shiftr n64 8); u8 n64].

(** Decoding returns the bytes that follow the integer and its value, or
    [None] (NULL in C) when the bytes end before the integer does. *)
Definition picoquic_frames_varint_decode (bytes : list Z) : option (list Z * Z) :=
  match bytes with
  | [] => None
  | b0 :: tl =>
      let len := Z.to_nat (VARINT_LEN_T bytes) in
      if (len <=? length bytes)%nat then
        Some (drop len bytes,
              fold_left (fun v b => v * 256 + b) (take (len - 1) tl)
                (Z.land b0 0x3F))
      else None
  end.

Definition picoquic_frames_fixed_skip (bytes : list Z) (size : Z) : option (list Z) :=
  if size <=? Z.of_nat (length bytes) then Some (drop (Z.to_nat size) bytes)
  else None.

Definition picoquic_frames_uint8_decode (bytes : list Z) : option (list Z * Z) :=
  match bytes with
  | [] => None
  | b :: tl => Some (tl, b)
  end.

(** ** Calls to the transport *)

Definition picoquic_add_to_stream_with_ctx (sid : Z) (data : list Z)
    (set_fin : bool) (w : world) : Z * world :=
  (add_to_stream_ret (cnx w) sid, emit (Call_add_to_stream sid data set_fin) w).

Definition picoquic_mark_active_stream (sid : Z) (w : world) : Z * world :=
  (mark_active_stream_ret (cnx w) sid, emit (Call_mark_active_stream sid) w).

(** Modelled from the spec: picowt_send_close_session_message belongs to
    pico_webtransport.c, which is not part of the sources at hand.  The spec
    says that closing sends a single explicit close message on the control
    stream, carrying a numeric code and a reason, and that a second close
    attempt finds the control stream already finished: the message
    finishes the control stream. *)
Definition picowt_send_close_session_message (sid : Z) (err : Z)
    (err_msg : option string) (w : world) : Z * world :=
  (send_close_ret (cnx w) err,
   upd_stream sid (set_is_fin_sent true)
     (emit (Call_send_close_session_message sid err err_msg) w)).

(** [h3zero_find_stream]: the stream context registered under an
    identifier in the stream tree of the h3zero context.  A stream context
    is registered under its own identifier.  With a NULL h3zero context the
    C code would fault; the model finds no stream. *)
Definition wt_baton_find_stream (w : world) (sid : Z)
    : option picohttp_server_stream_ctx_t :=
  if h3_ctx (ctx w) then streams w !! sid else None.

(** [h3zero_delete_stream], preceded in the code by
    [picoquic_set_app_stream_ctx (cnx, stream_id, NULL)]. *)
Definition h3zero_delete_stream (sid : Z) (w : world) : world :=
  mk_world (ctx w) (delete sid (streams w)) (cnx w) (trace w).

(** ** Closing the session *)

(** The reason sent when the caller gives none. *)
Definition default_err_msg (err : Z) : option string :=
  if err =? 0 then Some "Have a nice day"%string
  else if err =? WT_BATON_SESSION_ERR_DA_YAMN then
    Some "There is insufficient stream credit to continue the protocol"%string
  else if err =? WT_BATON_SESSION_ERR_BRUH then
    Some "Received a malformed Baton message"%string
  else if err =? WT_BATON_SESSION_ERR_GAME_OVER then
    Some "All baton streams have been reset"%string
  else if err =? WT_BATON_SESSION_ERR_BORED then
    Some "Got tired of waiting for the next message"%string
  else None.

Definition wt_baton_close_session (err : Z) (err_msg : option string)
    (w : world) : Z * world :=
  match wt_baton_find_stream w (control_stream_id (ctx w)) with
  | Some stream_ctx =>
      if negb (is_fin_sent stream_ctx) then
        let err_msg :=
          match err_msg with
          | Some m => Some m
          | None => default_err_msg err
          end in
        let '(ret, w) :=
          picowt_send_close_session_message (control_stream_id (ctx w)) err
            err_msg w in
        (ret, upd_ctx (set_baton_state wt_baton_state_closed) w)
      else (0, w)
  | None => (0, w)
  end.

(** ** Ready to receive *)

Definition wt_baton_set_receive_ready (c : wt_baton_ctx_t) : wt_baton_ctx_t :=
  set_nb_receive_buffer_bytes 0
    (set_padding_received 0
       (set_padding_expected UINT64_MAX
          (set_receiving_stream_id UINT64_MAX
             (set_is_receiving true c)))).

(** ** Creating a local stream *)

Definition picoquic_get_next_local_stream_id (w : world) (is_unidir : bool) : Z :=
  if is_unidir then next_local_unidir (cnx w) else next_local_bidir (cnx w).

(** [h3zero_find_or_create_stream]: the context registered under the
    identifier, or a fresh one, or NULL when none can be allocated. *)
Definition h3zero_find_or_create_stream (sid : Z) (w : world) : option Z * world :=
  match streams w !! sid with
  | Some _ => (Some sid, w)
  | None =>
      if stream_ctx_alloc (cnx w) sid then
        (Some sid,
         mk_world (ctx w)
           (<[sid := mk_stream_ctx sid UINT64_MAX false false false]> (streams w))
           (cnx w) (trace w))
      else (None, w)
  end.

(** [picoquic_set_app_stream_ctx] on a stream that the connection does not
    have yet creates it: the connection moves on to its next identifier of
    that kind. *)
Definition picoquic_set_app_stream_ctx (is_bidir : bool) (w : world) : world :=
  let q := cnx w in
  mk_world (ctx w) (streams w)
    (mk_cnx (client_mode q) (callback_context q)
       (if is_bidir then next_local_bidir q + 4 else next_local_bidir q)
       (if is_bidir then next_local_unidir q else next_local_unidir q + 4)
       (stream_ctx_alloc q) (add_to_stream_ret q) (mark_active_stream_ret q)
       (send_close_ret q) (declare_prefix_ret q) (close_ret q)
       (datagram_buffer q))
    (trace w).

Definition wt_baton_create_stream (is_bidir : bool) (w : world) : option Z * world :=
  let stream_id := picoquic_get_next_local_stream_id w (negb is_bidir) in
  match h3zero_find_or_create_stream stream_id w with
  | (Some sid, w) =>
      let w :=
        upd_stream sid
          (set_stream_control_stream_id (control_stream_id (ctx w))) w in
      (Some sid, picoquic_set_app_stream_ctx is_bidir w)
  | (None, w) => (None, w)
  end.

(** ** The relay dispatcher *)

(** The header written first on a new stream: a type tag, then the
    identifier of the control stream, both as variable-length integers. *)
Definition stream_header (tag : Z) (w : world) : list Z :=
  picoquic_frames_varint_encode tag
    ++ picoquic_frames_varint_encode (control_stream_id (ctx w)).

(** Both branches that open a stream run the same steps, on a stream of one
    kind or the other and with one tag or the other: create the stream,
    write the header. *)
Definition relay_new_stream (is_bidir : bool) (tag : Z) (w : world)
    : Z * option Z * world :=
  match wt_baton_create_stream is_bidir w with
  | (Some sid, w) =>
      (* write the first required bytes for sending the context id *)
      let '(ret, w) :=
        picoquic_add_to_stream_with_ctx sid (stream_header tag w) false w in
      (ret, Some sid, w)
  | (None, w) => (-1, None, w)
  end.

(** The first part of [wt_baton_relay]: find the stream on which the next
    baton goes out.  The result is the return code and the stream context
    in hand after the three-way test. *)
Definition relay_next_stream (stream_ctx : option Z) (w : world)
    : Z * option Z * world :=
  let need_unidir :=
    match stream_ctx with
    | None => true
    | Some sid =>
        IS_BIDIR_STREAM_ID sid && IS_LOCAL_STREAM_ID sid (is_client (ctx w))
    end in
  let not_bidir :=
    match stream_ctx with
    | None => false
    | Some sid => negb (IS_BIDIR_STREAM_ID sid)
    end in
  if need_unidir then
    (* need to relay on a new unidir stream *)
    relay_new_stream false h3zero_stream_type_webtransport w
  else if not_bidir then
    (* need to relay on a new local bidir stream *)
    relay_new_stream true h3zero_frame_webtransport_stream w
  else
    (* no op: the baton goes back on the stream it came on *)
    (0, stream_ctx, w).

(** The second part: count the turn, arm the stream for sending. *)
Definition arm_sending (sid : Z) (c : wt_baton_ctx_t) : wt_baton_ctx_t :=
  set_padding_sent 0
    (set_padding_required UINT64_MAX
       (set_sending_stream_id sid
          (set_is_sending true
             (set_nb_turns (s32 (nb_turns c + 1)) c)))).

Definition relay_arm (sid : Z) (w : world) : Z * world :=
  let w := upd_ctx (arm_sending sid) w in
  let w := upd_stream sid (set_path_callback true) w in
  picoquic_mark_active_stream sid w.

Definition wt_baton_relay (stream_ctx : option Z) (w : world) : Z * world :=
  match relay_next_stream stream_ctx w with
  | (ret, Some sid, w) => if ret =? 0 then relay_arm sid w else (ret, w)
  | (ret, None, w) => (ret, w)
  end.

(** ** The turn check *)

(** [picoquic_is_client]. *)
Definition picoquic_is_client (w : world) : Z := client_mode (cnx w).

Definition h3zero_set_datagram_ready (sid : Z) (w : world) : world :=
  emit (Call_set_datagram_ready sid) w.

(** The branch of [wt_baton_check] taken by a baton that is neither zero
    nor wrong: arm the datagram, count the turn of the peer, choose the
    next baton, relay. *)
Definition check_next_baton (c : wt_baton_ctx_t) : wt_baton_ctx_t :=
  let c := set_nb_turns (s32 (nb_turns c + 1)) c in
  if nb_turns_required c <=? nb_turns c then
    set_baton 0 (set_baton_state wt_baton_state_done c)
  else if (4 <=? nb_turns c) && (nb_turns_required c =? 257) then
    let c := set_baton (u8 (baton c + 31)) c in
    if baton c =? 0 then set_baton 1 c else c
  else
    set_baton (u8 (baton_received c + 1))
      (set_baton_state wt_baton_state_sent c).

Definition check_arm_datagram (w : world) : world :=
  let c := ctx w in
  let baton_7 := baton_received c mod 7 in
  if (baton_7 =? picoquic_is_client w) && negb (baton_received c =? 0) then
    h3zero_set_datagram_ready (control_stream_id c)
      (upd_ctx (fun c =>
         set_baton_datagram_send_next (baton_received c)
           (set_is_datagram_ready true c)) w)
  else w.

Definition wt_baton_check (sid : Z) (w : world) : Z * world :=
  if baton_received (ctx w) =? 0 then
    (* the exchange is done *)
    let w := upd_ctx (set_baton_state wt_baton_state_done) w in
    let w :=
      if IS_BIDIR_STREAM_ID sid
         && negb (IS_LOCAL_STREAM_ID sid (is_client (ctx w))) then
        (* before closing the session, close this stream *)
        let '(_, w) := picoquic_add_to_stream_with_ctx sid [] true w in
        upd_stream sid (set_is_fin_sent true) w
      else w in
    wt_baton_close_session 0 None w
  else
    let c := ctx w in
    let is_wrong_baton :=
      state_eqb (baton_state c) wt_baton_state_sent
      && negb (baton_received c =? baton c + 1) in
    let w :=
      if state_eqb (baton_state c) wt_baton_state_ready
         && (first_baton c =? 0) then
        upd_ctx (set_first_baton (baton_received c)) w
      else w in
    if is_wrong_baton then
      let w := upd_ctx (set_baton_state wt_baton_state_error) w in
      wt_baton_close_session WT_BATON_SESSION_ERR_BRUH None w
    else
      let w := check_arm_datagram w in
      let w := upd_ctx check_next_baton w in
      wt_baton_relay (Some sid) w.

(** ** Incoming stream data: the resumable frame decoder *)

(** [receive_buffer[i] = b].  The capacity of the array is declared in
    wt_baton.h; the model keeps the bytes stored so far and lets the list
    grow.  The code stores at index [nb_receive_buffer_bytes], which stays
    below the length of the longest variable-length integer. *)
Definition array_store (i : Z) (b : Z) (buf : list Z) : list Z :=
  if i <? Z.of_nat (length buf) then <[Z.to_nat i := b]> buf
  else buf ++ [b].

(** The loop that buffers the padding length, byte by byte.  [rest] holds
    [bytes] from index [processed] on, so that the loop test
    [processed < length] is [rest] being non-empty. *)
Fixpoint read_padding_length (rest : list Z) (c : wt_baton_ctx_t)
    (processed : Z) {struct rest} : wt_baton_ctx_t * Z :=
  if padding_expected c =? UINT64_MAX then
    match rest with
    | [] => (c, processed)
    | b :: rest' =>
        let expected_length_of_length := VARINT_LEN_T (receive_buffer c) in
        if (0 <? nb_receive_buffer_bytes c)
           && (expected_length_of_length <=? nb_receive_buffer_bytes c) then
          (* decode the expected length, and leave the loop *)
          (match picoquic_frames_varint_decode
                   (take (Z.to_nat expected_length_of_length) (receive_buffer c))
           with
           | Some (_, v) => set_padding_expected v c
           | None => c
           end, processed)
        else
          read_padding_length rest'
            (set_nb_receive_buffer_bytes (nb_receive_buffer_bytes c + 1)
               (set_receive_buffer
                  (array_store (nb_receive_buffer_bytes c) b (receive_buffer c))
                  c))
            (processed + 1)
    end
  else (c, processed).

(** Skipping the padding. *)
Definition skip_padding (length : Z) (c : wt_baton_ctx_t) (processed : Z)
    : wt_baton_ctx_t * Z :=
  if negb (padding_expected c =? UINT64_MAX) && (processed <? length) then
    if padding_received c <? padding_expected c then
      let available := u64 (length - processed) in
      let available :=
        if padding_expected c <? u64 (available + padding_received c) then
          u64 (padding_expected c - padding_received c)
        else available in
      (set_padding_received (u64 (padding_received c + available)) c,
       u64 (processed + available))
    else (c, processed)
  else (c, processed).

(** Reading the baton byte, which must be the last byte of the range. *)
Definition read_baton (bytes : list Z) (length : Z) (processed : Z) (w : world)
    : Z * world :=
  let c := ctx w in
  if negb (padding_expected c =? UINT64_MAX)
     && (padding_expected c =? padding_received c)
     && (processed <? length) then
    if negb (is_receiving c) || (u64 (processed + 1) <? length) then
      wt_baton_close_session WT_BATON_SESSION_ERR_BRUH
        (Some "Too much data on stream!"%string) w
    else
      (0, upd_ctx (fun c =>
            set_is_receiving false
              (set_baton_received (nth (Z.to_nat processed) bytes 0) c)) w)
  else (0, w).

(** The end of the stream: a frame that stops before its baton is an error,
    a complete one is checked; a stream finished in both directions is
    forgotten. *)
Definition stream_data_fin (sid : Z) (w : world) : Z * world :=
  let '(ret, w) :=
    if is_receiving (ctx w) then
      wt_baton_close_session WT_BATON_SESSION_ERR_BRUH
        (Some "Fin stream before baton"%string) w
    else wt_baton_check sid w in
  match streams w !! sid with
  | Some stream_ctx =>
      if is_fin_sent stream_ctx
         && (is_fin_received stream_ctx
             || negb (sid =? control_stream_id (ctx w))) then
        (ret, if callback_context (cnx w) then h3zero_delete_stream sid w else w)
      else (ret, w)
  | None => (ret, w)
  end.

(** The bytes of a non-empty range: check the stream, count the bytes,
    then run the three stages of the decoder. *)
Definition stream_data_bytes (bytes : list Z) (sid : Z) (w : world) : Z * world :=
  let length := Z.of_nat (length bytes) in
  (* check that this is the right stream *)
  let w :=
    if receiving_stream_id (ctx w) =? UINT64_MAX then
      upd_ctx (set_receiving_stream_id sid) w
    else w in
  if negb (receiving_stream_id (ctx w) =? sid) then
    wt_baton_close_session WT_BATON_SESSION_ERR_BRUH
      (Some "Data on wrong stream!"%string) w
  else
    let w :=
      upd_ctx (fun c =>
        set_nb_baton_bytes_received
          (u64 (nb_baton_bytes_received c + length)) c) w in
    let '(c, processed) := read_padding_length bytes (ctx w) 0 in
    let '(c, processed) := skip_padding length c processed in
    read_baton bytes length processed (upd_ctx (fun _ => c) w).

(** The data of a relay stream, when the session is ready or has sent.
    The end of the stream is looked at inside the test on the length. *)
Definition stream_data_baton (bytes : list Z) (is_fin : bool) (sid : Z)
    (w : world) : Z * world :=
  if 0 <? Z.of_nat (length bytes) then
    let '(ret, w) := stream_data_bytes bytes sid w in
    if is_fin then stream_data_fin sid w else (ret, w)
  else (0, w).

(** [picoquic_close]. *)
Definition picoquic_close (err : Z) (w : world) : Z * world :=
  (close_ret (cnx w), emit (Call_close err) w).

(** The callback is invoked by h3zero on a stream context of its tree:
    [sid] is the key of that context, and nothing is done for a key that
    the tree does not hold. *)
Definition wt_baton_stream_data (bytes : list Z) (is_fin : bool) (sid : Z)
    (w : world) : Z * world :=
  match streams w !! sid with
  | None => (0, w)
  | Some stream_ctx =>
      if sid =? control_stream_id (ctx w) then
        if negb is_fin then (0, w)
        else
          let w := upd_stream sid (set_is_fin_received true) w in
          let w := upd_ctx (set_baton_state wt_baton_state_closed) w in
          if negb (is_client (ctx w) =? 0) then picoquic_close 0 w
          else
            let w :=
              if negb (is_fin_sent stream_ctx) then
                snd (picoquic_add_to_stream_with_ctx sid [] true w)
              else w in
            (0, emit (Call_delete_stream_prefix sid) w)
      else if stream_control_stream_id stream_ctx =? UINT64_MAX then (0, w)
      else if negb (state_eqb (baton_state (ctx w)) wt_baton_state_ready)
              && negb (state_eqb (baton_state (ctx w)) wt_baton_state_sent) then
        (* unexpected data at this stage *)
        wt_baton_close_session WT_BATON_SESSION_ERR_BRUH
          (Some "Too much data on stream!"%string) w
      else stream_data_baton bytes is_fin sid w
  end.

(** The sibling of the end-of-stream handling above, for an end of stream
    that comes without data.  [wt_baton_callback] does not call it: both
    the data and the end-of-stream events go to [wt_baton_stream_data]. *)
Definition wt_baton_stream_fin (sid : Z) (w : world) : Z * world :=
  let w := upd_stream sid (set_is_fin_received true) w in
  if sid =? control_stream_id (ctx w) then (0, w)
  else
    let '(ret, w) :=
      if is_receiving (ctx w) && (sid =? receiving_stream_id (ctx w)) then
        wt_baton_close_session WT_BATON_SESSION_ERR_BRUH
          (Some "Fin stream before baton"%string) w
      else (0, w) in
    match streams w !! sid with
    | Some stream_ctx =>
        if is_fin_sent stream_ctx then
          (ret, if callback_context (cnx w) then h3zero_delete_stream sid w else w)
        else (ret, w)
    | None => (ret, w)
    end.

(** ** Outgoing stream data: the frame encoder *)

(** The first call for a frame commits to a padding length; the result is
    the context and [padding_length_length], the number of bytes of the
    length prefix still to be written (0 once the choice is made). *)
Definition choose_padding (space : Z) (c : wt_baton_ctx_t) : wt_baton_ctx_t * Z :=
  if padding_required c =? UINT64_MAX then
    if state_eqb (baton_state c) wt_baton_state_done then
      (set_padding_required 0 c, 1)
    else if space =? 1 then (set_padding_required 0x3F c, 1)
    else (set_padding_required 0x3FFF c, 2)
  else (c, 0).

(** The three committed lengths are encoded on exactly
    [padding_length_length] bytes, so that the encoder, which is given
    that much room, never fails.

    The buffer that the transport hands out holds [useful] bytes.  The code
    writes into it the [padding_length_length] bytes of the prefix, then
    [pad_length] bytes of padding and, when the frame ends here, the baton.
    These are more than [useful] bytes when the space offered is less than
    the prefix still to be written, so that [space - padding_length_length]
    wraps around, and when the padding sent is beyond the padding required:
    the C then writes past the buffer, and the call has no result. *)
Definition provide_frame (space : Z) (sid : Z) (w : world) : option (Z * world) :=
  let '(c, padding_length_length) := choose_padding space (ctx w) in
  let useful :=
    u64 (padding_length_length + u64 (padding_required c - padding_sent c) + 1) in
  let '(useful, pad_length, c) :=
    if space <? useful then (space, u64 (space - padding_length_length), c)
    else (useful, u64 (padding_required c - padding_sent c),
          set_is_sending false c) in
  let consumed := padding_length_length + pad_length in
  if useful <? (if is_sending c then consumed else consumed + 1) then None
  else
    let written :=
      (if 0 <? padding_length_length then
         picoquic_frames_varint_encode (padding_required c)
       else [])
      ++ replicate (Z.to_nat pad_length) 0
      ++ (if is_sending c then [] else [baton c]) in
    let w :=
      emit (Call_provide_stream_data_buffer useful (negb (is_sending c))
              (is_sending c) written) w in
    let c :=
      if 0 <? pad_length then set_padding_sent (u64 (padding_sent c + pad_length)) c
      else c in
    let c := set_nb_baton_bytes_sent (u64 (nb_baton_bytes_sent c + useful)) c in
    if is_sending c then Some (0, upd_ctx (fun _ => c) w)
    else
      (* everything was sent *)
      let c := wt_baton_set_receive_ready (set_baton_state wt_baton_state_sent c) in
      let w := upd_stream sid (set_is_fin_sent true) (upd_ctx (fun _ => c) w) in
      match streams w !! sid with
      | Some stream_ctx =>
          if is_fin_received stream_ctx then Some (0, h3zero_delete_stream sid w)
          else Some (0, w)
      | None => Some (0, w)
      end.

(** [space] is a [size_t]: the transport offers between 0 and [UINT64_MAX]
    bytes. *)
Definition wt_baton_provide_data (space : Z) (sid : Z) (w : world)
    : option (Z * world) :=
  let '(ret, w) :=
    if sending_stream_id (ctx w) =? UINT64_MAX then
      (0, upd_ctx (set_sending_stream_id sid) w)
    else if negb (sending_stream_id (ctx w) =? sid) then
      wt_baton_close_session WT_BATON_SESSION_ERR_BRUH
        (Some "Sending on wrong stream!"%string) w
    else (0, w) in
  if (ret =? 0) && is_sending (ctx w) then provide_frame space sid w
  else
    (* not sending here *)
    Some (ret, emit (Call_provide_stream_data_buffer 0 false false []) w).

(** ** Datagrams *)

Definition wt_baton_receive_datagram (bytes : list Z) (stream_ctx : option Z)
    (w : world) : Z * world :=
  let length := Z.of_nat (length bytes) in
  let unexpected :=
    match stream_ctx with
    | Some sid => negb (sid =? control_stream_id (ctx w))
    | None => false
    end in
  if unexpected then
    (* error, unexpected datagram on this stream *)
    (0, w)
  else
    match picoquic_frames_varint_decode bytes with
    | Some (bytes, padding_length) =>
        match picoquic_frames_fixed_skip bytes padding_length with
        | Some bytes =>
            match picoquic_frames_uint8_decode bytes with
            | Some ([], next_baton) =>
                (0, upd_ctx (fun c =>
                      set_nb_datagram_bytes_received
                        (u64 (nb_datagram_bytes_received c + length))
                        (set_nb_datagrams_received
                           (s32 (nb_datagrams_received c + 1))
                           (set_baton_datagram_received next_baton c))) w)
            | _ => (0, w)
            end
        | None => (0, w)
        end
    | None =>
        (* error, badly coded datagram *)
        (0, w)
    end.

Definition wt_baton_provide_datagram (space : Z) (w : world) : Z * world :=
  if is_datagram_ready (ctx w) then
    let space := if 1536 <? space then 1536 else space in
    if space <? 3 then
      (* not enough space to send anything *)
      (0, w)
    else if negb (datagram_buffer (cnx w)) then (-1, w)
    else
      let padding_length := space - 3 in
      let written :=
        [u8 (Z.lor 0x40 (Z.land (Z.shiftr padding_length 8) 0x3F));
         u8 (Z.land padding_length 0xFF)]
        ++ replicate (Z.to_nat padding_length) 0
        ++ [baton_datagram_send_next (ctx w)] in
      (0, upd_ctx (fun c =>
            set_nb_datagram_bytes_sent (u64 (nb_datagram_bytes_sent c + space))
              (set_nb_datagrams_sent (s32 (nb_datagrams_sent c + 1))
                 (set_baton_datagram_send_next 0
                    (set_is_datagram_ready false c))))
            (emit (Call_provide_datagram_buffer written) w))
  else (0, w).

(** ** Initialising a context *)

(** The application context, [wt_baton_app_ctx_t]; its field is called
    [nb_turns_required] in C. *)
Record wt_baton_app_ctx_t : Type := mk_app_ctx {
  app_nb_turns_required : Z
}.

(** The context after [memset (baton_ctx, 0, sizeof (wt_baton_ctx_t))]. *)
Definition zero_ctx : wt_baton_ctx_t :=
  mk_baton_ctx false 0 0 wt_baton_state_none 0 0 0 0 0 false 0 0 0 false 0 0 0
    [] 0 0 0 false 0 0 0 0 0 0.

Definition h3zero_declare_stream_prefix (sid : Z) (w : world) : Z * world :=
  (declare_prefix_ret (cnx w) sid, emit (Call_declare_stream_prefix sid) w).

Definition wt_baton_ctx_init (h3 : bool) (app_ctx : option wt_baton_app_ctx_t)
    (stream_ctx : option Z) (w : world) : Z * world :=
  let w := upd_ctx (fun _ => zero_ctx) w in
  if negb h3 then (-1, w)
  else
    let w := upd_ctx (set_h3_ctx h3) w in
    (* init the global parameters *)
    let w :=
      upd_ctx (set_nb_turns_required
                 (match app_ctx with
                  | Some a => app_nb_turns_required a
                  | None => 127
                  end)) w in
    match stream_ctx with
    | Some sid =>
        (* register the control stream and the stream id *)
        let w := upd_ctx (set_control_stream_id sid) w in
        let w := upd_stream sid (set_stream_control_stream_id sid) w in
        h3zero_declare_stream_prefix sid w
    | None =>
        (* poison the control stream id field so errors can be detected *)
        (0, upd_ctx (set_control_stream_id UINT64_MAX) w)
    end.

(** ** The session: connecting, accepting, resetting, unlinking *)

(** [wt_baton_connecting]: the callback of an outgoing connect request. *)
Definition wt_baton_connecting (sid : Z) (w : world) : Z * world :=
  (0, upd_ctx (fun c =>
         set_control_stream_id sid (set_baton_state wt_baton_state_ready c)) w).

(** The flags that the functions of the session write and that nothing in
    wt_baton.c reads are kept beside the world: [connection_ready] and
    [connection_closed] of the session context, whether that context was
    freed, and the streams whose context is marked as a WebTransport stream
    ([ps.stream_state.is_web_transport]) or as upgraded ([is_upgraded]). *)
Record session : Type := mk_session {
  session_world : world;
  connection_ready : bool;
  connection_closed : bool;
  ctx_freed : bool;
  is_web_transport : gset Z;
  is_upgraded : gset Z
}.

Definition on_world (f : world -> Z * world) (s : session) : Z * session :=
  let '(ret, w) := f (session_world s) in
  (ret, mk_session w (connection_ready s) (connection_closed s) (ctx_freed s)
          (is_web_transport s) (is_upgraded s)).

(** [wt_baton_accept].  [alloc] tells whether [malloc] returns a context
    and [random] is what [picoquic_public_uniform_random (128)] returns.
    The context that [malloc] returns takes the place of the context of the
    world, and [wt_baton_ctx_init] clears it.  The result is [None] when
    the C code would dereference a NULL stream context. *)
Definition wt_baton_accept (alloc : bool) (random : Z)
    (app_ctx : option wt_baton_app_ctx_t) (stream_ctx : option Z) (s : session)
    : option (Z * session) :=
  if negb alloc then Some (-1, s)
  else
    (* register the incoming stream id *)
    let '(ret, w) :=
      wt_baton_ctx_init (callback_context (cnx (session_world s))) app_ctx
        stream_ctx (session_world s) in
    if ret =? 0 then
      match stream_ctx with
      | Some sid =>
          let w := upd_stream sid (set_path_callback true) w in
          (* fill the baton with random data *)
          let w :=
            upd_ctx (fun c =>
              let c := set_baton (u8 (u8 random + 1)) c in
              set_first_baton (baton c) c) w in
          (* get the relaying started *)
          let '(ret, w) := wt_baton_relay None w in
          Some (ret, mk_session w true false false
                       ({[sid]} ∪ is_web_transport s) (is_upgraded s))
      | None => None
      end
    else Some (ret, mk_session w false false false (is_web_transport s)
                      (is_upgraded s)).

(** [wt_baton_stream_reset].  [has_ctx] tells whether the session context
    passed to the callback is not NULL. *)
Definition wt_baton_stream_reset (has_ctx : bool) (w : world) : Z * world :=
  if has_ctx then
    let '(ret, w) :=
      wt_baton_close_session WT_BATON_SESSION_ERR_GAME_OVER None w in
    (* any reset results in the abandon of the context *)
    let w := upd_ctx (set_baton_state wt_baton_state_closed) w in
    let '(ret, w) :=
      if negb (is_client (ctx w) =? 0) then picoquic_close 0 w else (ret, w) in
    (ret, emit (Call_delete_stream_prefix (control_stream_id (ctx w))) w)
  else (0, w).

(** The test of the loop of [wt_baton_unlink_context] on a node of the
    stream tree: the stream belongs to the session of the control stream
    and is not the control stream itself. *)
Definition unlinked_stream (control : Z) (stream_ctx : picohttp_server_stream_ctx_t)
    : bool :=
  (control =? stream_control_stream_id stream_ctx)
  && negb (control =? stream_id stream_ctx).

(** The loop visits every node of the tree and deletes the nodes that pass
    the test ([picoquic_set_app_stream_ctx (cnx, stream_id, NULL)],
    [h3zero_forget_stream], [picosplay_delete_hint]). *)
Definition unlink_streams (control : Z) (m : gmap Z picohttp_server_stream_ctx_t)
    : gmap Z picohttp_server_stream_ctx_t :=
  foldr (fun node m => if unlinked_stream control node.2 then delete node.1 m else m)
    m (map_to_list m).

(** [wt_baton_unlink_context], on the control stream [control].  The
    stream tree is the one of the callback context of the connection;
    without that context the C code reads through a NULL pointer, and the
    result is [None].  The context is freed when the connection is not in
    client mode, and marked as closed otherwise. *)
Definition wt_baton_unlink_context (control : Z) (s : session) : option session :=
  let w := session_world s in
  if callback_context (cnx w) then
    let w := mk_world (ctx w) (unlink_streams control (streams w)) (cnx w) (trace w) in
    if client_mode (cnx w) =? 0 then
      Some (mk_session w (connection_ready s) (connection_closed s) true
              (is_web_transport s) (is_upgraded s))
    else
      Some (mk_session w (connection_ready s) true (ctx_freed s)
              (is_web_transport s) (is_upgraded s))
  else None.

(** ** The callback *)

(** The events that [wt_baton_callback] names; [picohttp_callback_other]
    stands for every other value of the event, the [default] of the
    switch. *)
Inductive picohttp_call_back_event_t : Type :=
  | picohttp_callback_connecting
  | picohttp_callback_connect
  | picohttp_callback_connect_refused
  | picohttp_callback_connect_accepted
  | picohttp_callback_post_fin
  | picohttp_callback_post_data
  | picohttp_callback_provide_data
  | picohttp_callback_post_datagram
  | picohttp_callback_provide_datagram
  | picohttp_callback_reset
  | picohttp_callback_free
  | picohttp_callback_deregister
  | picohttp_callback_other.

(** What the callback is given besides the event: the bytes received, or,
    for the two events that ask for data, the space offered ([length] in
    C); the stream context, which may be NULL; [path_app_ctx], which is
    the application context for [picohttp_callback_connect] and the
    session context otherwise, and of which [cb_has_ctx] tells whether it
    is not NULL; and what [malloc] and the random generator answer. *)
Record callback_args : Type := mk_callback_args {
  cb_bytes : list Z;
  cb_space : Z;
  cb_stream_ctx : option Z;
  cb_app_ctx : option wt_baton_app_ctx_t;
  cb_has_ctx : bool;
  cb_alloc : bool;
  cb_random : Z
}.

Definition in_session (s : session) (r : Z * world) : Z * session :=
  (r.1, mk_session r.2 (connection_ready s) (connection_closed s) (ctx_freed s)
          (is_web_transport s) (is_upgraded s)).

(** A handler that reads the stream context and the session context: its
    result is [None] when one of the two is NULL, and when the handler
    itself has no result. *)
Definition with_stream (a : callback_args)
    (f : Z -> world -> option (Z * world)) (s : session)
    : option (Z * session) :=
  match cb_stream_ctx a with
  | Some sid =>
      if cb_has_ctx a then
        match f sid (session_world s) with
        | Some r => Some (in_session s r)
        | None => None
        end
      else None
  | None => None
  end.

(** Whether [wt_baton_receive_datagram] reads the session context: it
    does to compare the stream of the datagram, when there is one, with the
    control stream, and to record a datagram that decodes. *)
Definition datagram_reads_ctx (bytes : list Z) (stream_ctx : option Z) : bool :=
  match stream_ctx with
  | Some _ => true
  | None =>
      match picoquic_frames_varint_decode bytes with
      | Some (bytes, padding_length) =>
          match picoquic_frames_fixed_skip bytes padding_length with
          | Some bytes =>
              match picoquic_frames_uint8_decode bytes with
              | Some ([], _) => true
              | _ => false
              end
          | None => false
          end
      | None => false
      end
  end.

(** [wt_baton_callback].  [wt_baton_unlink_context] hands the capsule of
    the session context to [picowt_release_capsule], which is not part of
    the sources at hand and is taken to read it. *)
Definition wt_baton_callback (a : callback_args)
    (wt_event : picohttp_call_back_event_t) (s : session)
    : option (Z * session) :=
  match wt_event with
  | picohttp_callback_connecting =>
      with_stream a (fun sid w => Some (wt_baton_connecting sid w)) s
  | picohttp_callback_connect =>
      wt_baton_accept (cb_alloc a) (cb_random a) (cb_app_ctx a) (cb_stream_ctx a) s
  | picohttp_callback_connect_refused => Some (0, s)
  | picohttp_callback_connect_accepted =>
      Some (0, match cb_stream_ctx a with
               | Some sid =>
                   mk_session (session_world s) (connection_ready s)
                     (connection_closed s) (ctx_freed s) (is_web_transport s)
                     ({[sid]} ∪ is_upgraded s)
               | None => s
               end)
  | picohttp_callback_post_fin =>
      with_stream a
        (fun sid w => Some (wt_baton_stream_data (cb_bytes a) true sid w)) s
  | picohttp_callback_post_data =>
      with_stream a
        (fun sid w => Some (wt_baton_stream_data (cb_bytes a) false sid w)) s
  | picohttp_callback_provide_data =>
      with_stream a (wt_baton_provide_data (cb_space a)) s
  | picohttp_callback_post_datagram =>
      if cb_has_ctx a || negb (datagram_reads_ctx (cb_bytes a) (cb_stream_ctx a))
      then
        Some (on_world
                (wt_baton_receive_datagram (cb_bytes a) (cb_stream_ctx a)) s)
      else None
  | picohttp_callback_provide_datagram =>
      if cb_has_ctx a then
        Some (on_world (wt_baton_provide_datagram (cb_space a)) s)
      else None
  | picohttp_callback_reset =>
      match cb_stream_ctx a with
      | Some _ => Some (on_world (wt_baton_stream_reset (cb_has_ctx a)) s)
      | None => None
      end
  | picohttp_callback_free => Some (0, s)
  | picohttp_callback_deregister =>
      match cb_stream_ctx a with
      | Some sid =>
          if cb_has_ctx a then
            match wt_baton_unlink_context sid s with
            | Some s => Some (0, s)
            | None => None
            end
          else None
      | None => None
      end
  | picohttp_callback_other => Some (-1, s)
  end.

(** * The vocabulary of the properties

    Sample sessions, and the predicates and functions in which the
    properties below are stated. *)

(** ** Closing the session *)

(** The control stream is open when the stream tree holds it and its end
    has not been sent. *)
Definition control_stream_open (w : world) : bool :=
  match wt_baton_find_stream w (control_stream_id (ctx w)) with
  | Some stream_ctx => negb (is_fin_sent stream_ctx)
  | None => false
  end.

(** The message that a close with this code and reason puts on the control
    stream. *)
Definition close_message (err : Z) (err_msg : option string) (w : world)
    : transport_call :=
  Call_send_close_session_message (control_stream_id (ctx w)) err
    (match err_msg with
     | Some m => Some m
     | None => default_err_msg err
     end).

Definition closed_world (err : Z) (err_msg : option string) (w : world) : world :=
  upd_ctx (set_baton_state wt_baton_state_closed)
    (upd_stream (control_stream_id (ctx w)) (set_is_fin_sent true)
       (emit (close_message err err_msg w) w)).

(** The world in which the check of a baton of 0 closes the session: the
    state is done, and the end of the stream the baton came on is sent when
    that stream is a bidirectional stream that the peer opened. *)
Definition zero_checked (sid : Z) (w : world) : world :=
  let w := upd_ctx (set_baton_state wt_baton_state_done) w in
  if IS_BIDIR_STREAM_ID sid
     && negb (IS_LOCAL_STREAM_ID sid (is_client (ctx w))) then
    upd_stream sid (set_is_fin_sent true)
      (emit (Call_add_to_stream sid [] true) w)
  else w.

(** ** Sample sessions *)

(** A connection whose transport accepts every call. *)
Definition sample_cnx (client : Z) : picoquic_cnx_t :=
  mk_cnx client true (if client =? 0 then 5 else 4) (if client =? 0 then 3 else 2)
    (fun _ => true) (fun _ => 0) (fun _ => 0) (fun _ => 0) (fun _ => 0) 0 true.

(** A session on control stream 0 that has sent [baton_out] after
    [turns] turns and is ready to receive. *)
Definition sample_ctx (client baton_out turns required : Z) : wt_baton_ctx_t :=
  wt_baton_set_receive_ready
    (mk_baton_ctx true 0 client wt_baton_state_sent required turns 0 baton_out
       0 false 0 0 0 false 0 0 0 [] 0 0 0 false 0 0 0 0 0 0).

(** The stream tree of a server: the control stream 0, the stream 4 that
    the client opened in both directions, the stream 2 that it opened in
    one, and the stream 1 that the server opened in both directions. *)
Definition sample_streams : gmap Z picohttp_server_stream_ctx_t :=
  <[0 := mk_stream_ctx 0 0 false false true]>
    (<[4 := mk_stream_ctx 4 0 false false true]>
       (<[2 := mk_stream_ctx 2 0 false false true]>
          (<[1 := mk_stream_ctx 1 0 false false true]> ∅))).

Definition sample_server (baton_out turns required : Z) : world :=
  mk_world (sample_ctx 0 baton_out turns required) sample_streams (sample_cnx 0) [].

(** The same session after the decoder has read the baton [baton_in]. *)
Definition with_baton_received (baton_in : Z) (w : world) : world :=
  upd_ctx (fun c => set_is_receiving false (set_baton_received baton_in c)) w.

(** The session after it has checked the baton 42 on stream 4, with 3
    turns counted: stream 4 is armed for the reply, which is the last one
    when 4 turns are required. *)
Definition armed_server (required : Z) : world :=
  snd (wt_baton_check 4 (with_baton_received 42 (sample_server 41 3 required))).

(** ** The relay dispatcher *)

(** What the dispatcher can do with the next baton. *)
Inductive route : Type :=
  | Route_new_unidir
  | Route_new_bidir
  | Route_same_stream (sid : Z).

(** A new stream can be opened under an identifier when the stream tree
    does not hold it yet, a context can be allocated for it, and the
    transport accepts its header. *)
Definition can_open (sid : Z) (w : world) : bool :=
  match streams w !! sid with
  | Some _ => false
  | None => stream_ctx_alloc (cnx w) sid && (add_to_stream_ret (cnx w) sid =? 0)
  end.

(** Arming a stream, field by field: the stream becomes the one that
    sends, a frame is queued on it, the padding of that frame is still to
    be chosen and none of it is sent, and the turn is counted.  Every other
    field of the context is what it was. *)
Definition armed_on (sid : Z) (c c' : wt_baton_ctx_t) : Prop :=
  sending_stream_id c' = sid
  /\ is_sending c' = true
  /\ padding_required c' = UINT64_MAX
  /\ padding_sent c' = 0
  /\ nb_turns c' = s32 (nb_turns c + 1)
  /\ c'
     = mk_baton_ctx (h3_ctx c) (control_stream_id c) (is_client c)
         (baton_state c) (nb_turns_required c) (nb_turns c') (first_baton c)
         (baton c) (baton_received c) (is_sending c') (sending_stream_id c')
         (padding_required c') (padding_sent c') (is_receiving c)
         (receiving_stream_id c) (padding_expected c) (padding_received c)
         (receive_buffer c) (nb_receive_buffer_bytes c)
         (nb_baton_bytes_received c) (nb_baton_bytes_sent c)
         (is_datagram_ready c) (baton_datagram_send_next c)
         (baton_datagram_received c) (nb_datagrams_received c)
         (nb_datagram_bytes_received c) (nb_datagrams_sent c)
         (nb_datagram_bytes_sent c).

(** Reading the header of a stream back: a type tag, then the identifier
    of the control stream, and nothing after them. *)
Definition read_header (bytes : list Z) : option (Z * Z) :=
  match picoquic_frames_varint_decode bytes with
  | Some (rest, tag) =>
      match picoquic_frames_varint_decode rest with
      | Some ([], control) => Some (tag, control)
      | _ => None
      end
  | None => None
  end.

(** The bytes of a header: the type tag followed by the identifier of the
    control stream, each as a variable-length integer.  An identifier below
    2^62, as every stream identifier is, is read back from them. *)
Definition header_of (tag control : Z) (header : list Z) : Prop :=
  header
  = picoquic_frames_varint_encode tag ++ picoquic_frames_varint_encode control
  /\ (0 <= control < 4611686018427387904 ->
      read_header header = Some (tag, control)).

(** Opening a stream: it enters the stream tree, bound to the session and
    with the callback of the session; its header, the type tag and the
    identifier of the control stream, is the first thing written on it,
    without the end of the stream; the stream is marked active and armed as
    the stream that sends. *)
Definition opens_new_stream (sid tag : Z) (w w' : world) : Prop :=
  streams w'
  = <[sid := mk_stream_ctx sid (control_stream_id (ctx w)) false false true]>
      (streams w)
  /\ (exists header,
        trace w'
        = trace w
          ++ [Call_add_to_stream sid header false; Call_mark_active_stream sid]
        /\ header_of tag (control_stream_id (ctx w)) header)
  /\ armed_on sid (ctx w) (ctx w').

(** Replying on the stream the baton came on: no stream enters the tree,
    no header is written, that stream is marked active and armed. *)
Definition replies_on_stream (sid : Z) (w w' : world) : Prop :=
  dom (streams w') = dom (streams w)
  /\ trace w' = trace w ++ [Call_mark_active_stream sid]
  /\ armed_on sid (ctx w) (ctx w').

(** The first byte of a variable-length integer, checked bit by bit: with
    the size tag [k] and the six bits [h] it is [h + 64 * k], it announces
    [2 ^ k] bytes, and its six low bits are [h]. *)
Definition varint_first_byte (k h : Z) : bool :=
  (u8 (Z.lor h (64 * k)) =? h + 64 * k)
  && (Z.shiftl 1 (Z.shiftr (Z.land (h + 64 * k) 0xC0) 6) =? 2 ^ k)
  && (Z.land (h + 64 * k) 0x3F =? h).

Definition route_taken (r : route) (w w' : world) : Prop :=
  match r with
  | Route_new_unidir =>
      opens_new_stream (next_local_unidir (cnx w))
        h3zero_stream_type_webtransport w w'
  | Route_new_bidir =>
      opens_new_stream (next_local_bidir (cnx w))
        h3zero_frame_webtransport_stream w w'
  | Route_same_stream sid => replies_on_stream sid w w'
  end.

(** The routing as the dispatcher section of the spec words it: a new
    unidirectional stream for no stream or a remotely opened bidirectional
    one, a new bidirectional stream for a unidirectional one, the same
    stream for a locally opened bidirectional one. *)
Definition route_stated (stream_ctx : option Z) (client : Z) : route :=
  match stream_ctx with
  | None => Route_new_unidir
  | Some sid =>
      if IS_BIDIR_STREAM_ID sid then
        if IS_LOCAL_STREAM_ID sid client then Route_same_stream sid
        else Route_new_unidir
      else Route_new_bidir
  end.

(** The routing of the relay game described at the head of wt_baton.c: a
    baton received on a bidirectional stream opened by the peer is answered
    on that stream, and the answer received on a bidirectional stream opened
    locally is followed by a new unidirectional stream. *)
Definition route_relay_game (stream_ctx : option Z) (client : Z) : route :=
  match stream_ctx with
  | None => Route_new_unidir
  | Some sid =>
      if IS_BIDIR_STREAM_ID sid then
        if IS_LOCAL_STREAM_ID sid client then Route_new_unidir
        else Route_same_stream sid
      else Route_new_bidir
  end.

(** ** What a dispatch leaves alone *)

(** The close messages of a trace: code and reason, in order. *)
Definition close_messages (t : list transport_call) : list (Z * option string) :=
  omap (fun e =>
          match e with
          | Call_send_close_session_message _ err err_msg => Some (err, err_msg)
          | _ => None
          end) t.

(** ** The wrong baton *)

(** The check marks the session as in error and closes it with the
    malformed-message code: the message goes out when the control stream
    is open, and the state then moves on to closed. *)
Definition error_close (sid : Z) (w : world) : Prop :=
  let w' := snd (wt_baton_check sid w) in
  wt_baton_check sid w
  = wt_baton_close_session WT_BATON_SESSION_ERR_BRUH None
      (upd_ctx (set_baton_state wt_baton_state_error) w)
  /\ trace w'
     = trace w
       ++ (if control_stream_open w then
             [Call_send_close_session_message (control_stream_id (ctx w))
                WT_BATON_SESSION_ERR_BRUH
                (Some "Received a malformed Baton message"%string)]
           else [])
  /\ baton_state (ctx w')
     = (if control_stream_open w then wt_baton_state_closed
        else wt_baton_state_error).

(** The check issues no error close: the state is not the error state and
    every close message it sends carries the success code. *)
Definition no_error_close (sid : Z) (w : world) : Prop :=
  let w' := snd (wt_baton_check sid w) in
  baton_state (ctx w') <> wt_baton_state_error
  /\ exists sent,
       close_messages (trace w') = close_messages (trace w) ++ sent
       /\ Forall (fun m => fst m = 0) sent.

(** The rule as C5 words it, for a session in the sent state. *)
Definition wrong_baton_rule_stated (sid : Z) (w : world) : Prop :=
  baton_state (ctx w) = wt_baton_state_sent ->
  (baton_received (ctx w) <> u8 (baton (ctx w) + 1) -> error_close sid w)
  /\ (baton_received (ctx w) = u8 (baton (ctx w) + 1) -> no_error_close sid w).

(** The world in which a baton that is neither zero nor wrong is relayed. *)
Definition checked_world (w : world) : world :=
  upd_ctx check_next_baton
    (check_arm_datagram
       (if state_eqb (baton_state (ctx w)) wt_baton_state_ready
           && (first_baton (ctx w) =? 0) then
          upd_ctx (set_first_baton (baton_received (ctx w))) w
        else w)).

(** ** Counting turns *)

(** A baton is valid for the check when it is not 0 and, unless the
    session has not sent yet, it is the baton sent plus one. *)
Definition valid_baton (c : wt_baton_ctx_t) : Prop :=
  baton_received c <> 0
  /\ (baton_state c = wt_baton_state_sent -> baton_received c = baton c + 1).

(** The rule as C2 words it: the session becomes done in the turn in which
    the count, with both increments, first reaches the number required,
    and the baton is then 0. *)
Definition done_rule_stated (sid : Z) (w : world) : Prop :=
  let c := ctx w in
  let c' := ctx (snd (wt_baton_check sid w)) in
  valid_baton c ->
  nb_turns_required c <> 257 ->
  (baton_state c' = wt_baton_state_done
   <-> nb_turns c < nb_turns_required c <= nb_turns c')
  /\ (baton_state c' = wt_baton_state_done -> baton c' = 0).

(** ** The error injection *)

(** The baton after the injection, from the value the injection adds 31
    to. *)
Definition injected (b : Z) : Z :=
  if u8 (b + 31) =? 0 then 1 else u8 (b + 31).

(** The rule as C3 words it: 31 is added to the baton received. *)
Definition injection_stated (sid : Z) (w : world) : Prop :=
  let c := ctx w in
  valid_baton c ->
  nb_turns_required c = 257 ->
  4 <= nb_turns c + 1 < 257 ->
  baton (ctx (snd (wt_baton_check sid w))) = injected (baton_received c).

(** ** The decoder and the way a frame is cut *)

(** The state of the decoder inside a frame: it is receiving on a stream,
    with the padding length it expects, the padding it has skipped and the
    bytes of the length it has buffered. *)
Definition decoding (c : wt_baton_ctx_t) (rid exp rcv nb : Z) : Prop :=
  is_receiving c = true
  /\ receiving_stream_id c = rid
  /\ padding_expected c = exp
  /\ padding_received c = rcv
  /\ nb_receive_buffer_bytes c = nb.

(** The decoder is ready for a frame: this is the state that
    [wt_baton_set_receive_ready] installs. *)
Definition receive_ready (c : wt_baton_ctx_t) : Prop :=
  decoding c UINT64_MAX UINT64_MAX 0 0.

(** A stream carries batons for the session: the stream tree holds it, it
    is not the control stream, it is still bound to a session, and the
    session is ready or has sent. *)
Definition relay_stream (sid : Z) (w : world) : Prop :=
  (exists stream_ctx,
      streams w !! sid = Some stream_ctx
      /\ stream_control_stream_id stream_ctx <> UINT64_MAX)
  /\ sid <> control_stream_id (ctx w)
  /\ (baton_state (ctx w) = wt_baton_state_ready
      \/ baton_state (ctx w) = wt_baton_state_sent).

(** Ranges delivered one after the other, as long as the callback returns
    0. *)
Fixpoint deliver (ranges : list (list Z * bool)) (sid : Z) (r : Z * world)
    : Z * world :=
  match ranges with
  | [] => r
  | (bytes, is_fin) :: ranges =>
      if fst r =? 0 then
        deliver ranges sid (wt_baton_stream_data bytes is_fin sid (snd r))
      else r
  end.

(** *** The stages of the decoder *)

(** The context after the first byte of the length is buffered. *)
Definition buffer_first (b : Z) (c : wt_baton_ctx_t) : wt_baton_ctx_t :=
  set_nb_receive_buffer_bytes 1
    (set_receive_buffer (array_store 0 b (receive_buffer c)) c).

(** The context once the range is accepted on the stream and counted. *)
Definition claimed (sid n : Z) (c : wt_baton_ctx_t) : wt_baton_ctx_t :=
  set_nb_baton_bytes_received (u64 (nb_baton_bytes_received c + n))
    (set_receiving_stream_id sid c).

(** The context after each of the four ranges of one byte. *)
Definition length_buffered (sid : Z) (c : wt_baton_ctx_t) : wt_baton_ctx_t :=
  buffer_first 2 (claimed sid 1 c).

Definition padding_started (sid : Z) (c : wt_baton_ctx_t) : wt_baton_ctx_t :=
  set_padding_received 1 (set_padding_expected 2 (claimed sid 1 c)).

Definition padding_ended (sid : Z) (c : wt_baton_ctx_t) : wt_baton_ctx_t :=
  set_padding_received 2 (claimed sid 1 c).

Definition baton_read (b sid : Z) (c : wt_baton_ctx_t) : wt_baton_ctx_t :=
  set_is_receiving false (set_baton_received b (claimed sid 1 c)).

(** *** The frame in four ranges and in one *)

(** The context after the frame [2; 0; 0; b]. *)
Definition frame_decoded (b sid : Z) (c : wt_baton_ctx_t) : wt_baton_ctx_t :=
  set_is_receiving false
    (set_baton_received b
       (set_padding_received 2
          (set_padding_expected 2 (buffer_first 2 (claimed sid 4 c))))).

(** ** Datagrams *)

(** The baton that a datagram carries, when its bytes are a padding
    length, that many bytes of padding and one last byte: the chain of
    decoding steps of [wt_baton_receive_datagram]. *)
Definition datagram_baton (bytes : list Z) : option Z :=
  match picoquic_frames_varint_decode bytes with
  | Some (bytes, padding_length) =>
      match picoquic_frames_fixed_skip bytes padding_length with
      | Some bytes =>
          match picoquic_frames_uint8_decode bytes with
          | Some ([], next_baton) => Some next_baton
          | _ => None
          end
      | None => None
      end
  | None => None
  end.

(** The datagram is looked at when it comes for the control stream of the
    session, or for no stream. *)
Definition datagram_expected (stream_ctx : option Z) (w : world) : bool :=
  match stream_ctx with
  | Some sid => sid =? control_stream_id (ctx w)
  | None => true
  end.

Definition datagram_recorded (b len : Z) (c : wt_baton_ctx_t) : wt_baton_ctx_t :=
  set_nb_datagram_bytes_received (u64 (nb_datagram_bytes_received c + len))
    (set_nb_datagrams_received (s32 (nb_datagrams_received c + 1))
       (set_baton_datagram_received b c)).

(** ** Initialising a context *)

Definition turns_configured (app_ctx : option wt_baton_app_ctx_t) : Z :=
  match app_ctx with
  | Some a => app_nb_turns_required a
  | None => 127
  end.

(** The initialisation as C10 words it: the turns required and the
    sentinel are set in every case, and the call fails exactly when there
    is no h3zero context. *)
Definition ctx_init_stated (h3 : bool) (app_ctx : option wt_baton_app_ctx_t)
    (stream_ctx : option Z) (w : world) : Prop :=
  let r := wt_baton_ctx_init h3 app_ctx stream_ctx w in
  nb_turns_required (ctx (snd r)) = turns_configured app_ctx
  /\ (stream_ctx = None -> control_stream_id (ctx (snd r)) = UINT64_MAX)
  /\ (fst r <> 0 <-> h3 = false).

(** A server whose h3zero context refuses the registration of a control
    stream. *)
Definition refusing_cnx : picoquic_cnx_t :=
  mk_cnx 0 true 5 3 (fun _ => true) (fun _ => 0) (fun _ => 0) (fun _ => 0)
    (fun _ => -1) 0 true.

(** ** The encoder *)

(** The world after a call of the encoder, when the call has a result. *)
Definition provided (space sid : Z) (w : world) : world :=
  match wt_baton_provide_data space sid w with
  | Some (_, w') => w'
  | None => w
  end.

(** ** The end of a stream before the baton *)

(** The new close messages of the call. *)
Definition fin_before_baton_closed (w w' : world) : Prop :=
  exists sent,
    close_messages (trace w') = close_messages (trace w) ++ sent
    /\ In (WT_BATON_SESSION_ERR_BRUH, Some "Fin stream before baton"%string) sent.

(** The rule as C8 words it, for a range that carries the end of the
    stream: whenever the decoder is still receiving, the session is closed
    with the malformed-message code and the reason "Fin stream before
    baton". *)
Definition fin_before_baton_stated (bytes : list Z) (sid : Z) (w : world) : Prop :=
  let w' := snd (wt_baton_stream_data bytes true sid w) in
  is_receiving (ctx w') = true -> fin_before_baton_closed w w'.

Definition with_decoder (rid nbytes : Z) (buf : list Z) (nb exp rcv bat : Z)
    (recv : bool) (c : wt_baton_ctx_t) : wt_baton_ctx_t :=
  mk_baton_ctx (h3_ctx c) (control_stream_id c) (is_client c) (baton_state c)
    (nb_turns_required c) (nb_turns c) (first_baton c) (baton c) bat
    (is_sending c) (sending_stream_id c) (padding_required c) (padding_sent c)
    recv rid exp rcv buf nb nbytes (nb_baton_bytes_sent c) (is_datagram_ready c)
    (baton_datagram_send_next c) (baton_datagram_received c)
    (nb_datagrams_received c) (nb_datagram_bytes_received c)
    (nb_datagrams_sent c) (nb_datagram_bytes_sent c).

Definition stored (bs buf : list Z) : list Z := bs ++ drop (length bs) buf.

Definition long_first_byte (h : Z) : bool :=
  (u8 (Z.lor h 64) =? h + 64)
  && (u8 (Z.lor 64 (Z.land h 63)) =? h + 64)
  && (Z.shiftl 1 (Z.shiftr (Z.land (h + 64) 192) 6) =? 2)
  && (Z.land (h + 64) 63 =? h).

(** What the decoder needs of a length prefix [e] for the length [P]: its
    first byte tells its size, and it decodes to [P]. *)
Definition length_prefix (e : list Z) (P : Z) : Prop :=
  (0 < length e)%nat
  /\ (forall tl, VARINT_LEN_T (e ++ tl) = Z.of_nat (length e))
  /\ (forall tl, picoquic_frames_varint_decode (e ++ tl) = Some (tl, P)).

(** The second and third stage of the decoder, on what the first left. *)
Definition decode_tail (bytes : list Z) (w : world) (r : wt_baton_ctx_t * Z)
    : Z * world :=
  let '(c, processed) := r in
  let '(c, processed) := skip_padding (Z.of_nat (length bytes)) c processed in
  read_baton bytes (Z.of_nat (length bytes)) processed (upd_ctx (fun _ => c) w).

Definition baton_frame (padding b : Z) : list Z :=
  picoquic_frames_varint_encode padding ++ replicate (Z.to_nat padding) 0 ++ [b].

Definition decoder_at (padding b sid : Z) (k : nat) (c : wt_baton_ctx_t)
    : wt_baton_ctx_t :=
  let e := picoquic_frames_varint_encode padding in
  let nbytes := u64 (nb_baton_bytes_received c + Z.of_nat k) in
  match k with
  | O => c
  | S _ =>
      if (k <=? length e)%nat then
        with_decoder sid nbytes (stored (take k e) (receive_buffer c))
          (Z.of_nat k) UINT64_MAX 0 (baton_received c) true c
      else if (k <=? length e + Z.to_nat padding)%nat then
        with_decoder sid nbytes (stored e (receive_buffer c))
          (Z.of_nat (length e)) padding (Z.of_nat (k - length e))
          (baton_received c) true c
      else
        with_decoder sid nbytes (stored e (receive_buffer c))
          (Z.of_nat (length e)) padding padding b false c
  end.

Definition without_fin (chunks : list (list Z)) : list (list Z * bool) :=
  map (fun r => (r, false)) chunks.

(** The encoder is sending a frame: either no padding length is committed
    yet and no padding is sent, or one of the three lengths is committed
    and the padding sent does not exceed it. *)
Definition sending (c : wt_baton_ctx_t) : Prop :=
  is_sending c = true
  /\ ((padding_required c = UINT64_MAX /\ padding_sent c = 0)
      \/ ((padding_required c = 0 \/ padding_required c = 0x3F
           \/ padding_required c = 0x3FFF)
          /\ 0 <= padding_sent c <= padding_required c)).

(** The number of bytes of the frame that the earlier calls wrote. *)
Definition frame_offset (c : wt_baton_ctx_t) : Z :=
  if padding_required c =? UINT64_MAX then 0
  else Z.of_nat (length (picoquic_frames_varint_encode (padding_required c)))
       + padding_sent c.

(** The padding length of the frame, once the call that is offered
    [space] bytes has committed to one: the length committed before, or, on
    the first call for the frame, none when the session is done, 0x3F when
    one byte is offered and 0x3FFF otherwise. *)
Definition committed_padding (space : Z) (c : wt_baton_ctx_t) : Z :=
  if padding_required c =? UINT64_MAX then
    if state_eqb (baton_state c) wt_baton_state_done then 0
    else if space =? 1 then 0x3F
    else 0x3FFF
  else padding_required c.

(** The frame that the encoder is sending: the padding length, so many
    zero bytes, and the baton. *)
Definition frame_chosen (space : Z) (c : wt_baton_ctx_t) : list Z :=
  baton_frame (committed_padding space c) (baton c).

(** The bytes of the frame that a call offered [space] bytes writes. *)
Definition next_chunk (space : Z) (c : wt_baton_ctx_t) : list Z :=
  take (Z.to_nat space) (drop (Z.to_nat (frame_offset c)) (frame_chosen space c)).

(** Whether that call writes the last byte of the frame. *)
Definition last_chunk (space : Z) (c : wt_baton_ctx_t) : bool :=
  Z.of_nat (length (frame_chosen space c)) <=? frame_offset c + space.

(** The bytes handed to the transport for a stream, call after call. *)
Definition chunks_provided (t : list transport_call) : list (list Z) :=
  omap (fun e =>
          match e with
          | Call_provide_stream_data_buffer _ _ _ written => Some written
          | _ => None
          end) t.

(** The transport asks for the data of a stream several times in a row,
    offering so many bytes each time; there is a result when every call
    has one. *)
Fixpoint provide_all (spaces : list Z) (sid : Z) (w : world) : option world :=
  match spaces with
  | [] => Some w
  | space :: spaces =>
      match wt_baton_provide_data space sid w with
      | Some (_, w') => provide_all spaces sid w'
      | None => None
      end
  end.

Definition total (spaces : list Z) : Z := foldr Z.add 0 spaces.

(** The datagram that carries a baton in [size] bytes: a padding length on
    two bytes, the padding, the baton. *)
Definition baton_datagram (size b : Z) : list Z :=
  [64 + (size - 3) / 256; (size - 3) mod 256]
  ++ replicate (Z.to_nat (size - 3)) 0 ++ [b].

(** The context once a datagram of [size] bytes is handed over. *)
Definition datagram_sent (size : Z) (c : wt_baton_ctx_t) : wt_baton_ctx_t :=
  set_nb_datagram_bytes_sent (u64 (nb_datagram_bytes_sent c + size))
    (set_nb_datagrams_sent (s32 (nb_datagrams_sent c + 1))
       (set_baton_datagram_send_next 0 (set_is_datagram_ready false c))).

(** The identifier of the stream that a dispatch opens, when the route it
    takes needs a new stream. *)
Definition relay_stream_id (stream_ctx : option Z) (w : world) : option Z :=
  match route_relay_game stream_ctx (is_client (ctx w)) with
  | Route_new_unidir => Some (next_local_unidir (cnx w))
  | Route_new_bidir => Some (next_local_bidir (cnx w))
  | Route_same_stream _ => None
  end.

(** The type tag written at the head of a new stream. *)
Definition relay_tag (stream_ctx : option Z) (w : world) : Z :=
  match route_relay_game stream_ctx (is_client (ctx w)) with
  | Route_new_bidir => h3zero_frame_webtransport_stream
  | _ => h3zero_stream_type_webtransport
  end.

(** The check finds the baton wrong. *)
Definition wrong_baton (c : wt_baton_ctx_t) : bool :=
  state_eqb (baton_state c) wt_baton_state_sent
  && negb (baton_received c =? baton c + 1).

(** The check arms a datagram: the baton is neither zero nor wrong, and
    its remainder modulo 7 is the client mode of the connection. *)
Definition arms_datagram (w : world) : bool :=
  negb (baton_received (ctx w) =? 0) && negb (wrong_baton (ctx w))
  && (baton_received (ctx w) mod 7 =? client_mode (cnx w)).

(** The streams for which the session has told h3zero that a datagram is
    ready, call after call. *)
Definition datagram_calls (t : list transport_call) : list Z :=
  omap (fun e =>
          match e with
          | Call_set_datagram_ready sid => Some sid
          | _ => None
          end) t.

(** The context of a session that the server has just accepted on the
    control stream [sid], before the first dispatch: what
    [wt_baton_ctx_init] leaves, with the first baton. *)
Definition accepted_ctx (app_ctx : option wt_baton_app_ctx_t) (sid b : Z)
    : wt_baton_ctx_t :=
  mk_baton_ctx true sid 0 wt_baton_state_none (turns_configured app_ctx) 0 b b
    0 false 0 0 0 false 0 0 0 [] 0 0 0 false 0 0 0 0 0 0.

(** Two contexts are of the same session: they have the same h3zero
    context, control stream, role and number of turns required. *)
Definition same_session (c c' : wt_baton_ctx_t) : Prop :=
  h3_ctx c' = h3_ctx c
  /\ control_stream_id c' = control_stream_id c
  /\ is_client c' = is_client c
  /\ nb_turns_required c' = nb_turns_required c.

(** The events that set up a session. *)
Definition sets_up_session (wt_event : picohttp_call_back_event_t) : bool :=
  match wt_event with
  | picohttp_callback_connecting | picohttp_callback_connect => true
  | _ => false
  end.

(** ** More sample sessions *)

(** A server whose connection has no stream context left to give. *)
Definition exhausted_server : world :=
  mk_world (sample_ctx 0 41 3 127) sample_streams
    (mk_cnx 0 true 5 3 (fun _ => false) (fun _ => 0) (fun _ => 0) (fun _ => 0)
       (fun _ => 0) 0 true) [].



(** The session of the sample server, as the callback sees it. *)
Definition sample_session : session :=
  mk_session (sample_server 41 3 127) true false false ∅ ∅.

(** The frame of the baton 42 with two bytes of padding, on stream 2, with
    the end of the stream. *)
Definition sample_args : callback_args :=
  mk_callback_args [0x02; 0x00; 0x00; 0x2A] 0 (Some 2) None true true 0.

(** A server that has written the frame of its baton on the armed stream 4,
    in three calls that were offered 1, 20 and 100 bytes. *)
Definition sent_server : world :=
  default (armed_server 127) (provide_all [1; 20; 100] 4 (armed_server 127)).

(** ** Tactics *)

(** Side conditions on a sample session are settled by evaluation. *)
Ltac eval_side :=
  solve [ reflexivity
        | vm_compute;
          first [ reflexivity | discriminate
                | split; first [reflexivity | discriminate] ] ].

(** The five facts of a decoder state. *)
Ltac decoding_fields H :=
  let Hrecv := fresh "Hrecv" in
  let Hrid := fresh "Hrid" in
  let Hexp := fresh "Hexp" in
  let Hrcv := fresh "Hrcv" in
  let Hnb := fresh "Hnb" in
  destruct H as (Hrecv & Hrid & Hexp & Hrcv & Hnb).

(** A case analysis on the first test of the goal. *)
Ltac case_if :=
  match goal with
  | |- context [if ?b then _ else _] => destruct b eqn:?
  | |- context [match ?o with Some _ => _ | None => _ end] => destruct o eqn:?
  end.

(** A stream of the sample streams that carries batons. *)
Ltac sample_relay_stream :=
  split;
  [ eexists; split; [reflexivity | discriminate]
  | split; [discriminate | right; reflexivity] ].

(** * Properties of the embedding *)

(** ** Reading the world after an update *)

Lemma ctx_upd_ctx f w : ctx (upd_ctx f w) = f (ctx w).
Proof. reflexivity. Qed.

Lemma ctx_upd_stream sid f w : ctx (upd_stream sid f w) = ctx w.
Proof. reflexivity. Qed.

Lemma ctx_emit e w : ctx (emit e w) = ctx w.
Proof. reflexivity. Qed.

Lemma trace_emit e w : trace (emit e w) = trace w ++ [e].
Proof. reflexivity. Qed.

(** ** Closing the session *)

Lemma close_session_open err err_msg w :
  control_stream_open w = true ->
  wt_baton_close_session err err_msg w
  = (send_close_ret (cnx w) err, closed_world err err_msg w).
Proof.
  unfold control_stream_open, wt_baton_close_session.
  destruct (wt_baton_find_stream w (control_stream_id (ctx w))) as [s|];
    [|discriminate].
  intros ->. reflexivity.
Qed.

Lemma close_session_finished err err_msg w :
  control_stream_open w = false ->
  wt_baton_close_session err err_msg w = (0, w).
Proof.
  unfold control_stream_open, wt_baton_close_session.
  destruct (wt_baton_find_stream w (control_stream_id (ctx w))) as [s|];
    [|reflexivity].
  intros ->. reflexivity.
Qed.

(** Closing is idempotent: once the message is out, the control stream is
    finished, and a second close does nothing. *)
Lemma closed_world_finished err err_msg w :
  control_stream_open w = true ->
  control_stream_open (closed_world err err_msg w) = false.
Proof.
  unfold control_stream_open, wt_baton_find_stream, closed_world. simpl.
  destruct (h3_ctx (ctx w)); [|discriminate].
  rewrite lookup_alter_eq.
  destruct (streams w !! control_stream_id (ctx w)); [|discriminate].
  reflexivity.
Qed.

Lemma close_session_twice err1 msg1 err2 msg2 w :
  wt_baton_close_session err2 msg2 (snd (wt_baton_close_session err1 msg1 w))
  = (0, snd (wt_baton_close_session err1 msg1 w)).
Proof.
  destruct (control_stream_open w) eqn:Hopen.
  - rewrite (close_session_open _ _ _ Hopen). simpl.
    apply close_session_finished, closed_world_finished, Hopen.
  - rewrite (close_session_finished _ _ _ Hopen). simpl.
    apply close_session_finished, Hopen.
Qed.

(** What a close sends and the state it leaves. *)
Lemma close_session_effect err err_msg w :
  let w' := snd (wt_baton_close_session err err_msg w) in
  trace w' = trace w ++ (if control_stream_open w then [close_message err err_msg w] else [])
  /\ baton_state (ctx w')
     = (if control_stream_open w then wt_baton_state_closed
        else baton_state (ctx w)).
Proof.
  destruct (control_stream_open w) eqn:Hopen; simpl.
  - rewrite (close_session_open _ _ _ Hopen). split; reflexivity.
  - rewrite (close_session_finished _ _ _ Hopen). simpl.
    rewrite app_nil_r. split; reflexivity.
Qed.

(** Closing touches one field of the context, the state. *)
Lemma close_session_ctx err err_msg w :
  ctx (snd (wt_baton_close_session err err_msg w)) = ctx w
  \/ ctx (snd (wt_baton_close_session err err_msg w))
     = set_baton_state wt_baton_state_closed (ctx w).
Proof.
  destruct (control_stream_open w) eqn:Hopen.
  - right. rewrite (close_session_open _ _ _ Hopen). reflexivity.
  - left. rewrite (close_session_finished _ _ _ Hopen). reflexivity.
Qed.

(** ** The relay dispatcher *)

Lemma create_stream_fresh is_bidir w :
  let sid := picoquic_get_next_local_stream_id w (negb is_bidir) in
  streams w !! sid = None ->
  stream_ctx_alloc (cnx w) sid = true ->
  wt_baton_create_stream is_bidir w
  = (Some sid,
     picoquic_set_app_stream_ctx is_bidir
       (mk_world (ctx w)
          (<[sid := mk_stream_ctx sid (control_stream_id (ctx w)) false false false]>
             (streams w))
          (cnx w) (trace w))).
Proof.
  intros sid Hfresh Halloc.
  unfold wt_baton_create_stream, h3zero_find_or_create_stream.
  fold sid. rewrite Hfresh, Halloc.
  unfold upd_stream. simpl. rewrite alter_insert_eq. reflexivity.
Qed.

Lemma relay_new_stream_opens is_bidir tag w :
  let sid := picoquic_get_next_local_stream_id w (negb is_bidir) in
  can_open sid w = true ->
  relay_new_stream is_bidir tag w
  = (0, Some sid,
     mk_world (ctx w)
       (<[sid := mk_stream_ctx sid (control_stream_id (ctx w)) false false false]>
          (streams w))
       (cnx (picoquic_set_app_stream_ctx is_bidir w))
       (trace w ++ [Call_add_to_stream sid (stream_header tag w) false])).
Proof.
  intros sid. unfold can_open.
  destruct (streams w !! sid) eqn:Hfresh; [discriminate|].
  intros [Halloc Hret%Z.eqb_eq]%andb_prop.
  unfold relay_new_stream.
  rewrite (create_stream_fresh is_bidir w Hfresh Halloc). fold sid.
  unfold picoquic_add_to_stream_with_ctx. simpl. rewrite Hret. reflexivity.
Qed.

(** *** Variable-length integers *)

(** A boolean check that holds on each of the first [n] integers holds
    below [n]. *)
Lemma below_check (n : nat) (f : Z -> bool) :
  forallb f (map Z.of_nat (seq 0 n)) = true ->
  forall h, 0 <= h < Z.of_nat n -> f h = true.
Proof.
  intros Hall h Hh.
  rewrite forallb_forall in Hall. apply Hall.
  apply in_map_iff. exists (Z.to_nat h). split; [lia|].
  apply in_seq. lia.
Qed.

Lemma varint_first_byte_ok k h :
  0 <= k < 4 -> 0 <= h < 64 -> varint_first_byte k h = true.
Proof.
  intros Hk.
  assert (Hcases : k = 0 \/ k = 1 \/ k = 2 \/ k = 3) by lia.
  destruct Hcases as [-> | [-> | [-> | ->]]];
    apply (below_check 64); vm_compute; reflexivity.
Qed.

Lemma varint_first_byte_facts k h :
  0 <= k < 4 -> 0 <= h < 64 ->
  u8 (Z.lor h (64 * k)) = h + 64 * k
  /\ VARINT_LEN_T [h + 64 * k] = 2 ^ k
  /\ Z.land (h + 64 * k) 0x3F = h.
Proof.
  intros Hk Hh. pose proof (varint_first_byte_ok k h Hk Hh) as Hok.
  unfold varint_first_byte in Hok.
  apply andb_prop in Hok as [Hok H63%Z.eqb_eq].
  apply andb_prop in Hok as [Hb0%Z.eqb_eq Hlen%Z.eqb_eq].
  repeat split; assumption.
Qed.

Lemma VARINT_LEN_T_first b0 tl : VARINT_LEN_T (b0 :: tl) = VARINT_LEN_T [b0].
Proof. reflexivity. Qed.

(** The encoding of an integer below 2^62, followed by any bytes, decodes
    to that integer and leaves those bytes. *)
Lemma varint_round_trip n rest :
  0 <= n < 4611686018427387904 ->
  picoquic_frames_varint_decode (picoquic_frames_varint_encode n ++ rest)
  = Some (rest, n).
Proof.
  intros Hn. unfold picoquic_frames_varint_encode.
  destruct (n <? 16384) eqn:H2; [destruct (n <? 64) eqn:H1|
    destruct (n <? 1073741824) eqn:H4].
  - destruct (varint_first_byte_facts 0 n) as (_ & Hlen & H63); [lia|lia|].
    rewrite Z.add_0_r in Hlen, H63.
    unfold u8. rewrite Z.mod_small by lia.
    cbn [app]. unfold picoquic_frames_varint_decode.
    rewrite VARINT_LEN_T_first, Hlen, H63. reflexivity.
  - rewrite !Z.shiftr_div_pow2 by lia.
    assert (Hh : 0 <= n / 2 ^ 8 < 64) by (Z.div_mod_to_equations; lia).
    destruct (varint_first_byte_facts 1 _ ltac:(lia) Hh) as (Hb0 & Hlen & H63).
    change (64 * 1) with 0x40 in *. rewrite Hb0.
    cbn [app]. unfold picoquic_frames_varint_decode.
    rewrite VARINT_LEN_T_first, Hlen, H63. simpl.
    f_equal. f_equal. unfold u8. Z.div_mod_to_equations. lia.
  - rewrite !Z.shiftr_div_pow2 by lia.
    assert (Hh : 0 <= n / 2 ^ 24 < 64) by (Z.div_mod_to_equations; lia).
    destruct (varint_first_byte_facts 2 _ ltac:(lia) Hh) as (Hb0 & Hlen & H63).
    change (64 * 2) with 0x80 in *. rewrite Hb0.
    cbn [app]. unfold picoquic_frames_varint_decode.
    rewrite VARINT_LEN_T_first, Hlen, H63. simpl.
    f_equal. f_equal. unfold u8. Z.div_mod_to_equations. lia.
  - rewrite !Z.shiftr_div_pow2 by lia.
    assert (Hh : 0 <= n / 2 ^ 56 < 64) by (Z.div_mod_to_equations; lia).
    destruct (varint_first_byte_facts 3 _ ltac:(lia) Hh) as (Hb0 & Hlen & H63).
    change (64 * 3) with 0xC0 in *. rewrite Hb0.
    cbn [app]. unfold picoquic_frames_varint_decode.
    rewrite VARINT_LEN_T_first, Hlen, H63. simpl.
    f_equal. f_equal. unfold u8. Z.div_mod_to_equations. lia.
Qed.

(** The two integers of a header are read back from its bytes. *)
Lemma header_read_back tag control :
  0 <= tag < 4611686018427387904 ->
  header_of tag control
    (picoquic_frames_varint_encode tag ++ picoquic_frames_varint_encode control).
Proof.
  intros Htag. split; [reflexivity|]. intros Hcontrol.
  unfold read_header. rewrite (varint_round_trip tag _ Htag).
  rewrite <- (app_nil_r (picoquic_frames_varint_encode control)).
  rewrite (varint_round_trip control [] Hcontrol). reflexivity.
Qed.

(** *** The three routes *)

Lemma arm_sending_armed sid c : armed_on sid c (arm_sending sid c).
Proof. repeat split. Qed.

Lemma relay_opens_route is_bidir tag w rest :
  let sid := picoquic_get_next_local_stream_id w (negb is_bidir) in
  0 <= tag < 4611686018427387904 ->
  can_open sid w = true ->
  opens_new_stream sid tag w
    (snd (match relay_new_stream is_bidir tag w with
          | (ret, Some sid, w) => if ret =? 0 then relay_arm sid w else (ret, w)
          | (ret, None, w) => rest ret w
          end)).
Proof.
  intros sid Htag Hopen.
  rewrite (relay_new_stream_opens is_bidir tag w Hopen). fold sid. simpl.
  unfold opens_new_stream. simpl.
  rewrite alter_insert_eq, <- app_assoc.
  split; [reflexivity|]. split; [|apply arm_sending_armed].
  eexists. split; [reflexivity|]. apply (header_read_back tag _ Htag).
Qed.

(** C1 (as amended).  When the transport lets a stream be opened, the
    dispatcher follows the relay game: with no inbound stream, or an
    inbound bidirectional stream that this side opened, it opens a new
    unidirectional stream, writes the type tag and the identifier of the
    control stream on it and arms it; with an inbound unidirectional stream
    it opens a new bidirectional stream in the same way; with an inbound
    bidirectional stream that the peer opened it opens nothing and arms
    that same stream.  Arming a stream makes it the stream that sends,
    with a frame queued on it whose padding is still to be chosen, counts
    the turn and marks the stream active; the header is the two integers in
    their variable-length encoding, the tag first. *)
Theorem wt_baton_relay_route (stream_ctx : option Z) (w : world) :
  can_open (next_local_unidir (cnx w)) w = true ->
  can_open (next_local_bidir (cnx w)) w = true ->
  route_taken (route_relay_game stream_ctx (is_client (ctx w))) w
    (snd (wt_baton_relay stream_ctx w)).
Proof.
  intros Huni Hbidi.
  assert (Htag1 : 0 <= h3zero_stream_type_webtransport < 4611686018427387904)
    by (unfold h3zero_stream_type_webtransport; lia).
  assert (Htag2 : 0 <= h3zero_frame_webtransport_stream < 4611686018427387904)
    by (unfold h3zero_frame_webtransport_stream; lia).
  unfold wt_baton_relay, relay_next_stream, route_relay_game.
  destruct stream_ctx as [sid|].
  - destruct (IS_BIDIR_STREAM_ID sid) eqn:Hb;
      [destruct (IS_LOCAL_STREAM_ID sid (is_client (ctx w))) eqn:Hl|]; simpl.
    + apply (relay_opens_route false _ w (fun ret w => (ret, w)) Htag1 Huni).
    + unfold relay_arm, picoquic_mark_active_stream. simpl.
      split; [apply dom_alter_L|]. split; [reflexivity|].
      apply arm_sending_armed.
    + apply (relay_opens_route true _ w (fun ret w => (ret, w)) Htag2 Hbidi).
  - simpl. apply (relay_opens_route false _ w (fun ret w => (ret, w)) Htag1 Huni).
Qed.

(** The three routes on a sample server: the first baton of a session goes
    out on the new unidirectional stream 3, whose header is the tag 0x54 on
    two bytes and the control stream 0; the baton received on the
    unidirectional stream 2 is followed by the new bidirectional stream 5,
    with the tag 0x41; and the baton received on stream 4, which the client
    opened, is answered on stream 4. *)
Lemma wt_baton_relay_route_witness :
  let w := sample_server 41 1 127 in
  (sending_stream_id (ctx (snd (wt_baton_relay None w))) = 3
   /\ is_sending (ctx (snd (wt_baton_relay None w))) = true
   /\ nb_turns (ctx (snd (wt_baton_relay None w))) = 2
   /\ trace (snd (wt_baton_relay None w))
      = [Call_add_to_stream 3 [0x40; 0x54; 0x00] false;
         Call_mark_active_stream 3]
   /\ read_header [0x40; 0x54; 0x00] = Some (0x54, 0)
   /\ streams (snd (wt_baton_relay None w)) !! 3
      = Some (mk_stream_ctx 3 0 false false true))
  /\ (sending_stream_id (ctx (snd (wt_baton_relay (Some 2) w))) = 5
      /\ is_sending (ctx (snd (wt_baton_relay (Some 2) w))) = true
      /\ trace (snd (wt_baton_relay (Some 2) w))
         = [Call_add_to_stream 5 [0x40; 0x41; 0x00] false;
            Call_mark_active_stream 5]
      /\ read_header [0x40; 0x41; 0x00] = Some (0x41, 0))
  /\ (sending_stream_id (ctx (snd (wt_baton_relay (Some 4) w))) = 4
      /\ is_sending (ctx (snd (wt_baton_relay (Some 4) w))) = true
      /\ trace (snd (wt_baton_relay (Some 4) w)) = [Call_mark_active_stream 4]
      /\ dom (streams (snd (wt_baton_relay (Some 4) w))) = dom (streams w)).
Proof.
  intros w.
  pose proof (wt_baton_relay_route None w eq_refl eq_refl) as Hnone.
  pose proof (wt_baton_relay_route (Some 2) w eq_refl eq_refl) as Huni.
  pose proof (wt_baton_relay_route (Some 4) w eq_refl eq_refl) as Hbidi.
  destruct Hnone
    as (Hstreams1 & (h1 & Htrace1 & Hheader1 & Hread1) & Hsid1 & Hsend1 & _ & _ & Hturns1 & _).
  destruct Huni
    as (_ & (h2 & Htrace2 & Hheader2 & Hread2) & Hsid2 & Hsend2 & _).
  destruct Hbidi as (Hdom3 & Htrace3 & Hsid3 & Hsend3 & _).
  split; [|split].
  - split; [exact Hsid1|]. split; [exact Hsend1|]. split; [exact Hturns1|].
    split; [rewrite Htrace1, Hheader1; reflexivity|].
    split; [rewrite Hheader1 in Hread1; apply Hread1; simpl; lia|].
    rewrite Hstreams1. apply lookup_insert_eq.
  - split; [exact Hsid2|]. split; [exact Hsend2|].
    split; [rewrite Htrace2, Hheader2; reflexivity|].
    rewrite Hheader2 in Hread2. apply Hread2. simpl. lia.
  - split; [exact Hsid3|]. split; [exact Hsend3|].
    split; [exact Htrace3|exact Hdom3].
Defined.

(** C1 as stated fails.  On a server, stream 4 is a bidirectional stream
    that the peer opened: the stated routing opens a new unidirectional
    stream for it, the code arms stream 4 itself and opens none.  Stream 1
    is a bidirectional stream that the server opened: the stated routing
    replies on it, the code opens the unidirectional stream 3. *)
Lemma wt_baton_relay_route_stated_fails :
  let w := sample_server 41 1 127 in
  (IS_BIDIR_STREAM_ID 4 = true /\ IS_LOCAL_STREAM_ID 4 (is_client (ctx w)) = false
   /\ can_open (next_local_unidir (cnx w)) w = true
   /\ sending_stream_id (ctx (snd (wt_baton_relay (Some 4) w))) = 4
   /\ trace (snd (wt_baton_relay (Some 4) w)) = [Call_mark_active_stream 4]
   /\ ~ route_taken (route_stated (Some 4) (is_client (ctx w))) w
          (snd (wt_baton_relay (Some 4) w)))
  /\ (IS_BIDIR_STREAM_ID 1 = true /\ IS_LOCAL_STREAM_ID 1 (is_client (ctx w)) = true
      /\ sending_stream_id (ctx (snd (wt_baton_relay (Some 1) w))) = 3
      /\ trace (snd (wt_baton_relay (Some 1) w))
         = [Call_add_to_stream 3 [0x40; 0x54; 0] false; Call_mark_active_stream 3]
      /\ ~ route_taken (route_stated (Some 1) (is_client (ctx w))) w
             (snd (wt_baton_relay (Some 1) w))).
Proof.
  split.
  - repeat split; try (vm_compute; reflexivity).
    intros (_ & (header & Htrace & _) & _). vm_compute in Htrace. discriminate.
  - repeat split; try (vm_compute; reflexivity).
    intros (_ & Htrace & _). vm_compute in Htrace. discriminate.
Qed.

(** ** What a dispatch leaves alone *)

Lemma close_messages_app t1 t2 :
  close_messages (t1 ++ t2) = close_messages t1 ++ close_messages t2.
Proof. apply omap_app. Qed.

Lemma create_stream_ctx is_bidir w :
  ctx (snd (wt_baton_create_stream is_bidir w)) = ctx w
  /\ trace (snd (wt_baton_create_stream is_bidir w)) = trace w.
Proof.
  unfold wt_baton_create_stream, h3zero_find_or_create_stream.
  destruct (streams w !! _); [|destruct (stream_ctx_alloc _ _)]; split; reflexivity.
Qed.

Lemma relay_new_stream_ctx is_bidir tag w :
  ctx (snd (relay_new_stream is_bidir tag w)) = ctx w
  /\ close_messages (trace (snd (relay_new_stream is_bidir tag w)))
     = close_messages (trace w).
Proof.
  unfold relay_new_stream.
  destruct (create_stream_ctx is_bidir w) as [Hc Ht].
  destruct (wt_baton_create_stream is_bidir w) as [[sid|] w1]; simpl in *.
  - rewrite close_messages_app, Ht, Hc. simpl. split; [reflexivity|apply app_nil_r].
  - rewrite Ht, Hc. split; reflexivity.
Qed.

Lemma relay_arm_ctx sid w :
  ctx (snd (relay_arm sid w)) = arm_sending sid (ctx w)
  /\ close_messages (trace (snd (relay_arm sid w))) = close_messages (trace w).
Proof.
  unfold relay_arm, picoquic_mark_active_stream. simpl.
  rewrite close_messages_app. simpl. split; [reflexivity|apply app_nil_r].
Qed.

(** A dispatch either leaves the context as it is (no stream could be had)
    or arms a stream; it sends no close message. *)
Lemma relay_ctx stream_ctx w :
  (ctx (snd (wt_baton_relay stream_ctx w)) = ctx w
   \/ exists sid, ctx (snd (wt_baton_relay stream_ctx w)) = arm_sending sid (ctx w))
  /\ close_messages (trace (snd (wt_baton_relay stream_ctx w)))
     = close_messages (trace w).
Proof.
  unfold wt_baton_relay.
  assert (Hnext :
    ctx (snd (relay_next_stream stream_ctx w)) = ctx w
    /\ close_messages (trace (snd (relay_next_stream stream_ctx w)))
       = close_messages (trace w)).
  { unfold relay_next_stream.
    repeat match goal with |- context [if ?b then _ else _] => destruct b end;
      try apply relay_new_stream_ctx; split; reflexivity. }
  destruct (relay_next_stream stream_ctx w) as [[ret [sid|]] w1];
    simpl in Hnext; destruct Hnext as [Hc Ht].
  - destruct (ret =? 0).
    + destruct (relay_arm_ctx sid w1) as [Hc' Ht'].
      rewrite Hc', Ht', Hc, Ht. split; [right; exists sid|]; reflexivity.
    + simpl. rewrite Hc, Ht. split; [left|]; reflexivity.
  - simpl. rewrite Hc, Ht. split; [left|]; reflexivity.
Qed.

Lemma relay_keeps stream_ctx w :
  let c' := ctx (snd (wt_baton_relay stream_ctx w)) in
  baton_state c' = baton_state (ctx w)
  /\ baton c' = baton (ctx w)
  /\ baton_received c' = baton_received (ctx w)
  /\ nb_turns_required c' = nb_turns_required (ctx w)
  /\ (nb_turns c' = nb_turns (ctx w)
      \/ nb_turns c' = s32 (nb_turns (ctx w) + 1)).
Proof.
  destruct (relay_ctx stream_ctx w) as [[H|[sid H]] _]; simpl; rewrite H;
    repeat split; auto.
Qed.

(** ** The zero baton *)

Lemma control_stream_open_upd_ctx f w :
  control_stream_id (f (ctx w)) = control_stream_id (ctx w) ->
  h3_ctx (f (ctx w)) = h3_ctx (ctx w) ->
  control_stream_open (upd_ctx f w) = control_stream_open w.
Proof.
  unfold control_stream_open, wt_baton_find_stream. simpl.
  intros -> ->. reflexivity.
Qed.

Lemma control_stream_open_emit e w :
  control_stream_open (emit e w) = control_stream_open w.
Proof. reflexivity. Qed.

Lemma control_stream_open_fin_sent sid w :
  control_stream_open (upd_stream sid (set_is_fin_sent true) w)
  = control_stream_open w && negb (sid =? control_stream_id (ctx w)).
Proof.
  unfold control_stream_open, wt_baton_find_stream. simpl.
  destruct (h3_ctx (ctx w)); [|reflexivity].
  destruct (Z.eqb_spec sid (control_stream_id (ctx w))) as [->|Hne].
  - rewrite lookup_alter_eq.
    destruct (streams w !! control_stream_id (ctx w)); simpl;
      [|reflexivity].
    symmetry. apply andb_false_r.
  - rewrite lookup_alter_ne by exact Hne.
    symmetry. apply andb_true_r.
Qed.

(** The check of a baton of 0 is the close of the session, with the
    success code, in the world where the state is done and the end of the
    inbound stream is sent. *)
Lemma check_zero sid w :
  baton_received (ctx w) = 0 ->
  wt_baton_check sid w = wt_baton_close_session 0 None (zero_checked sid w).
Proof.
  intros Hzero. unfold wt_baton_check, zero_checked. rewrite Hzero. reflexivity.
Qed.

Lemma zero_checked_world sid w :
  let remote_bidir :=
    IS_BIDIR_STREAM_ID sid && negb (IS_LOCAL_STREAM_ID sid (is_client (ctx w))) in
  ctx (zero_checked sid w) = set_baton_state wt_baton_state_done (ctx w)
  /\ trace (zero_checked sid w)
     = trace w ++ (if remote_bidir then [Call_add_to_stream sid [] true] else [])
  /\ control_stream_open (zero_checked sid w)
     = control_stream_open w
       && negb (remote_bidir && (sid =? control_stream_id (ctx w)))
  /\ streams (zero_checked sid w)
     = (if remote_bidir then alter (set_is_fin_sent true) sid (streams w)
        else streams w).
Proof.
  unfold zero_checked. simpl.
  destruct (IS_BIDIR_STREAM_ID sid && _); simpl.
  - rewrite control_stream_open_fin_sent. repeat split.
  - rewrite app_nil_r, andb_true_r. repeat split.
Qed.

(** C4.  A decoded baton of 0 ends the exchange whatever the turn count
    and the state: the state is set to done and the session is closed with
    the success code 0.  The close message goes out, and the state moves on
    to closed, when the control stream is still open; on a finished control
    stream the close does nothing and the state stays done.  When the baton
    came on a bidirectional stream that the peer opened, the end of that
    stream is sent first. *)
Theorem check_zero_baton (sid : Z) (w : world) :
  baton_received (ctx w) = 0 ->
  let remote_bidir :=
    IS_BIDIR_STREAM_ID sid && negb (IS_LOCAL_STREAM_ID sid (is_client (ctx w))) in
  let fin := if remote_bidir then [Call_add_to_stream sid [] true] else [] in
  let closes :=
    control_stream_open w
    && negb (remote_bidir && (sid =? control_stream_id (ctx w))) in
  let w' := snd (wt_baton_check sid w) in
  (exists w1,
      baton_state (ctx w1) = wt_baton_state_done
      /\ wt_baton_check sid w = wt_baton_close_session 0 None w1)
  /\ trace w'
     = trace w ++ fin
       ++ (if closes then
             [Call_send_close_session_message (control_stream_id (ctx w)) 0
                (Some "Have a nice day"%string)]
           else [])
  /\ baton_state (ctx w')
     = (if closes then wt_baton_state_closed else wt_baton_state_done)
  /\ nb_turns (ctx w') = nb_turns (ctx w)
  /\ (remote_bidir = true ->
      is_fin_sent <$> streams w' !! sid = (fun _ => true) <$> streams w !! sid).
Proof.
  intros Hzero remote_bidir fin closes w'. subst w'.
  rewrite (check_zero sid w Hzero).
  destruct (zero_checked_world sid w) as (Hctx & Htrace & Hopen & Hstreams).
  fold remote_bidir in Htrace, Hopen, Hstreams. fold fin in Htrace.
  fold closes in Hopen.
  split; [exists (zero_checked sid w); split; [rewrite Hctx|]; reflexivity|].
  destruct (close_session_effect 0 None (zero_checked sid w)) as (Ht & Hs).
  cbv zeta in Ht, Hs. rewrite Ht, Hs, Hopen, Htrace, Hctx, <- app_assoc.
  unfold close_message. rewrite Hctx. simpl.
  split; [destruct closes; reflexivity|].
  split; [destruct closes; reflexivity|].
  split.
  - destruct (close_session_ctx 0 None (zero_checked sid w)) as [H|H];
      rewrite H, Hctx; reflexivity.
  - intros Hrb. rewrite Hrb in Hstreams.
    destruct closes eqn:Hcl.
    + rewrite (close_session_open _ _ _ Hopen). unfold closed_world. simpl.
      rewrite Hstreams, Hctx. simpl.
      subst closes. rewrite Hrb in Hcl. simpl in Hcl.
      apply andb_prop in Hcl as [_ Hne%negb_true_iff%Z.eqb_neq].
      rewrite lookup_alter_ne by congruence.
      rewrite lookup_alter_eq.
      destruct (streams w !! sid); reflexivity.
    + rewrite (close_session_finished _ _ _ Hopen). simpl.
      rewrite Hstreams, lookup_alter_eq.
      destruct (streams w !! sid); reflexivity.
Qed.

Lemma check_zero_baton_witness :
  let w := with_baton_received 0 (sample_server 255 6 127) in
  trace (snd (wt_baton_check 4 w))
  = [Call_add_to_stream 4 [] true;
     Call_send_close_session_message 0 0 (Some "Have a nice day"%string)]
  /\ baton_state (ctx (snd (wt_baton_check 4 w))) = wt_baton_state_closed.
Proof.
  pose proof (check_zero_baton 4 (with_baton_received 0 (sample_server 255 6 127))
                eq_refl) as (_ & Htrace & Hstate & _).
  split; [exact Htrace|exact Hstate].
Defined.

(** ** The wrong baton *)

Lemma u8_succ_small b : 0 <= b < 256 -> u8 (b + 1) <> 0 -> u8 (b + 1) = b + 1.
Proof.
  unfold u8. intros Hb Hnz.
  destruct (Z.eq_dec b 255) as [->|Hne]; [exfalso; apply Hnz; reflexivity|].
  apply Z.mod_small. lia.
Qed.

Lemma u8_succ_255 r : 0 <= r < 256 -> r <> 0 -> r <> 255 + 1.
Proof. lia. Qed.

Lemma check_nonzero_wrong sid w :
  baton_received (ctx w) <> 0 ->
  baton_state (ctx w) = wt_baton_state_sent ->
  baton_received (ctx w) <> baton (ctx w) + 1 ->
  error_close sid w.
Proof.
  intros Hnz Hsent Hwrong. unfold error_close, wt_baton_check.
  apply Z.eqb_neq in Hnz, Hwrong. rewrite Hnz, Hsent, Hwrong. simpl.
  split; [reflexivity|].
  rewrite <- (control_stream_open_upd_ctx
                (set_baton_state wt_baton_state_error) w eq_refl eq_refl).
  destruct (control_stream_open (upd_ctx _ w)) eqn:Hopen.
  - rewrite (close_session_open _ _ _ Hopen). split; reflexivity.
  - rewrite (close_session_finished _ _ _ Hopen). simpl.
    rewrite app_nil_r. split; reflexivity.
Qed.

Lemma check_next_baton_state c :
  baton_state (check_next_baton c) = wt_baton_state_done
  \/ baton_state (check_next_baton c) = wt_baton_state_sent
  \/ baton_state (check_next_baton c) = baton_state c.
Proof.
  unfold check_next_baton. simpl.
  repeat match goal with |- context [if ?b then _ else _] => destruct b end;
    simpl; auto.
Qed.

Lemma check_arm_datagram_keeps w :
  let w' := check_arm_datagram w in
  baton_state (ctx w') = baton_state (ctx w)
  /\ baton (ctx w') = baton (ctx w)
  /\ baton_received (ctx w') = baton_received (ctx w)
  /\ nb_turns (ctx w') = nb_turns (ctx w)
  /\ nb_turns_required (ctx w') = nb_turns_required (ctx w)
  /\ close_messages (trace w') = close_messages (trace w).
Proof.
  unfold check_arm_datagram, h3zero_set_datagram_ready.
  destruct (_ && _); simpl; repeat split.
  rewrite close_messages_app. apply app_nil_r.
Qed.

Lemma check_valid sid w :
  baton_received (ctx w) <> 0 ->
  (baton_state (ctx w) = wt_baton_state_sent ->
   baton_received (ctx w) = baton (ctx w) + 1) ->
  wt_baton_check sid w = wt_baton_relay (Some sid) (checked_world w).
Proof.
  intros Hnz Hok. unfold wt_baton_check, checked_world.
  apply Z.eqb_neq in Hnz. rewrite Hnz.
  destruct (state_eqb (baton_state (ctx w)) wt_baton_state_sent) eqn:Hs.
  - assert (baton_state (ctx w) = wt_baton_state_sent) as Hsent
        by (destruct (baton_state (ctx w)); try discriminate; reflexivity).
    rewrite (Hok Hsent), Z.eqb_refl. reflexivity.
  - reflexivity.
Qed.

Lemma check_next_baton_fields c1 c2 :
  nb_turns c1 = nb_turns c2 ->
  nb_turns_required c1 = nb_turns_required c2 ->
  baton c1 = baton c2 ->
  baton_received c1 = baton_received c2 ->
  baton_state c1 = baton_state c2 ->
  baton (check_next_baton c1) = baton (check_next_baton c2)
  /\ baton_state (check_next_baton c1) = baton_state (check_next_baton c2)
  /\ nb_turns (check_next_baton c1) = nb_turns (check_next_baton c2)
  /\ nb_turns_required (check_next_baton c1) = nb_turns_required c2
  /\ baton_received (check_next_baton c1) = baton_received c2.
Proof.
  intros Ht Hq Hb Hr Hs. unfold check_next_baton. simpl.
  rewrite Ht, Hq, Hb, Hr.
  repeat match goal with |- context [if ?b then _ else _] => destruct b end;
    simpl; repeat split; assumption.
Qed.

Lemma checked_world_keeps w :
  let c := ctx w in
  let c' := ctx (checked_world w) in
  baton c' = baton (check_next_baton c)
  /\ baton_state c' = baton_state (check_next_baton c)
  /\ nb_turns c' = nb_turns (check_next_baton c)
  /\ nb_turns_required c' = nb_turns_required c
  /\ baton_received c' = baton_received c
  /\ close_messages (trace (checked_world w)) = close_messages (trace w).
Proof.
  unfold checked_world.
  set (w1 := if _ && _ then _ else w).
  assert (H1 : baton_state (ctx w1) = baton_state (ctx w)
               /\ baton (ctx w1) = baton (ctx w)
               /\ baton_received (ctx w1) = baton_received (ctx w)
               /\ nb_turns (ctx w1) = nb_turns (ctx w)
               /\ nb_turns_required (ctx w1) = nb_turns_required (ctx w)
               /\ trace w1 = trace w).
  { subst w1. destruct (_ && _); repeat split. }
  destruct H1 as (Hs & Hb & Hr & Ht & Hq & Htr).
  destruct (check_arm_datagram_keeps w1) as (Hs' & Hb' & Hr' & Ht' & Hq' & Htr').
  simpl.
  destruct (check_next_baton_fields (ctx (check_arm_datagram w1)) (ctx w))
    as (F1 & F2 & F3 & F4 & F5); try congruence.
  rewrite Htr', Htr. repeat split; assumption.
Qed.

(** C5 (as amended).  In a session that has sent a baton, a decoded baton
    other than 0 that differs from the baton sent plus one, the sum taken
    on a byte, is answered by the error state and a close with the
    malformed-message code; this holds for every baton sent, 255 included,
    after which no baton other than 0 is right.  A decoded baton equal to
    the baton sent plus one on a byte brings no error close.  A decoded
    baton of 0 ends the exchange before this comparison is made. *)
Theorem check_wrong_baton (sid : Z) (w : world) :
  baton_state (ctx w) = wt_baton_state_sent ->
  0 <= baton (ctx w) < 256 ->
  0 <= baton_received (ctx w) < 256 ->
  (baton_received (ctx w) <> 0 ->
   baton_received (ctx w) <> u8 (baton (ctx w) + 1) ->
   error_close sid w)
  /\ (baton_received (ctx w) = u8 (baton (ctx w) + 1) -> no_error_close sid w).
Proof.
  intros Hsent Hb Hr. split.
  - intros Hnz Hwrong. apply check_nonzero_wrong; try assumption.
    destruct (Z.eq_dec (baton (ctx w)) 255) as [H255|Hne].
    + rewrite H255. apply u8_succ_255; assumption.
    + intros Heq. apply Hwrong. rewrite Heq. unfold u8.
      symmetry. apply Z.mod_small. lia.
  - intros Hright. unfold no_error_close.
    destruct (Z.eq_dec (baton_received (ctx w)) 0) as [Hzero|Hnz].
    + rewrite (check_zero sid w Hzero).
      destruct (zero_checked_world sid w) as (Hctx & Htrace & _).
      destruct (close_session_effect 0 None (zero_checked sid w)) as (Ht & Hs).
      cbv zeta in Ht, Hs, Htrace. rewrite Ht, Hs, Htrace, Hctx. split.
      * destruct (control_stream_open _); discriminate.
      * rewrite !close_messages_app.
        eexists. split; [rewrite <- app_assoc; reflexivity|].
        apply Forall_app. split.
        -- destruct (IS_BIDIR_STREAM_ID sid && _); simpl; constructor.
        -- destruct (control_stream_open _); simpl; repeat constructor.
    + assert (Hsucc : baton_received (ctx w) = baton (ctx w) + 1).
      { rewrite Hright. apply u8_succ_small; [assumption|].
        rewrite <- Hright. exact Hnz. }
      rewrite (check_valid sid w Hnz (fun _ => Hsucc)).
      destruct (relay_keeps (Some sid) (checked_world w)) as (Hs & _).
      destruct (relay_ctx (Some sid) (checked_world w)) as (_ & Htr).
      destruct (checked_world_keeps w) as (_ & Hs' & _ & _ & _ & Htr').
      simpl in *. rewrite Hs, Hs', Htr, Htr'. split.
      * destruct (check_next_baton_state (ctx w)) as [H|[H|H]];
          rewrite H; try discriminate.
        rewrite Hsent. discriminate.
      * exists []. split; [symmetry; apply app_nil_r|constructor].
Qed.

Lemma check_wrong_baton_witness :
  error_close 4 (with_baton_received 77 (sample_server 41 3 127))
  /\ error_close 4 (with_baton_received 1 (sample_server 255 3 127))
  /\ no_error_close 4 (with_baton_received 42 (sample_server 41 3 127)).
Proof.
  split; [|split].
  - apply (check_wrong_baton 4 (with_baton_received 77 (sample_server 41 3 127)));
      eval_side.
  - apply (check_wrong_baton 4 (with_baton_received 1 (sample_server 255 3 127)));
      eval_side.
  - apply (check_wrong_baton 4 (with_baton_received 42 (sample_server 41 3 127)));
      eval_side.
Defined.

(** C5 as stated fails.  The session has sent 5 and decodes 0: the baton
    differs from 6, yet the check ends the exchange with the success code
    and the state is never the error state. *)
Lemma wrong_baton_rule_stated_fails :
  let w := with_baton_received 0 (sample_server 5 3 127) in
  baton_state (ctx w) = wt_baton_state_sent
  /\ baton_received (ctx w) <> u8 (baton (ctx w) + 1)
  /\ close_messages (trace (snd (wt_baton_check 4 w)))
     = [(0, Some "Have a nice day"%string)]
  /\ baton_state (ctx (snd (wt_baton_check 4 w))) = wt_baton_state_closed
  /\ ~ wrong_baton_rule_stated 4 w.
Proof.
  repeat split; try (vm_compute; congruence).
  intros H. destruct (H eq_refl) as [Herr _].
  destruct Herr as (_ & Htrace & _); [vm_compute; discriminate|].
  vm_compute in Htrace. discriminate.
Qed.

(** ** Counting turns *)

Lemma s32_small x : -2147483648 <= x < 2147483648 -> s32 x = x.
Proof. unfold s32. intros H. rewrite Z.mod_small; lia. Qed.

(** The context with which the check of a valid baton ends: the next baton
    is chosen, then the dispatch may count one more turn. *)
Lemma check_valid_ctx sid w :
  valid_baton (ctx w) ->
  let c1 := check_next_baton (ctx w) in
  let c' := ctx (snd (wt_baton_check sid w)) in
  baton c' = baton c1
  /\ baton_state c' = baton_state c1
  /\ (nb_turns c' = nb_turns c1 \/ nb_turns c' = s32 (nb_turns c1 + 1)).
Proof.
  intros [Hnz Hok]. simpl. rewrite (check_valid sid w Hnz Hok).
  destruct (relay_keeps (Some sid) (checked_world w)) as (Hs & Hb & _ & _ & Ht).
  destruct (checked_world_keeps w) as (Hb' & Hs' & Ht' & _).
  simpl in *. rewrite Hs, Hb, Hs', Hb'. repeat split.
  rewrite <- Ht'. exact Ht.
Qed.

(** C2 (as amended).  When the number of turns required is not 257, the
    check of a valid baton marks the session done exactly when the count
    after crediting the turn of the peer, the count before the check plus
    one, has reached the number required, and it then sets the baton to
    send to 0; otherwise the session is in the sent state and the baton to
    send is the baton received plus one on a byte.  The turn that the
    dispatch credits afterwards is not compared with the number required:
    the check ends with the count one or two above the count it started
    with. *)
Theorem check_done (sid : Z) (w : world) :
  let c := ctx w in
  let c' := ctx (snd (wt_baton_check sid w)) in
  valid_baton c ->
  nb_turns_required c <> 257 ->
  0 <= nb_turns c < 2147483646 ->
  (baton_state c' = wt_baton_state_done <-> nb_turns_required c <= nb_turns c + 1)
  /\ (nb_turns_required c <= nb_turns c + 1 -> baton c' = 0)
  /\ (nb_turns c + 1 < nb_turns_required c ->
      baton_state c' = wt_baton_state_sent
      /\ baton c' = u8 (baton_received c + 1))
  /\ (nb_turns c' = nb_turns c + 1 \/ nb_turns c' = nb_turns c + 2).
Proof.
  intros c c' Hvalid Hreq Hturns.
  destruct (check_valid_ctx sid w Hvalid) as (Hb & Hs & Ht).
  fold c' in Hb, Hs, Ht. rewrite Hb, Hs. clear Hb Hs.
  assert (Hn : nb_turns (check_next_baton (ctx w)) = nb_turns c + 1).
  { unfold check_next_baton. simpl. fold c.
    rewrite (s32_small (nb_turns c + 1)) by lia.
    repeat match goal with |- context [if ?b then _ else _] => destruct b end;
      reflexivity. }
  rewrite Hn in Ht. rewrite (s32_small (nb_turns c + 1 + 1)) in Ht by lia.
  unfold check_next_baton. simpl. fold c.
  rewrite (s32_small (nb_turns c + 1)) by lia.
  apply Z.eqb_neq in Hreq. rewrite Hreq, andb_false_r.
  destruct (Z.leb_spec (nb_turns_required c) (nb_turns c + 1)) as [Hle|Hlt];
    simpl.
  - split; [tauto|]. split; [reflexivity|]. split; lia.
  - split; [split; [discriminate|lia]|]. split; [lia|]. split; [|lia].
    intros _. split; reflexivity.
Qed.

Lemma check_done_witness :
  let w := with_baton_received 42 (sample_server 41 2 3) in
  baton_state (ctx (snd (wt_baton_check 4 w))) = wt_baton_state_done
  /\ baton (ctx (snd (wt_baton_check 4 w))) = 0.
Proof.
  destruct (check_done 4 (with_baton_received 42 (sample_server 41 2 3)))
    as (Hdone & Hzero & _).
  - split; [discriminate|reflexivity].
  - discriminate.
  - vm_compute. split; [discriminate|reflexivity].
  - split; [apply Hdone|apply Hzero]; vm_compute; discriminate.
Defined.

(** C2 as stated fails.  With 3 turns required and a count of 1, the
    check of the valid baton 42 brings the count to 2 and the dispatch
    brings it to 3: the count has reached the number required, yet the
    session is in the sent state and the baton to send is 43.  The
    session becomes done in the next check, at a count of 4. *)
Lemma done_rule_stated_fails :
  let w := with_baton_received 42 (sample_server 41 1 3) in
  let c' := ctx (snd (wt_baton_check 4 w)) in
  valid_baton (ctx w)
  /\ nb_turns (ctx w) = 1 /\ nb_turns_required (ctx w) = 3
  /\ nb_turns c' = 3
  /\ baton_state c' = wt_baton_state_sent
  /\ baton c' = 43
  /\ ~ done_rule_stated 4 w.
Proof.
  repeat split; try eval_side.
  intros H. destruct H as [[_ Hdone] _]; try eval_side.
  assert (Hcount : 1 < 3 <= 3) by lia.
  apply Hdone in Hcount. vm_compute in Hcount. discriminate.
Qed.

(** ** The error injection *)

(** C3 (as amended).  With 257 turns required, the check of a valid
    baton that brings the count to 4 or more, and below 257, adds 31 on a
    byte to the baton that this side sent last, not to the baton received,
    and puts 1 in the place of a result of 0; the state is left as it
    was. *)
Theorem check_injection (sid : Z) (w : world) :
  let c := ctx w in
  let c' := ctx (snd (wt_baton_check sid w)) in
  valid_baton c ->
  nb_turns_required c = 257 ->
  4 <= nb_turns c + 1 < 257 ->
  baton c' = injected (baton c)
  /\ baton c' <> 0
  /\ baton_state c' = baton_state c.
Proof.
  intros c c' Hvalid Hreq Hturns.
  destruct (check_valid_ctx sid w Hvalid) as (Hb & Hs & _).
  fold c' in Hb, Hs. rewrite Hb, Hs. clear Hb Hs.
  unfold check_next_baton, injected. simpl. fold c.
  rewrite (s32_small (nb_turns c + 1)) by lia. rewrite Hreq.
  destruct (Z.leb_spec 257 (nb_turns c + 1)) as [Hle|_]; [lia|].
  destruct (Z.leb_spec 4 (nb_turns c + 1)) as [_|Hlt]; [|lia].
  simpl. destruct (Z.eqb_spec (u8 (baton c + 31)) 0) as [Hz|Hnz]; simpl.
  - repeat split. discriminate.
  - repeat split. exact Hnz.
Qed.

(** The two branches on sample sessions: 250 + 31 wraps around to 25, and
    225 + 31 wraps around to 0, in the place of which 1 is sent. *)
Lemma check_injection_witness :
  baton (ctx (snd (wt_baton_check 4
                     (with_baton_received 251 (sample_server 250 5 257))))) = 25
  /\ baton (ctx (snd (wt_baton_check 4
                        (with_baton_received 226 (sample_server 225 5 257))))) = 1.
Proof.
  split.
  - destruct (check_injection 4 (with_baton_received 251 (sample_server 250 5 257)))
      as (Hb & _); [eval_side|eval_side|eval_side|exact Hb].
  - destruct (check_injection 4 (with_baton_received 226 (sample_server 225 5 257)))
      as (Hb & _); [eval_side|eval_side|eval_side|exact Hb].
Defined.

(** C3 as stated fails.  The session has sent 10 and receives 11 in the
    turn that brings the count to 4: the baton to send is 10 + 31 = 41, not
    11 + 31 = 42. *)
Lemma injection_stated_fails :
  let w := with_baton_received 11 (sample_server 10 3 257) in
  valid_baton (ctx w)
  /\ baton (ctx (snd (wt_baton_check 4 w))) = 41
  /\ injected (baton_received (ctx w)) = 42
  /\ ~ injection_stated 4 w.
Proof.
  repeat split; try eval_side.
  intros H. unfold injection_stated in H.
  assert (Hb := H ltac:(eval_side) eq_refl ltac:(eval_side)).
  vm_compute in Hb. discriminate.
Qed.

(** ** The decoder and the way a frame is cut *)

Lemma set_receive_ready_ready c : receive_ready (wt_baton_set_receive_ready c).
Proof. repeat split. Qed.

Lemma stream_data_relay_stream bytes is_fin sid w :
  relay_stream sid w ->
  wt_baton_stream_data bytes is_fin sid w = stream_data_baton bytes is_fin sid w.
Proof.
  intros ((sc & Hsc & Hlinked) & Hne & Hstate).
  unfold wt_baton_stream_data. rewrite Hsc.
  apply Z.eqb_neq in Hne, Hlinked. rewrite Hne, Hlinked.
  destruct Hstate as [-> | ->]; reflexivity.
Qed.

Lemma u64_add_l a b : u64 (u64 a + b) = u64 (a + b).
Proof. unfold u64. apply Z.add_mod_idemp_l. discriminate. Qed.

(** *** The stages of the decoder *)

Lemma read_padding_length_known rest c p :
  padding_expected c <> UINT64_MAX -> read_padding_length rest c p = (c, p).
Proof.
  intros H%Z.eqb_neq. destruct rest; simpl; rewrite H; reflexivity.
Qed.

Lemma read_padding_length_nil c p : read_padding_length [] c p = (c, p).
Proof. simpl. destruct (_ =? _); reflexivity. Qed.

Lemma read_padding_length_first b rest c p :
  padding_expected c = UINT64_MAX ->
  nb_receive_buffer_bytes c = 0 ->
  read_padding_length (b :: rest) c p
  = read_padding_length rest (buffer_first b c) (p + 1).
Proof.
  intros He Hn. simpl. rewrite He, Hn. reflexivity.
Qed.

Lemma VARINT_LEN_T_short b0 tl : 0 <= b0 < 64 -> VARINT_LEN_T (b0 :: tl) = 1.
Proof.
  intros Hb0. unfold VARINT_LEN_T. simpl nth.
  replace (Z.land b0 192) with 0; [reflexivity|].
  symmetry. apply Z.bits_inj'. intros n Hn.
  rewrite Z.land_spec, Z.bits_0.
  destruct (Z.lt_ge_cases n 6).
  - replace 192 with (Z.shiftl 3 6) by reflexivity.
    rewrite Z.shiftl_spec_low by assumption. apply andb_false_r.
  - rewrite (Z.bits_above_log2 b0 n); [reflexivity|lia|].
    destruct (Z.eq_dec b0 0) as [->|]; [simpl; lia|].
    apply Z.lt_le_trans with 6; [|assumption].
    apply Z.log2_lt_pow2; lia.
Qed.

Lemma land_63_short b0 : 0 <= b0 < 64 -> Z.land b0 63 = b0.
Proof.
  intros Hb0. change 63 with (Z.ones 6). rewrite Z.land_ones by lia.
  apply Z.mod_small. simpl. lia.
Qed.

(** A length below 64 is encoded on one byte. *)
Lemma varint_decode_short b0 tl :
  0 <= b0 < 64 -> picoquic_frames_varint_decode (b0 :: tl) = Some (tl, b0).
Proof.
  intros Hb0. unfold picoquic_frames_varint_decode.
  rewrite (VARINT_LEN_T_short b0 tl Hb0), (land_63_short b0 Hb0).
  reflexivity.
Qed.

Lemma read_padding_length_short b0 b rest c p :
  padding_expected c = UINT64_MAX ->
  nb_receive_buffer_bytes c = 1 ->
  (exists tl, receive_buffer c = b0 :: tl) ->
  0 <= b0 < 64 ->
  read_padding_length (b :: rest) c p = (set_padding_expected b0 c, p).
Proof.
  intros He Hn [tl Hbuf] Hb0.
  change (read_padding_length (b :: rest) c p)
    with (if padding_expected c =? UINT64_MAX then
            if (0 <? nb_receive_buffer_bytes c)
               && (VARINT_LEN_T (receive_buffer c) <=? nb_receive_buffer_bytes c)
            then
              (match picoquic_frames_varint_decode
                       (take (Z.to_nat (VARINT_LEN_T (receive_buffer c)))
                          (receive_buffer c))
               with
               | Some (_, v) => set_padding_expected v c
               | None => c
               end, p)
            else
              read_padding_length rest
                (set_nb_receive_buffer_bytes (nb_receive_buffer_bytes c + 1)
                   (set_receive_buffer
                      (array_store (nb_receive_buffer_bytes c) b
                         (receive_buffer c)) c))
                (p + 1)
          else (c, p)).
  rewrite He, Hn, Hbuf, (VARINT_LEN_T_short b0 tl Hb0).
  change (take (Z.to_nat 1) (b0 :: tl)) with (b0 :: take 0 tl).
  rewrite (varint_decode_short b0 _ Hb0). reflexivity.
Qed.

Lemma array_store_0 b buf : array_store 0 b buf = b :: drop 1 buf.
Proof. unfold array_store. destruct buf; reflexivity. Qed.

(** Skipping: the padding still expected is longer than what is left. *)
Lemma skip_padding_part len c p :
  padding_expected c <> UINT64_MAX ->
  0 <= p < len -> len < 18446744073709551616 ->
  0 <= padding_received c ->
  padding_received c + (len - p) <= padding_expected c ->
  padding_expected c < 18446744073709551616 ->
  skip_padding len c p
  = (set_padding_received (padding_received c + (len - p)) c, len).
Proof.
  intros He Hp Hlen Hr Hfit Hmax. unfold skip_padding.
  apply Z.eqb_neq in He. rewrite He. simpl.
  rewrite (proj2 (Z.ltb_lt p len)) by lia.
  rewrite (proj2 (Z.ltb_lt (padding_received c) (padding_expected c))) by lia.
  assert (Hu : forall x, 0 <= x < 18446744073709551616 -> u64 x = x)
    by (intros x Hx; apply Z.mod_small; exact Hx).
  rewrite (Hu (len - p)) by lia.
  rewrite (Hu (len - p + padding_received c)) by lia.
  rewrite (proj2 (Z.ltb_ge (padding_expected c) (len - p + padding_received c)))
    by lia.
  rewrite (Hu (padding_received c + (len - p))) by lia.
  rewrite (Hu (p + (len - p))) by lia.
  f_equal. lia.
Qed.

(** Skipping: the padding ends inside the range. *)
Lemma skip_padding_end len c p :
  padding_expected c <> UINT64_MAX ->
  0 <= p < len -> len < 18446744073709551616 ->
  0 <= padding_received c < padding_expected c ->
  padding_expected c < padding_received c + (len - p) ->
  padding_received c + (len - p) < 18446744073709551616 ->
  skip_padding len c p
  = (set_padding_received (padding_expected c) c,
     p + (padding_expected c - padding_received c)).
Proof.
  intros He Hp Hlen Hr Hfit Hsum. unfold skip_padding.
  apply Z.eqb_neq in He. rewrite He. simpl.
  rewrite (proj2 (Z.ltb_lt p len)) by lia.
  rewrite (proj2 (Z.ltb_lt (padding_received c) (padding_expected c))) by lia.
  assert (Hu : forall x, 0 <= x < 18446744073709551616 -> u64 x = x)
    by (intros x Hx; apply Z.mod_small; exact Hx).
  rewrite (Hu (len - p)) by lia.
  rewrite (Hu (len - p + padding_received c)) by lia.
  rewrite (proj2 (Z.ltb_lt (padding_expected c) (len - p + padding_received c)))
    by lia.
  rewrite (Hu (padding_expected c - padding_received c)) by lia.
  rewrite (Hu (padding_received c + _)) by lia.
  rewrite (Hu (p + _)) by lia.
  f_equal. f_equal. lia.
Qed.

(** Skipping: nothing to skip. *)
Lemma skip_padding_none len c p :
  padding_expected c = UINT64_MAX \/ len <= p
  \/ padding_expected c <= padding_received c ->
  skip_padding len c p = (c, p).
Proof.
  unfold skip_padding. intros [H|[H|H]].
  - rewrite H. reflexivity.
  - rewrite (proj2 (Z.ltb_ge p len)) by lia. rewrite andb_false_r. reflexivity.
  - rewrite (proj2 (Z.ltb_ge (padding_received c) (padding_expected c))) by lia.
    destruct (_ && _); reflexivity.
Qed.

(** The baton is the last byte of the range. *)
Lemma read_baton_last bytes len p w :
  padding_expected (ctx w) <> UINT64_MAX ->
  padding_expected (ctx w) = padding_received (ctx w) ->
  is_receiving (ctx w) = true ->
  0 <= p -> p + 1 = len -> len < 18446744073709551616 ->
  read_baton bytes len p w
  = (0, upd_ctx (fun c =>
           set_is_receiving false
             (set_baton_received (nth (Z.to_nat p) bytes 0) c)) w).
Proof.
  intros He Heq Hrecv Hp Hlast Hlen. unfold read_baton.
  apply Z.eqb_neq in He. rewrite He, Heq, Z.eqb_refl, Hrecv. simpl.
  rewrite (proj2 (Z.ltb_lt p len)) by lia.
  unfold u64. rewrite Z.mod_small by lia.
  rewrite (proj2 (Z.ltb_ge (p + 1) len)) by lia. reflexivity.
Qed.

(** No baton yet: the length is not known, the padding is not over, or
    the range is used up. *)
Lemma read_baton_idle bytes len p w :
  padding_expected (ctx w) = UINT64_MAX
  \/ padding_expected (ctx w) <> padding_received (ctx w)
  \/ len <= p ->
  read_baton bytes len p w = (0, w).
Proof.
  unfold read_baton. intros [H|[H|H]].
  - rewrite H. reflexivity.
  - apply Z.eqb_neq in H. rewrite H, andb_false_r. reflexivity.
  - rewrite (proj2 (Z.ltb_ge p len)) by lia. rewrite andb_false_r. reflexivity.
Qed.

Lemma set_receiving_stream_id_same sid c :
  receiving_stream_id c = sid -> set_receiving_stream_id sid c = c.
Proof. destruct c. simpl. intros ->. reflexivity. Qed.

Lemma stream_data_bytes_claimed bytes sid w :
  receiving_stream_id (ctx w) = UINT64_MAX \/ receiving_stream_id (ctx w) = sid ->
  stream_data_bytes bytes sid w
  = (let '(c, processed) :=
       read_padding_length bytes (claimed sid (Z.of_nat (length bytes)) (ctx w)) 0 in
     let '(c, processed) := skip_padding (Z.of_nat (length bytes)) c processed in
     read_baton bytes (Z.of_nat (length bytes)) processed (upd_ctx (fun _ => c) w)).
Proof.
  intros Hrid. unfold stream_data_bytes, claimed.
  assert (Hclaim :
    ctx (if receiving_stream_id (ctx w) =? UINT64_MAX
         then upd_ctx (set_receiving_stream_id sid) w else w)
    = set_receiving_stream_id sid (ctx w)).
  { destruct (receiving_stream_id (ctx w) =? UINT64_MAX) eqn:Hmax;
      [reflexivity|].
    destruct Hrid as [Hrid|Hrid].
    - rewrite Hrid in Hmax. discriminate.
    - symmetry. apply set_receiving_stream_id_same, Hrid. }
  set (w1 := if receiving_stream_id (ctx w) =? UINT64_MAX then _ else w) in *.
  assert (Hrest : streams w1 = streams w /\ cnx w1 = cnx w /\ trace w1 = trace w).
  { subst w1. destruct (_ =? _); repeat split. }
  destruct Hrest as (Hs & Hq & Ht).
  rewrite Hclaim. simpl. rewrite Z.eqb_refl. simpl. rewrite Hclaim.
  unfold upd_ctx. simpl. rewrite Hs, Hq, Ht. reflexivity.
Qed.

(** The first byte of a frame, 2: it is buffered, no length is known
    yet. *)
Lemma decode_length_byte sid w :
  decoding (ctx w) UINT64_MAX UINT64_MAX 0 0 ->
  stream_data_bytes [2] sid w = (0, upd_ctx (length_buffered sid) w).
Proof.
  intros H. decoding_fields H.
  rewrite stream_data_bytes_claimed by (left; exact Hrid).
  rewrite read_padding_length_first by (simpl; assumption).
  rewrite read_padding_length_nil.
  rewrite skip_padding_none by (left; simpl; assumption).
  rewrite read_baton_idle by (left; simpl; assumption).
  reflexivity.
Qed.

(** A byte of padding that comes when the length byte 2 is buffered: the
    length is decoded, one byte of padding is counted. *)
Lemma decode_first_padding sid w :
  decoding (ctx w) sid UINT64_MAX 0 1 ->
  (exists tl, receive_buffer (ctx w) = 2 :: tl) ->
  stream_data_bytes [0] sid w = (0, upd_ctx (padding_started sid) w).
Proof.
  intros H Hbuf. decoding_fields H.
  rewrite stream_data_bytes_claimed by (right; exact Hrid).
  rewrite (read_padding_length_short 2) by (simpl; first [assumption|lia]).
  rewrite skip_padding_part; simpl; rewrite ?Hrcv; try lia; try discriminate.
  rewrite read_baton_idle by (right; right; simpl; lia).
  reflexivity.
Qed.

(** The second byte of padding. *)
Lemma decode_second_padding sid nb w :
  decoding (ctx w) sid 2 1 nb ->
  stream_data_bytes [0] sid w = (0, upd_ctx (padding_ended sid) w).
Proof.
  intros H. decoding_fields H.
  rewrite stream_data_bytes_claimed by (right; exact Hrid).
  rewrite read_padding_length_known by (simpl; rewrite Hexp; discriminate).
  rewrite skip_padding_part; simpl; rewrite ?Hrcv, ?Hexp; try lia;
    try discriminate.
  rewrite read_baton_idle by (right; right; simpl; lia).
  reflexivity.
Qed.

(** The baton byte, once the padding is over. *)
Lemma decode_baton_byte b sid nb w :
  decoding (ctx w) sid 2 2 nb ->
  stream_data_bytes [b] sid w = (0, upd_ctx (baton_read b sid) w).
Proof.
  intros H. decoding_fields H.
  rewrite stream_data_bytes_claimed by (right; exact Hrid).
  rewrite read_padding_length_known by (simpl; rewrite Hexp; discriminate).
  rewrite skip_padding_none by (right; right; simpl; lia).
  rewrite read_baton_last; simpl; rewrite ?Hexp, ?Hrcv; try lia;
    try discriminate; try assumption.
  reflexivity.
Qed.

(** The whole frame in one range. *)
Lemma decode_frame b sid w :
  decoding (ctx w) UINT64_MAX UINT64_MAX 0 0 ->
  stream_data_bytes [2; 0; 0; b] sid w
  = (0, upd_ctx (fun c =>
           set_is_receiving false
             (set_baton_received b
                (set_padding_received 2
                   (set_padding_expected 2
                      (buffer_first 2 (claimed sid 4 c)))))) w).
Proof.
  intros H. decoding_fields H.
  rewrite stream_data_bytes_claimed by (left; exact Hrid).
  rewrite read_padding_length_first by (simpl; assumption).
  rewrite (read_padding_length_short 2);
    [|simpl; assumption|reflexivity
     |simpl; rewrite array_store_0; eexists; reflexivity|lia].
  rewrite skip_padding_end; simpl; rewrite ?Hrcv; try lia; try discriminate.
  rewrite read_baton_last; simpl; try lia; try discriminate; try assumption.
  reflexivity.
Qed.

(** *** The frame in four ranges and in one *)

Lemma relay_stream_upd_ctx f sid w :
  control_stream_id (f (ctx w)) = control_stream_id (ctx w) ->
  baton_state (f (ctx w)) = baton_state (ctx w) ->
  relay_stream sid w -> relay_stream sid (upd_ctx f w).
Proof.
  intros Hc Hs (Hsc & Hne & Hstate). unfold relay_stream. simpl.
  rewrite Hc, Hs. repeat split; assumption.
Qed.

(** A range that does not end the stream leaves what the decoder made of
    it. *)
Lemma stream_data_more b sid w f :
  relay_stream sid w ->
  stream_data_bytes [b] sid w = (0, upd_ctx f w) ->
  wt_baton_stream_data [b] false sid w = (0, upd_ctx f w).
Proof.
  intros Hrelay Hbytes.
  rewrite (stream_data_relay_stream _ _ _ _ Hrelay).
  unfold stream_data_baton. simpl. rewrite Hbytes. reflexivity.
Qed.

(** A range that ends the stream hands what the decoder made of it to the
    end-of-stream handling. *)
Lemma stream_data_last bytes sid w f :
  relay_stream sid w ->
  bytes <> [] ->
  stream_data_bytes bytes sid w = (0, upd_ctx f w) ->
  wt_baton_stream_data bytes true sid w = stream_data_fin sid (upd_ctx f w).
Proof.
  intros Hrelay Hne Hbytes.
  rewrite (stream_data_relay_stream _ _ _ _ Hrelay).
  unfold stream_data_baton. rewrite Hbytes.
  destruct bytes; [congruence|reflexivity].
Qed.

Lemma u64_count n : u64 (u64 (u64 (u64 (n + 1) + 1) + 1) + 1) = u64 (n + 4).
Proof.
  rewrite u64_add_l, <- (Z.add_assoc (u64 _)), u64_add_l.
  rewrite <- (Z.add_assoc (u64 _)), u64_add_l.
  f_equal. lia.
Qed.

Lemma four_ranges_ctx b sid c :
  baton_read b sid (padding_ended sid (padding_started sid (length_buffered sid c)))
  = frame_decoded b sid c.
Proof.
  destruct c.
  cbv [frame_decoded baton_read padding_ended padding_started length_buffered
       claimed buffer_first set_is_receiving set_baton_received
       set_nb_baton_bytes_received set_receiving_stream_id set_padding_received
       set_padding_expected set_nb_receive_buffer_bytes set_receive_buffer
       h3_ctx control_stream_id is_client baton_state nb_turns_required
       nb_turns first_baton baton baton_received is_sending sending_stream_id
       padding_required padding_sent is_receiving receiving_stream_id
       padding_expected padding_received receive_buffer
       nb_receive_buffer_bytes nb_baton_bytes_received nb_baton_bytes_sent
       is_datagram_ready baton_datagram_send_next baton_datagram_received
       nb_datagrams_received nb_datagram_bytes_received nb_datagrams_sent
       nb_datagram_bytes_sent].
  rewrite u64_count. reflexivity.
Qed.

(** The state of the decoder after each range. *)
Lemma length_buffered_decoding sid c :
  receive_ready c ->
  decoding (length_buffered sid c) sid UINT64_MAX 0 1
  /\ exists tl, receive_buffer (length_buffered sid c) = 2 :: tl.
Proof.
  intros H. decoding_fields H. split.
  - repeat split; assumption.
  - simpl. rewrite array_store_0. eexists. reflexivity.
Qed.

Lemma padding_started_decoding sid c :
  decoding c sid UINT64_MAX 0 1 ->
  decoding (padding_started sid c) sid 2 1 1.
Proof. intros H. decoding_fields H. repeat split; assumption. Qed.

Lemma padding_ended_decoding sid c :
  decoding c sid 2 1 1 -> decoding (padding_ended sid c) sid 2 2 1.
Proof. intros H. decoding_fields H. repeat split; assumption. Qed.

(** A range of the frame keeps the stream a stream that carries batons. *)
Lemma relay_stream_range f sid w :
  (forall c, control_stream_id (f c) = control_stream_id c
             /\ baton_state (f c) = baton_state c) ->
  relay_stream sid w -> relay_stream sid (upd_ctx f w).
Proof.
  intros Hf. destruct (Hf (ctx w)) as [Hc Hs].
  apply relay_stream_upd_ctx; assumption.
Qed.

(** The check keeps the baton it checks. *)
Lemma check_received sid w :
  baton_received (ctx (snd (wt_baton_check sid w))) = baton_received (ctx w).
Proof.
  unfold wt_baton_check.
  destruct (baton_received (ctx w) =? 0).
  - match goal with
    | |- baton_received (ctx (snd (wt_baton_close_session ?e ?m ?w1))) = _ =>
        destruct (close_session_ctx e m w1) as [H|H]; rewrite H;
        destruct (IS_BIDIR_STREAM_ID sid && _); reflexivity
    end.
  - destruct (state_eqb _ _ && negb _).
    + match goal with
      | |- baton_received (ctx (snd (wt_baton_close_session ?e ?m ?w1))) = _ =>
          destruct (close_session_ctx e m w1) as [H|H]; rewrite H;
          destruct (state_eqb _ _ && _); reflexivity
      end.
    + fold (checked_world w).
      destruct (relay_keeps (Some sid) (checked_world w)) as (_ & _ & Hr & _).
      destruct (checked_world_keeps w) as (_ & _ & _ & _ & Hr' & _).
      simpl in *. congruence.
Qed.

(** At the end of a stream whose baton was read, the check is run; the
    stream may then be forgotten, which touches neither the context nor
    the trace. *)
Lemma stream_data_fin_checks sid w :
  is_receiving (ctx w) = false ->
  fst (stream_data_fin sid w) = fst (wt_baton_check sid w)
  /\ ctx (snd (stream_data_fin sid w)) = ctx (snd (wt_baton_check sid w))
  /\ trace (snd (stream_data_fin sid w)) = trace (snd (wt_baton_check sid w)).
Proof.
  intros Hrecv. unfold stream_data_fin. rewrite Hrecv.
  destruct (wt_baton_check sid w) as [ret w1]. simpl.
  destruct (streams w1 !! sid) as [sc|]; [|repeat split].
  destruct (is_fin_sent sc && _); [|repeat split].
  destruct (callback_context (cnx w1)); repeat split.
Qed.

(** C6.  On a stream that carries batons, with the decoder ready for a
    frame, the frame [0x02; 0x00; 0x00; 0x2A] delivered as four ranges of
    one byte, the last one with the end of the stream, gives the same
    return code and the same world as the four bytes delivered in one range
    with the end of the stream: in both cases the decoder ends with the
    baton 0x2A and no longer receiving, and the check of that baton is
    run. *)
Theorem decode_chunking (sid : Z) (w : world) :
  relay_stream sid w ->
  receive_ready (ctx w) ->
  let whole := wt_baton_stream_data [0x02; 0x00; 0x00; 0x2A] true sid w in
  let cut :=
    deliver [([0x02], false); ([0x00], false); ([0x00], false); ([0x2A], true)]
      sid (0, w) in
  let decoded := upd_ctx (frame_decoded 0x2A sid) w in
  cut = whole
  /\ whole = stream_data_fin sid decoded
  /\ baton_received (ctx decoded) = 0x2A
  /\ is_receiving (ctx decoded) = false
  /\ fst whole = fst (wt_baton_check sid decoded)
  /\ ctx (snd whole) = ctx (snd (wt_baton_check sid decoded))
  /\ trace (snd whole) = trace (snd (wt_baton_check sid decoded))
  /\ baton_received (ctx (snd whole)) = 0x2A.
Proof.
  intros Hrelay Hready whole cut decoded.
  assert (Hwhole : whole = stream_data_fin sid decoded).
  { subst whole decoded.
    apply stream_data_last; [assumption|discriminate|].
    apply decode_frame, Hready. }
  assert (Hcut : cut = stream_data_fin sid decoded).
  { subst cut decoded. unfold deliver. simpl fst. simpl snd.
    (* the length byte *)
    remember (upd_ctx (length_buffered sid) w) as w1 eqn:Hw1.
    assert (Hrelay1 : relay_stream sid w1)
      by (subst w1; apply relay_stream_range;
          [intros c; split; reflexivity|assumption]).
    destruct (length_buffered_decoding sid (ctx w) Hready) as [Hdec1 Hbuf1].
    change (length_buffered sid (ctx w))
      with (ctx (upd_ctx (length_buffered sid) w)) in Hdec1, Hbuf1.
    rewrite <- Hw1 in Hdec1, Hbuf1.
    rewrite Z.eqb_refl.
    rewrite (stream_data_more 2 sid w _ Hrelay (decode_length_byte sid w Hready)).
    rewrite <- Hw1. simpl fst. simpl snd. rewrite Z.eqb_refl.
    (* the first byte of padding *)
    remember (upd_ctx (padding_started sid) w1) as w2 eqn:Hw2.
    assert (Hrelay2 : relay_stream sid w2)
      by (subst w2; apply relay_stream_range;
          [intros c; split; reflexivity|assumption]).
    pose proof (padding_started_decoding sid (ctx w1) Hdec1) as Hdec2.
    change (padding_started sid (ctx w1))
      with (ctx (upd_ctx (padding_started sid) w1)) in Hdec2.
    rewrite <- Hw2 in Hdec2.
    rewrite (stream_data_more 0 sid w1 _ Hrelay1
               (decode_first_padding sid w1 Hdec1 Hbuf1)).
    rewrite <- Hw2. simpl fst. simpl snd. rewrite Z.eqb_refl.
    (* the second byte of padding *)
    remember (upd_ctx (padding_ended sid) w2) as w3 eqn:Hw3.
    assert (Hrelay3 : relay_stream sid w3)
      by (subst w3; apply relay_stream_range;
          [intros c; split; reflexivity|assumption]).
    pose proof (padding_ended_decoding sid (ctx w2) Hdec2) as Hdec3.
    change (padding_ended sid (ctx w2))
      with (ctx (upd_ctx (padding_ended sid) w2)) in Hdec3.
    rewrite <- Hw3 in Hdec3.
    rewrite (stream_data_more 0 sid w2 _ Hrelay2
               (decode_second_padding sid 1 w2 Hdec2)).
    rewrite <- Hw3. simpl fst. simpl snd. rewrite Z.eqb_refl.
    (* the baton, and the end of the stream *)
    rewrite (stream_data_last [42] sid w3 _ Hrelay3 ltac:(discriminate)
               (decode_baton_byte 42 sid 1 w3 Hdec3)).
    f_equal. subst w3 w2 w1. unfold upd_ctx.
    cbv [ctx streams cnx trace]. rewrite four_ranges_ctx. reflexivity. }
  assert (Hdone : is_receiving (ctx decoded) = false) by reflexivity.
  destruct (stream_data_fin_checks sid decoded Hdone) as (Hret & Hctx & Htrace).
  rewrite Hcut, Hwhole, Hret, Hctx, Htrace, check_received.
  repeat split.
Qed.

Lemma decode_chunking_witness :
  let w := sample_server 41 3 127 in
  deliver [([0x02], false); ([0x00], false); ([0x00], false); ([0x2A], true)]
    2 (0, w)
  = wt_baton_stream_data [0x02; 0x00; 0x00; 0x2A] true 2 w
  /\ baton_received
       (ctx (snd (wt_baton_stream_data [0x02; 0x00; 0x00; 0x2A] true 2 w)))
     = 0x2A.
Proof.
  destruct (decode_chunking 2 (sample_server 41 3 127))
    as (Hcut & _ & _ & _ & _ & _ & _ & Hbaton).
  - split; [|split].
    + exists (mk_stream_ctx 2 0 false false true). split; [reflexivity|discriminate].
    + discriminate.
    + right. reflexivity.
  - repeat split.
  - split; [exact Hcut|exact Hbaton].
Defined.

(** ** The encoder and the padding it commits to *)

Lemma choose_padding_first space c :
  padding_required c = UINT64_MAX ->
  choose_padding space c
  = if state_eqb (baton_state c) wt_baton_state_done then
      (set_padding_required 0 c, 1)
    else if space =? 1 then (set_padding_required 0x3F c, 1)
    else (set_padding_required 0x3FFF c, 2).
Proof. intros H. unfold choose_padding. rewrite H. reflexivity. Qed.

Lemma choose_padding_later space c :
  padding_required c <> UINT64_MAX -> choose_padding space c = (c, 0).
Proof.
  intros H%Z.eqb_neq. unfold choose_padding. rewrite H. reflexivity.
Qed.

(** Once the prefix is chosen, the rest of the call leaves the committed
    length alone.  The buffer handed to the transport starts with the bytes
    of the prefix still to be written; it is no larger than the space
    offered, and what follows the prefix fits in it. *)
Lemma provide_frame_padding space sid w ret w' :
  provide_frame space sid w = Some (ret, w') ->
  let c := fst (choose_padding space (ctx w)) in
  let padding_length_length := snd (choose_padding space (ctx w)) in
  padding_required (ctx w') = padding_required c
  /\ exists nb_bytes is_fin is_still_active rest,
       trace w'
       = trace w
         ++ [Call_provide_stream_data_buffer nb_bytes is_fin is_still_active
               ((if 0 <? padding_length_length then
                   picoquic_frames_varint_encode (padding_required c)
                 else []) ++ rest)]
       /\ nb_bytes <= space
       /\ padding_length_length + Z.of_nat (length rest) <= nb_bytes.
Proof.
  unfold provide_frame.
  destruct (choose_padding space (ctx w)) as [c pll]. simpl.
  assert (Hpad : forall x, 0 <= u64 x)
    by (intros x; unfold u64; apply Z.mod_pos_bound; lia).
  destruct (space <? _) eqn:Hspace; simpl.
  - destruct (is_sending c) eqn:Hsending; simpl.
    + destruct (space <? pll + u64 (space - pll)) eqn:Hfits; [discriminate|].
      destruct (0 <? u64 (space - pll)); simpl; rewrite Hsending;
        intros [= <- <-]; simpl;
        (split; [reflexivity|]); do 4 eexists;
        (split; [reflexivity|]); rewrite length_app, length_replicate;
        simpl; pose proof (Hpad (space - pll)); lia.
    + destruct (space <? pll + u64 (space - pll) + 1) eqn:Hfits; [discriminate|].
      destruct (0 <? u64 (space - pll)); simpl; rewrite Hsending;
        repeat (case_if; simpl); intros [= <- <-]; simpl;
        (split; [reflexivity|]); do 4 eexists;
        (split; [reflexivity|]); rewrite length_app, length_replicate;
        simpl; pose proof (Hpad (space - pll)); lia.
  - set (pad := u64 (padding_required c - padding_sent c)) in *.
    set (useful := u64 (pll + pad + 1)) in *.
    destruct (useful <? pll + pad + 1) eqn:Hfits; [discriminate|].
    destruct (0 <? pad); simpl;
      repeat (case_if; simpl); intros [= <- <-]; simpl;
      (split; [reflexivity|]); do 4 eexists;
      (split; [reflexivity|]); rewrite length_app, length_replicate;
      simpl; pose proof (Hpad (padding_required c - padding_sent c)) as Hp;
      fold pad in Hp; lia.
Qed.

(** The call has a result when what it writes fits the buffer. *)
Lemma provide_frame_fits space sid w :
  let c := fst (choose_padding space (ctx w)) in
  let padding_length_length := snd (choose_padding space (ctx w)) in
  let pad := u64 (padding_required c - padding_sent c) in
  is_sending c = true ->
  (if space <? u64 (padding_length_length + pad + 1) then
     padding_length_length + u64 (space - padding_length_length) <= space
   else padding_length_length + pad + 1 <= u64 (padding_length_length + pad + 1)) ->
  exists ret w', provide_frame space sid w = Some (ret, w').
Proof.
  unfold provide_frame.
  destruct (choose_padding space (ctx w)) as [c pll]. simpl.
  intros Hsending Hfits.
  destruct (space <? _); simpl.
  - rewrite Hsending. rewrite (proj2 (Z.ltb_ge _ _)) by lia.
    destruct (0 <? u64 (space - pll)); simpl; rewrite Hsending;
      do 2 eexists; reflexivity.
  - rewrite (proj2 (Z.ltb_ge _ _)) by lia.
    destruct (0 <? u64 (padding_required c - padding_sent c)); simpl;
      repeat (case_if; simpl); do 2 eexists; reflexivity.
Qed.

(** The entry of the call on the stream that is armed. *)
Lemma provide_data_armed_stream space sid w :
  is_sending (ctx w) = true ->
  sending_stream_id (ctx w) = UINT64_MAX \/ sending_stream_id (ctx w) = sid ->
  wt_baton_provide_data space sid w
  = provide_frame space sid (upd_ctx (set_sending_stream_id sid) w).
Proof.
  intros Hsending Hstream. unfold wt_baton_provide_data.
  destruct (sending_stream_id (ctx w) =? UINT64_MAX) eqn:Hmax.
  - simpl. rewrite Hsending. reflexivity.
  - destruct Hstream as [Hs|Hs]; [rewrite Hs in Hmax; discriminate|].
    rewrite Hs, Z.eqb_refl. simpl. rewrite Hsending.
    destruct w as [c st q tr]. destruct c. simpl in *. subst.
    reflexivity.
Qed.

(** The entry of the call in general: the context that the encoder finds
    has the padding fields of the context of the call. *)
Lemma provide_data_entry space sid w :
  exists ret w1,
    wt_baton_provide_data space sid w
    = (if (ret =? 0) && is_sending (ctx w1) then provide_frame space sid w1
       else Some (ret, emit (Call_provide_stream_data_buffer 0 false false []) w1))
    /\ padding_required (ctx w1) = padding_required (ctx w)
    /\ padding_sent (ctx w1) = padding_sent (ctx w).
Proof.
  unfold wt_baton_provide_data.
  set (r := if sending_stream_id (ctx w) =? UINT64_MAX then _ else _).
  assert (Hr : padding_required (ctx (snd r)) = padding_required (ctx w)
               /\ padding_sent (ctx (snd r)) = padding_sent (ctx w)).
  { subst r. repeat case_if; try (split; reflexivity).
    match goal with
    | |- context [wt_baton_close_session ?e ?m ?w1] =>
        destruct (close_session_ctx e m w1) as [H|H]; rewrite H;
        split; reflexivity
    end. }
  destruct r as [ret w1]. simpl in Hr. exists ret, w1.
  split; [reflexivity|exact Hr].
Qed.

(** C7.  On the first call for a frame, when the committed padding length
    is still at its sentinel and no padding is sent, a call that is offered
    at least one byte commits to 0 with a prefix of one byte when the
    session is done, to 0x3F with a prefix of one byte when one byte of
    space is offered, and to 0x3FFF with a prefix of two bytes otherwise;
    the buffer handed to the transport starts with that prefix, and what is
    written fits in the bytes claimed, which are no more than the space
    offered.  On a later call, whatever the space offered, the committed
    length is what it was, and the call has a result as long as the padding
    sent is within the padding committed. *)
Theorem provide_data_padding (space sid : Z) (w : world) :
  let is_done := state_eqb (baton_state (ctx w)) wt_baton_state_done in
  let committed := if is_done then 0 else if space =? 1 then 0x3F else 0x3FFF in
  let prefix := if is_done then 1 else if space =? 1 then 1 else 2 in
  (padding_required (ctx w) = UINT64_MAX ->
   padding_sent (ctx w) = 0 ->
   is_sending (ctx w) = true ->
   sending_stream_id (ctx w) = UINT64_MAX \/ sending_stream_id (ctx w) = sid ->
   1 <= space <= UINT64_MAX ->
   exists ret w',
     wt_baton_provide_data space sid w = Some (ret, w')
     /\ padding_required (ctx w') = committed
     /\ snd (choose_padding space (ctx w)) = prefix
     /\ Z.of_nat (length (picoquic_frames_varint_encode committed)) = prefix
     /\ exists nb_bytes is_fin is_still_active rest,
          trace w'
          = trace w
            ++ [Call_provide_stream_data_buffer nb_bytes is_fin is_still_active
                  (picoquic_frames_varint_encode committed ++ rest)]
          /\ Z.of_nat (length (picoquic_frames_varint_encode committed ++ rest))
             <= nb_bytes <= space)
  /\ (padding_required (ctx w) <> UINT64_MAX ->
      (forall ret w',
         wt_baton_provide_data space sid w = Some (ret, w') ->
         padding_required (ctx w') = padding_required (ctx w))
      /\ (0 <= space <= UINT64_MAX ->
          0 <= padding_sent (ctx w) <= padding_required (ctx w) ->
          padding_required (ctx w) <= UINT64_MAX ->
          exists ret w', wt_baton_provide_data space sid w = Some (ret, w'))).
Proof.
  intros is_done committed prefix. split.
  - intros Hfirst Hsent Hsending Hstream Hspace.
    rewrite (provide_data_armed_stream space sid w Hsending Hstream).
    set (w1 := upd_ctx (set_sending_stream_id sid) w).
    assert (Hchoice : choose_padding space (ctx w1)
                      = (set_padding_required committed (ctx w1), prefix)).
    { rewrite choose_padding_first by exact Hfirst.
      change (baton_state (ctx w1)) with (baton_state (ctx w)). fold is_done.
      subst committed prefix. destruct is_done; [|destruct (space =? 1)];
        reflexivity. }
    assert (Hvalues : (committed = 0 /\ prefix = 1)
                      \/ (committed = 0x3F /\ prefix = 1)
                      \/ (committed = 0x3FFF /\ prefix = 2 /\ space <> 1)).
    { subst committed prefix. destruct is_done; [|destruct (space =? 1) eqn:H1];
        [left|right; left|right; right]; repeat split. lia. }
    destruct (provide_frame_fits space sid w1) as (ret & w' & Hsome).
    { rewrite Hchoice. exact Hsending. }
    { rewrite Hchoice. simpl.
      change (padding_sent (ctx w)) with (padding_sent (ctx w)).
      rewrite Hsent, Z.sub_0_r. unfold UINT64_MAX in Hspace. unfold u64.
      assert (Hsmall : 0 <= committed <= 16383 /\ 1 <= prefix <= space) by lia.
      rewrite (Z.mod_small committed) by lia.
      rewrite (Z.mod_small (prefix + committed + 1)) by lia.
      case_if; [|lia]. rewrite (Z.mod_small (space - prefix)) by lia. lia. }
    exists ret, w'. split; [exact Hsome|].
    destruct (provide_frame_padding space sid w1 ret w' Hsome)
      as (Hreq & nb_bytes & is_fin & act & rest & Htrace & Hnb & Hrest).
    rewrite Hchoice in Hreq, Htrace, Hrest. simpl in Hreq, Htrace, Hrest.
    split; [exact Hreq|].
    split; [rewrite choose_padding_first by exact Hfirst; fold is_done;
            subst prefix; destruct is_done; [|destruct (space =? 1)];
            reflexivity|].
    assert (Hlen : Z.of_nat (length (picoquic_frames_varint_encode committed))
                   = prefix)
      by (destruct Hvalues as [[-> ->] | [[-> ->] | (-> & -> & _)]];
          reflexivity).
    split; [exact Hlen|].
    exists nb_bytes, is_fin, act, rest.
    replace (0 <? prefix) with true in Htrace
      by (destruct Hvalues as [[_ ->] | [[_ ->] | (_ & -> & _)]]; reflexivity).
    split; [exact Htrace|]. rewrite length_app. lia.
  - intros Hlater.
    destruct (provide_data_entry space sid w)
      as (ret1 & w1 & Hentry & Hreq1 & Hsent1).
    rewrite Hentry. split.
    + intros ret w'.
      destruct ((ret1 =? 0) && is_sending (ctx w1)).
      * intros Hsome.
        destruct (provide_frame_padding space sid w1 ret w' Hsome) as (Hreq & _).
        rewrite Hreq, choose_padding_later by (rewrite Hreq1; exact Hlater).
        exact Hreq1.
      * intros [= <- <-]. exact Hreq1.
    + intros Hspace Hsent Hreq.
      destruct ((ret1 =? 0) && is_sending (ctx w1)) eqn:Hsending;
        [|do 2 eexists; reflexivity].
      apply andb_prop in Hsending as [_ Hsending].
      apply provide_frame_fits;
        rewrite choose_padding_later by (rewrite Hreq1; exact Hlater).
      * exact Hsending.
      * simpl. rewrite Hreq1, Hsent1. unfold UINT64_MAX in *. unfold u64.
        rewrite (Z.mod_small (padding_required (ctx w) - padding_sent (ctx w)))
          by lia.
        rewrite (Z.mod_small (0 + _ + 1)) by lia.
        case_if; [|lia]. rewrite Z.sub_0_r, Z.mod_small by lia. lia.
Qed.

(** The three choices on sample sessions that have armed stream 4, and a
    later call that is offered one byte after a first call that was
    offered 100. *)
Lemma provide_data_padding_witness :
  (exists ret w',
     wt_baton_provide_data 100 4 (armed_server 127) = Some (ret, w')
     /\ padding_required (ctx w') = 0x3FFF)
  /\ (exists ret w',
        wt_baton_provide_data 1 4 (armed_server 127) = Some (ret, w')
        /\ padding_required (ctx w') = 0x3F)
  /\ (exists ret w',
        wt_baton_provide_data 100 4 (armed_server 4) = Some (ret, w')
        /\ padding_required (ctx w') = 0)
  /\ (exists ret w',
        wt_baton_provide_data 1 4 (provided 100 4 (armed_server 127))
        = Some (ret, w')
        /\ padding_required (ctx w') = 0x3FFF).
Proof.
  split; [|split; [|split]].
  - destruct (provide_data_padding 100 4 (armed_server 127)) as [Hfirst _].
    destruct Hfirst as (ret & w' & Hsome & Hreq & _);
      [reflexivity|reflexivity|reflexivity|right; reflexivity
      |unfold UINT64_MAX; lia|].
    exists ret, w'. split; [exact Hsome|exact Hreq].
  - destruct (provide_data_padding 1 4 (armed_server 127)) as [Hfirst _].
    destruct Hfirst as (ret & w' & Hsome & Hreq & _);
      [reflexivity|reflexivity|reflexivity|right; reflexivity
      |unfold UINT64_MAX; lia|].
    exists ret, w'. split; [exact Hsome|exact Hreq].
  - destruct (provide_data_padding 100 4 (armed_server 4)) as [Hfirst _].
    destruct Hfirst as (ret & w' & Hsome & Hreq & _);
      [reflexivity|reflexivity|reflexivity|right; reflexivity
      |unfold UINT64_MAX; lia|].
    exists ret, w'. split; [exact Hsome|exact Hreq].
  - destruct (provide_data_padding 1 4 (provided 100 4 (armed_server 127)))
      as [_ Hlater].
    destruct Hlater as [Hkept Hsome]; [vm_compute; discriminate|].
    destruct Hsome as (ret & w' & Hsome);
      [unfold UINT64_MAX; lia
      |vm_compute; split; discriminate|vm_compute; discriminate|].
    exists ret, w'. split; [exact Hsome|].
    rewrite (Hkept ret w' Hsome). vm_compute. reflexivity.
Defined.

(** The call has no result when what it writes goes past the buffer. *)
Lemma provide_frame_overrun space sid w :
  let c := fst (choose_padding space (ctx w)) in
  let padding_length_length := snd (choose_padding space (ctx w)) in
  let pad := u64 (padding_required c - padding_sent c) in
  is_sending c = true ->
  (if space <? u64 (padding_length_length + pad + 1) then
     space < padding_length_length + u64 (space - padding_length_length)
   else u64 (padding_length_length + pad + 1) < padding_length_length + pad + 1) ->
  provide_frame space sid w = None.
Proof.
  unfold provide_frame.
  destruct (choose_padding space (ctx w)) as [c pll]. simpl.
  intros Hsending Hover.
  destruct (space <? _); simpl.
  - rewrite Hsending. rewrite (proj2 (Z.ltb_lt _ _)) by lia. reflexivity.
  - rewrite (proj2 (Z.ltb_lt _ _)) by lia. reflexivity.
Qed.

(** X12.  A first call for a frame that is offered no byte has no result:
    the prefix alone is more than the buffer holds, and the C code writes
    it, and the padding after it, past the buffer. *)
Lemma provide_data_no_space sid w :
  padding_required (ctx w) = UINT64_MAX ->
  is_sending (ctx w) = true ->
  sending_stream_id (ctx w) = UINT64_MAX \/ sending_stream_id (ctx w) = sid ->
  wt_baton_provide_data 0 sid w = None.
Proof.
  intros Hfirst Hsending Hstream.
  rewrite (provide_data_armed_stream 0 sid w Hsending Hstream).
  set (w1 := upd_ctx (set_sending_stream_id sid) w).
  assert (Hchoice : exists committed prefix,
             choose_padding 0 (ctx w1)
             = (set_padding_required committed (ctx w1), prefix)
             /\ 1 <= prefix <= 2).
  { rewrite choose_padding_first by exact Hfirst.
    destruct (state_eqb _ _); do 2 eexists; (split; [reflexivity|lia]). }
  destruct Hchoice as (committed & prefix & Hchoice & Hprefix).
  assert (Hpad : forall x, 0 <= u64 x < 18446744073709551616)
    by (intros x; unfold u64; apply Z.mod_pos_bound; lia).
  apply provide_frame_overrun; rewrite Hchoice; [exact Hsending|].
  cbv beta iota zeta. unfold fst, snd.
  set (pad := u64 _).
  pose proof (Hpad (prefix + pad + 1)) as Huseful.
  case_if.
  - unfold u64. rewrite <- (Z.mod_add (0 - prefix) 1) by lia.
    rewrite Z.mod_small by lia. lia.
  - subst pad.
    match goal with |- context [u64 (?r - ?s)] => pose proof (Hpad (r - s)) end.
    lia.
Qed.

(** The armed server, offered no byte. *)
Lemma provide_data_no_space_witness :
  wt_baton_provide_data 0 4 (armed_server 127) = None.
Proof.
  apply (provide_data_no_space 4 (armed_server 127));
    [reflexivity|reflexivity|right; reflexivity].
Defined.

(** ** Datagrams *)

Lemma receive_datagram_cases bytes stream_ctx w :
  wt_baton_receive_datagram bytes stream_ctx w
  = (0, match datagram_baton bytes with
        | Some b =>
            if datagram_expected stream_ctx w then
              upd_ctx (datagram_recorded b (Z.of_nat (length bytes))) w
            else w
        | None => w
        end).
Proof.
  unfold wt_baton_receive_datagram, datagram_baton, datagram_expected.
  destruct stream_ctx as [sid|];
    [destruct (sid =? control_stream_id (ctx w))|]; simpl;
    (destruct (picoquic_frames_varint_decode bytes) as [[b1 pl]|];
     [|reflexivity]);
    (destruct (picoquic_frames_fixed_skip b1 pl) as [b2|]; [|reflexivity]);
    destruct (picoquic_frames_uint8_decode b2) as [[[|x b3] nb]|]; reflexivity.
Qed.

(** A datagram made of a one-byte padding length, that many bytes of
    padding and a baton is well formed, and carries that baton. *)
Lemma datagram_baton_short (n b : Z) (padding : list Z) :
  0 <= n < 64 ->
  Z.of_nat (length padding) = n ->
  datagram_baton (n :: padding ++ [b]) = Some b.
Proof.
  intros Hn Hlen. unfold datagram_baton.
  rewrite (varint_decode_short n _ Hn).
  unfold picoquic_frames_fixed_skip.
  rewrite length_app. simpl length.
  rewrite (proj2 (Z.leb_le n _)) by lia.
  replace (Z.to_nat n) with (length padding) by lia.
  rewrite drop_app_length. reflexivity.
Qed.

(** C9.  A datagram, whatever its bytes, leaves the streams, the
    connection and the trace as they are, returns 0, and leaves every
    field of the context as it is but for the baton, the count and the
    byte count of the datagrams received: the state, the turns, the batons
    of the streams and the scratch fields of the decoder are unchanged.  A
    datagram whose bytes do not decode leaves the whole world as it is; one
    that decodes, on the control stream or on no stream, records its baton
    and counts itself and its bytes. *)
Theorem receive_datagram_frame (bytes : list Z) (stream_ctx : option Z)
    (w : world) :
  let r := wt_baton_receive_datagram bytes stream_ctx w in
  let c := ctx w in
  let c' := ctx (snd r) in
  fst r = 0
  /\ streams (snd r) = streams w /\ cnx (snd r) = cnx w
  /\ trace (snd r) = trace w
  /\ (exists b n k,
        c' = set_nb_datagram_bytes_received k
               (set_nb_datagrams_received n (set_baton_datagram_received b c)))
  /\ (baton_state c' = baton_state c /\ nb_turns c' = nb_turns c
      /\ baton c' = baton c /\ baton_received c' = baton_received c
      /\ first_baton c' = first_baton c
      /\ nb_turns_required c' = nb_turns_required c)
  /\ (is_receiving c' = is_receiving c
      /\ receiving_stream_id c' = receiving_stream_id c
      /\ padding_expected c' = padding_expected c
      /\ padding_received c' = padding_received c
      /\ receive_buffer c' = receive_buffer c
      /\ nb_receive_buffer_bytes c' = nb_receive_buffer_bytes c)
  /\ (datagram_baton bytes = None -> snd r = w)
  /\ (forall b,
        datagram_baton bytes = Some b ->
        datagram_expected stream_ctx w = true ->
        c' = datagram_recorded b (Z.of_nat (length bytes)) c).
Proof.
  intros r c c'. subst r c c'. rewrite receive_datagram_cases. simpl.
  assert (Hsame : forall c0 : wt_baton_ctx_t,
    c0 = set_nb_datagram_bytes_received (nb_datagram_bytes_received c0)
           (set_nb_datagrams_received (nb_datagrams_received c0)
              (set_baton_datagram_received (baton_datagram_received c0) c0)))
    by (intros c0; destruct c0; reflexivity).
  destruct (datagram_baton bytes) as [b|];
    [destruct (datagram_expected stream_ctx w)|]; simpl.
  - repeat split; try discriminate.
    + do 3 eexists. reflexivity.
    + intros b' [= <-] _. reflexivity.
  - repeat split; try discriminate.
    do 3 eexists. apply Hsame.
  - repeat split; try discriminate.
    do 3 eexists. apply Hsame.
Qed.

Lemma receive_datagram_frame_witness :
  let w := sample_server 41 3 127 in
  snd (wt_baton_receive_datagram [0x02; 0x00] (Some 0) w) = w
  /\ ctx (snd (wt_baton_receive_datagram [0x02; 0x00; 0x00; 0x2A] (Some 0) w))
     = datagram_recorded 0x2A 4 (ctx w).
Proof.
  destruct (receive_datagram_frame [0x02; 0x00] (Some 0) (sample_server 41 3 127))
    as (_ & _ & _ & _ & _ & _ & _ & Hbad & _).
  destruct (receive_datagram_frame [0x02; 0x00; 0x00; 0x2A] (Some 0)
              (sample_server 41 3 127))
    as (_ & _ & _ & _ & _ & _ & _ & _ & Hgood).
  split.
  - apply Hbad. reflexivity.
  - apply (Hgood 0x2A); reflexivity.
Defined.

(** ** Initialising a context *)

(** C10 (as amended).  The context is zeroed first.  Without an h3zero
    context the call returns -1 and leaves the context all zero: the turns
    required are 0 and the control stream identifier is 0.  With one, the
    turns required are those of the application context, 127 when there is
    none, and the control stream identifier is that of the stream context,
    the sentinel when there is none; every other field is zero.  The call
    then returns what registering the control stream returns, 0 when there
    is no stream context: it returns nonzero exactly when the h3zero context
    is missing or the registration fails. *)
Theorem ctx_init_result (h3 : bool) (app_ctx : option wt_baton_app_ctx_t)
    (stream_ctx : option Z) (w : world) :
  let r := wt_baton_ctx_init h3 app_ctx stream_ctx w in
  (h3 = false -> fst r = -1 /\ ctx (snd r) = zero_ctx)
  /\ (h3 = true ->
      ctx (snd r)
      = set_control_stream_id
          (match stream_ctx with Some sid => sid | None => UINT64_MAX end)
          (set_nb_turns_required (turns_configured app_ctx)
             (set_h3_ctx true zero_ctx))
      /\ fst r
         = match stream_ctx with
           | Some sid => declare_prefix_ret (cnx w) sid
           | None => 0
           end)
  /\ (fst r <> 0
      <-> h3 = false
          \/ exists sid,
               stream_ctx = Some sid /\ declare_prefix_ret (cnx w) sid <> 0).
Proof.
  unfold wt_baton_ctx_init. destruct h3; simpl.
  - split; [discriminate|]. split.
    + intros _. destruct stream_ctx; split; reflexivity.
    + destruct stream_ctx as [sid|]; simpl; split.
      * intros H. right. exists sid. split; [reflexivity|exact H].
      * intros [H|(sid' & [= <-] & H)]; [discriminate|exact H].
      * intros H. exfalso. apply H. reflexivity.
      * intros [H|(sid' & H & _)]; discriminate.
  - split; [intros _; split; reflexivity|].
    split; [discriminate|].
    split; [intros _; left; reflexivity|discriminate].
Qed.

Lemma ctx_init_result_witness :
  let w := sample_server 41 3 127 in
  fst (wt_baton_ctx_init false None None w) = -1
  /\ ctx (snd (wt_baton_ctx_init false None None w)) = zero_ctx
  /\ nb_turns_required
       (ctx (snd (wt_baton_ctx_init true (Some (mk_app_ctx 9)) None w))) = 9
  /\ control_stream_id
       (ctx (snd (wt_baton_ctx_init true (Some (mk_app_ctx 9)) None w)))
     = UINT64_MAX.
Proof.
  destruct (ctx_init_result false None None (sample_server 41 3 127))
    as (Hnull & _).
  destruct (ctx_init_result true (Some (mk_app_ctx 9)) None
              (sample_server 41 3 127)) as (_ & Hset & _).
  destruct (Hnull eq_refl) as [Hret Hzero].
  destruct (Hset eq_refl) as [Hctx _].
  split; [exact Hret|]. split; [exact Hzero|].
  rewrite Hctx. split; reflexivity.
Defined.

(** C10 as stated fails.  Without an h3zero context and without an
    application context the turns required are 0, not 127, and the control
    stream identifier is 0, not the sentinel.  With an h3zero context that
    refuses the registration of the control stream the call returns -1. *)
Lemma ctx_init_stated_fails :
  let w := sample_server 41 3 127 in
  let w_refusing := mk_world (ctx w) (streams w) refusing_cnx [] in
  (nb_turns_required (ctx (snd (wt_baton_ctx_init false None None w))) = 0
   /\ control_stream_id (ctx (snd (wt_baton_ctx_init false None None w))) = 0
   /\ ~ ctx_init_stated false None None w)
  /\ (fst (wt_baton_ctx_init true None (Some 0) w_refusing) = -1
      /\ ~ ctx_init_stated true None (Some 0) w_refusing).
Proof.
  split; (split; [reflexivity|]).
  - split; [reflexivity|]. intros (Hturns & _). discriminate Hturns.
  - intros (_ & _ & [Hfail _]).
    assert (Hh3 : true = false) by (apply Hfail; discriminate).
    discriminate Hh3.
Qed.

(** ** The end of a stream before the baton *)

Lemma stream_data_fin_receiving sid w :
  is_receiving (ctx w) = true ->
  let closing :=
    wt_baton_close_session WT_BATON_SESSION_ERR_BRUH
      (Some "Fin stream before baton"%string) w in
  fst (stream_data_fin sid w) = fst closing
  /\ ctx (snd (stream_data_fin sid w)) = ctx (snd closing)
  /\ trace (snd (stream_data_fin sid w)) = trace (snd closing).
Proof.
  intros Hrecv. unfold stream_data_fin. rewrite Hrecv.
  destruct (wt_baton_close_session _ _ w) as [ret w1]. simpl.
  destruct (streams w1 !! sid) as [sc|]; [|repeat split].
  destruct (is_fin_sent sc && _); [|repeat split].
  destruct (callback_context (cnx w1)); repeat split.
Qed.

(** C8 (as amended).  On a stream that carries batons, for a session that
    is ready or has sent, take a range that is not empty and carries the
    end of the stream.  When the decoder is still receiving once the bytes
    of the range are processed, the session is closed with the
    malformed-message code and the reason "Fin stream before baton": the
    message is sent, and the session becomes closed, when the control
    stream is still open at that point; when the bytes of the range have
    already closed the session, or it was closed before, this close does
    nothing. *)
Theorem fin_before_baton (bytes : list Z) (sid : Z) (w : world) :
  relay_stream sid w ->
  bytes <> [] ->
  let w1 := snd (stream_data_bytes bytes sid w) in
  let r := wt_baton_stream_data bytes true sid w in
  is_receiving (ctx w1) = true ->
  r = stream_data_fin sid w1
  /\ is_receiving (ctx (snd r)) = true
  /\ (control_stream_open w1 = true ->
      fst r = send_close_ret (cnx w1) WT_BATON_SESSION_ERR_BRUH
      /\ trace (snd r)
         = trace w1
           ++ [Call_send_close_session_message (control_stream_id (ctx w1))
                 WT_BATON_SESSION_ERR_BRUH
                 (Some "Fin stream before baton"%string)]
      /\ baton_state (ctx (snd r)) = wt_baton_state_closed)
  /\ (control_stream_open w1 = false ->
      fst r = 0 /\ trace (snd r) = trace w1 /\ ctx (snd r) = ctx w1).
Proof.
  intros Hrelay Hne w1 r Hrecv.
  assert (Hr : r = stream_data_fin sid w1).
  { subst r w1. rewrite (stream_data_relay_stream _ _ _ _ Hrelay).
    unfold stream_data_baton.
    destruct bytes as [|b bytes]; [congruence|].
    change (0 <? Z.of_nat (length (b :: bytes))) with true. cbv iota.
    destruct (stream_data_bytes (b :: bytes) sid w) as [ret w2]. reflexivity. }
  destruct (stream_data_fin_receiving sid w1 Hrecv) as (Hret & Hctx & Htrace).
  rewrite Hr, Hret, Hctx, Htrace. split; [reflexivity|].
  destruct (control_stream_open w1) eqn:Hopen.
  - rewrite (close_session_open _ _ _ Hopen). simpl.
    repeat split; try discriminate. exact Hrecv.
  - rewrite (close_session_finished _ _ _ Hopen). simpl.
    repeat split; try discriminate. exact Hrecv.
Qed.

Lemma fin_before_baton_witness :
  let w := sample_server 41 3 127 in
  trace (snd (wt_baton_stream_data [0x02; 0x00] true 2 w))
  = [Call_send_close_session_message 0 WT_BATON_SESSION_ERR_BRUH
       (Some "Fin stream before baton"%string)]
  /\ baton_state (ctx (snd (wt_baton_stream_data [0x02; 0x00] true 2 w)))
     = wt_baton_state_closed.
Proof.
  destruct (fin_before_baton [0x02; 0x00] 2 (sample_server 41 3 127))
    as (_ & _ & Hopen & _).
  - split; [|split].
    + exists (mk_stream_ctx 2 0 false false true). split; [reflexivity|discriminate].
    + discriminate.
    + right. reflexivity.
  - discriminate.
  - reflexivity.
  - destruct Hopen as (_ & Htrace & Hstate); [reflexivity|].
    split; [exact Htrace|exact Hstate].
Defined.

(** C8 as stated fails.  The end of the control stream, which the peer
    sends to close the session, comes while the decoder is receiving: the
    session becomes closed and no close message is sent.  On the relay
    stream 2, the range [0; 0x2A; 7] with the end of the stream has a byte
    after the baton: the decoder is still receiving, and the close message
    that is sent carries the reason "Too much data on stream!". *)
Lemma fin_before_baton_stated_fails :
  let w := sample_server 41 3 127 in
  (is_receiving (ctx (snd (wt_baton_stream_data [0] true 0 w))) = true
   /\ baton_state (ctx (snd (wt_baton_stream_data [0] true 0 w)))
      = wt_baton_state_closed
   /\ close_messages (trace (snd (wt_baton_stream_data [0] true 0 w))) = []
   /\ ~ fin_before_baton_stated [0] 0 w)
  /\ (is_receiving (ctx (snd (wt_baton_stream_data [0; 0x2A; 7] true 2 w))) = true
      /\ close_messages (trace (snd (wt_baton_stream_data [0; 0x2A; 7] true 2 w)))
         = [(WT_BATON_SESSION_ERR_BRUH, Some "Too much data on stream!"%string)]
      /\ ~ fin_before_baton_stated [0; 0x2A; 7] 2 w).
Proof.
  split.
  - repeat split; try (vm_compute; reflexivity).
    intros H. destruct H as (sent & Hsent & Hin); [vm_compute; reflexivity|].
    vm_compute in Hsent. subst sent. destruct Hin.
  - repeat split; try (vm_compute; reflexivity).
    intros H. destruct H as (sent & Hsent & Hin); [vm_compute; reflexivity|].
    vm_compute in Hsent. subst sent.
    destruct Hin as [Hin|[]]. discriminate Hin.
Qed.

(** An empty range does nothing on a stream that carries batons, with or
    without the end of the stream: the end of the stream is looked at
    inside the test on the length. *)
Remark stream_data_empty is_fin sid w :
  relay_stream sid w -> wt_baton_stream_data [] is_fin sid w = (0, w).
Proof.
  intros Hrelay. rewrite (stream_data_relay_stream _ _ _ _ Hrelay).
  reflexivity.
Qed.

(** * More of the program *)

(** ** The decoder on any frame *)

Lemma with_decoder_eta c :
  with_decoder (receiving_stream_id c) (nb_baton_bytes_received c)
    (receive_buffer c) (nb_receive_buffer_bytes c) (padding_expected c)
    (padding_received c) (baton_received c) (is_receiving c) c = c.
Proof. destruct c. reflexivity. Qed.

Lemma read_padding_length_cons b rest c p :
  read_padding_length (b :: rest) c p
  = if padding_expected c =? UINT64_MAX then
      if (0 <? nb_receive_buffer_bytes c)
         && (VARINT_LEN_T (receive_buffer c) <=? nb_receive_buffer_bytes c)
      then
        (match picoquic_frames_varint_decode
                 (take (Z.to_nat (VARINT_LEN_T (receive_buffer c)))
                    (receive_buffer c))
         with
         | Some (_, v) => set_padding_expected v c
         | None => c
         end, p)
      else
        read_padding_length rest
          (set_nb_receive_buffer_bytes (nb_receive_buffer_bytes c + 1)
             (set_receive_buffer
                (array_store (nb_receive_buffer_bytes c) b (receive_buffer c))
                c))
          (p + 1)
    else (c, p).
Proof. reflexivity. Qed.

Lemma array_store_stored (bs buf : list Z) (b : Z) :
  array_store (Z.of_nat (length bs)) b (stored bs buf) = stored (bs ++ [b]) buf.
Proof.
  unfold array_store, stored.
  rewrite Nat2Z.id, !length_app. simpl length.
  rewrite <- drop_drop.
  destruct (drop (length bs) buf) as [|x tl].
  - rewrite (proj2 (Z.ltb_ge _ _)) by (simpl; lia).
    simpl. rewrite !app_nil_r. reflexivity.
  - rewrite (proj2 (Z.ltb_lt _ _)) by (simpl; lia).
    rewrite insert_app_r_alt by lia.
    rewrite Nat.sub_diag. simpl. rewrite <- app_assoc. reflexivity.
Qed.

Lemma long_first_byte_ok h : 0 <= h < 64 -> long_first_byte h = true.
Proof. apply (below_check 64). vm_compute. reflexivity. Qed.

Lemma varint_decode_long h b1 tl :
  0 <= h < 64 ->
  picoquic_frames_varint_decode (h + 64 :: b1 :: tl) = Some (tl, h * 256 + b1).
Proof.
  intros Hh. pose proof (long_first_byte_ok h Hh) as Hok.
  unfold long_first_byte in Hok.
  apply andb_prop in Hok as [Hok H63%Z.eqb_eq].
  apply andb_prop in Hok as [_ Hlen%Z.eqb_eq].
  unfold picoquic_frames_varint_decode, VARINT_LEN_T. simpl nth.
  rewrite Hlen, H63. reflexivity.
Qed.

Lemma varint_encode_short P :
  0 <= P < 64 -> picoquic_frames_varint_encode P = [P].
Proof.
  intros HP. unfold picoquic_frames_varint_encode.
  rewrite (proj2 (Z.ltb_lt P 16384)) by lia.
  rewrite (proj2 (Z.ltb_lt P 64)) by lia.
  unfold u8. rewrite Z.mod_small by lia. reflexivity.
Qed.

Lemma varint_encode_long P :
  64 <= P < 16384 ->
  picoquic_frames_varint_encode P = [P / 256 + 64; P mod 256].
Proof.
  intros HP. unfold picoquic_frames_varint_encode.
  rewrite (proj2 (Z.ltb_lt P 16384)) by lia.
  rewrite (proj2 (Z.ltb_ge P 64)) by lia.
  rewrite Z.shiftr_div_pow2 by lia. change (2 ^ 8) with 256.
  assert (Hh : 0 <= P / 256 < 64).
  { split; [apply Z.div_pos; lia|apply Z.div_lt_upper_bound; lia]. }
  pose proof (long_first_byte_ok _ Hh) as Hok.
  unfold long_first_byte in Hok.
  apply andb_prop in Hok as [Hok _]. apply andb_prop in Hok as [Hok _].
  apply andb_prop in Hok as [Hb0%Z.eqb_eq _].
  rewrite Hb0. reflexivity.
Qed.

Lemma varint_length_prefix P :
  0 <= P < 16384 -> length_prefix (picoquic_frames_varint_encode P) P.
Proof.
  intros HP. destruct (Z.lt_ge_cases P 64) as [Hs|Hl].
  - rewrite varint_encode_short by lia. repeat split.
    + simpl. lia.
    + intros tl. apply VARINT_LEN_T_short. lia.
    + intros tl. apply varint_decode_short. lia.
  - rewrite varint_encode_long by lia.
    assert (Hh : 0 <= P / 256 < 64).
    { split; [apply Z.div_pos; lia|apply Z.div_lt_upper_bound; lia]. }
    repeat split.
    + simpl. lia.
    + intros tl. pose proof (long_first_byte_ok _ Hh) as Hok.
      unfold long_first_byte in Hok.
      apply andb_prop in Hok as [Hok _]. apply andb_prop in Hok as [_ Hlen%Z.eqb_eq].
      unfold VARINT_LEN_T. simpl nth. exact Hlen.
    + intros tl. simpl app. rewrite varint_decode_long by exact Hh.
      f_equal. f_equal. pose proof (Z.div_mod P 256). lia.
Qed.

Lemma VARINT_LEN_T_head a l1 l2 : VARINT_LEN_T (a :: l1) = VARINT_LEN_T (a :: l2).
Proof. reflexivity. Qed.

Section Prefix.
Variables (e : list Z) (P : Z).
Hypothesis Hpre : length_prefix e P.

Lemma VARINT_LEN_T_stored j buf :
  (0 < j)%nat -> VARINT_LEN_T (stored (take j e) buf) = Z.of_nat (length e).
Proof using Hpre.
  intros Hj. destruct Hpre as (Hlen & Hsize & _).
  rewrite <- (Hsize []).
  destruct e as [|a e']; [simpl in Hlen; lia|].
  destruct j as [|j']; [lia|]. reflexivity.
Qed.

Lemma read_padding_length_store bs :
  forall (j : nat) rest p rid nbytes buf rcv bat recv c0,
  (j + length bs <= length e)%nat ->
  take (length bs) (drop j e) = bs ->
  read_padding_length (bs ++ rest)
    (with_decoder rid nbytes (stored (take j e) buf) (Z.of_nat j) UINT64_MAX
       rcv bat recv c0) p
  = read_padding_length rest
      (with_decoder rid nbytes (stored (take (j + length bs) e) buf)
         (Z.of_nat (j + length bs)) UINT64_MAX rcv bat recv c0)
      (p + Z.of_nat (length bs)).
Proof using Hpre.
  induction bs as [|x bs IH]; intros j rest p rid nbytes buf rcv bat recv c0 Hfit Hbs.
  - simpl. rewrite Nat.add_0_r, Z.add_0_r. reflexivity.
  - simpl app. rewrite read_padding_length_cons.
    change (padding_expected (with_decoder _ _ _ _ _ _ _ _ _)) with UINT64_MAX.
    change (UINT64_MAX =? UINT64_MAX) with true. cbv iota.
    change (nb_receive_buffer_bytes
              (with_decoder rid nbytes (stored (take j e) buf) (Z.of_nat j)
                 UINT64_MAX rcv bat recv c0)) with (Z.of_nat j).
    change (receive_buffer
              (with_decoder rid nbytes (stored (take j e) buf) (Z.of_nat j)
                 UINT64_MAX rcv bat recv c0)) with (stored (take j e) buf).
    simpl length in Hfit, Hbs.
    assert (Htest : (0 <? Z.of_nat j)
                    && (VARINT_LEN_T (stored (take j e) buf) <=? Z.of_nat j) = false).
    { destruct j as [|j']; [reflexivity|].
      rewrite VARINT_LEN_T_stored by lia.
      rewrite (proj2 (Z.leb_gt _ _)) by lia. apply andb_false_r. }
    rewrite Htest.
    assert (Hx : take (S j) e = take j e ++ [x]).
    { destruct (drop j e) as [|y tl] eqn:Hd; [discriminate|].
      simpl in Hbs. injection Hbs as -> _.
      rewrite <- (take_drop j e) at 1. rewrite Hd.
      rewrite take_app_ge by (rewrite length_take; lia).
      rewrite length_take.
      replace (S j - j `min` length e)%nat with 1%nat by lia.
      reflexivity. }
    assert (Hrest : take (length bs) (drop (S j) e) = bs).
    { destruct (drop j e) as [|y tl] eqn:Hd; [discriminate|].
      simpl in Hbs. injection Hbs as _ Htl.
      change (S j) with (1 + j)%nat. rewrite Nat.add_comm, <- drop_drop, Hd. exact Htl. }
    assert (Hstore :
      array_store (Z.of_nat j) x (stored (take j e) buf) = stored (take (S j) e) buf).
    { rewrite Hx, <- array_store_stored. rewrite length_take.
      replace (j `min` length e)%nat with j by lia. reflexivity. }
    rewrite Hstore.
    change (set_nb_receive_buffer_bytes ?v (set_receive_buffer ?b (with_decoder ?a1 ?a2 _ _ ?a5 ?a6 ?a7 ?a8 ?c)))
      with (with_decoder a1 a2 b v a5 a6 a7 a8 c).
    replace (Z.of_nat j + 1) with (Z.of_nat (S j)) by lia.
    rewrite (IH (S j)) by (assumption || lia).
    simpl length.
    replace (S j + length bs)%nat with (j + S (length bs))%nat by lia.
    replace (p + 1 + Z.of_nat (length bs)) with (p + Z.of_nat (S (length bs))) by lia.
    reflexivity.
Qed.

Lemma read_padding_length_decode x more p rid nbytes buf rcv bat recv c0 :
  read_padding_length (x :: more)
    (with_decoder rid nbytes (stored e buf) (Z.of_nat (length e)) UINT64_MAX
       rcv bat recv c0) p
  = (with_decoder rid nbytes (stored e buf) (Z.of_nat (length e)) P
       rcv bat recv c0, p).
Proof using Hpre.
  rewrite read_padding_length_cons.
  change (padding_expected (with_decoder _ _ _ _ _ _ _ _ _)) with UINT64_MAX.
  change (UINT64_MAX =? UINT64_MAX) with true. cbv iota.
  change (nb_receive_buffer_bytes (with_decoder _ _ _ ?n _ _ _ _ _)) with n.
  change (receive_buffer (with_decoder _ _ ?b _ _ _ _ _ _)) with b.
  destruct Hpre as (Hlen & Hsize & Hdec).
  unfold stored at 1 2. rewrite Hsize.
  rewrite (proj2 (Z.ltb_lt 0 _)) by lia. rewrite Z.leb_refl. simpl andb. cbv iota.
  rewrite Nat2Z.id. unfold stored. rewrite take_app_length.
  rewrite <- (app_nil_r e) at 1. rewrite Hdec. reflexivity.
Qed.

End Prefix.

Lemma stream_data_bytes_stages bytes sid w :
  receiving_stream_id (ctx w) = UINT64_MAX \/ receiving_stream_id (ctx w) = sid ->
  stream_data_bytes bytes sid w
  = decode_tail bytes w
      (read_padding_length bytes (claimed sid (Z.of_nat (length bytes)) (ctx w)) 0).
Proof.
  intros Hrid. rewrite (stream_data_bytes_claimed bytes sid w Hrid).
  unfold decode_tail.
  destruct (read_padding_length _ _ _) as [c p]. reflexivity.
Qed.

Section Tail.
Variables (P : Z).
Hypothesis HP : 0 <= P < 4611686018427387904.

Lemma P_known : P <> UINT64_MAX.
Proof using HP. unfold UINT64_MAX. lia. Qed.

(** The rest of the range is padding. *)
Lemma decode_tail_padding bytes w p q rid nbytes buf nb r0 bat c0 :
  0 <= p -> 0 <= q -> 0 <= r0 -> r0 + q <= P ->
  Z.of_nat (length bytes) = p + q ->
  Z.of_nat (length bytes) < 9223372036854775808 ->
  decode_tail bytes w
    (with_decoder rid nbytes buf nb P r0 bat true c0, p)
  = (0, upd_ctx (fun _ => with_decoder rid nbytes buf nb P (r0 + q) bat true c0) w).
Proof using HP.
  intros Hp Hq Hr0 Hfit Hlen Hmax. unfold decode_tail.
  destruct (Z.eq_dec q 0) as [->|Hq0].
  - rewrite skip_padding_none by (right; left; lia).
    rewrite read_baton_idle by (right; right; lia).
    rewrite Z.add_0_r. reflexivity.
  - rewrite skip_padding_part; try apply P_known;
      change (padding_received (with_decoder _ _ _ _ _ ?r _ _ _)) with r;
      change (padding_expected (with_decoder _ _ _ _ ?x _ _ _ _)) with x; try lia.
    rewrite read_baton_idle by (right; right; lia).
    change (set_padding_received ?v (with_decoder ?a1 ?a2 ?a3 ?a4 ?a5 _ ?a7 ?a8 ?c))
      with (with_decoder a1 a2 a3 a4 a5 v a7 a8 c).
    replace (r0 + (Z.of_nat (length bytes) - p)) with (r0 + q) by lia.
    reflexivity.
Qed.

(** The rest of the range is the end of the padding and the baton. *)
Lemma decode_tail_baton bytes w p q rid nbytes buf nb r0 bat c0 :
  0 <= p -> 0 <= q -> 0 <= r0 -> r0 + q = P ->
  Z.of_nat (length bytes) = p + q + 1 ->
  Z.of_nat (length bytes) < 9223372036854775808 ->
  decode_tail bytes w
    (with_decoder rid nbytes buf nb P r0 bat true c0, p)
  = (0, upd_ctx (fun _ =>
          with_decoder rid nbytes buf nb P P
            (nth (Z.to_nat (p + q)) bytes 0) false c0) w).
Proof using HP.
  intros Hp Hq Hr0 Hfit Hlen Hmax. unfold decode_tail.
  destruct (Z.eq_dec q 0) as [->|Hq0].
  - rewrite skip_padding_none
      by (right; right;
          change (padding_received (with_decoder _ _ _ _ _ ?r _ _ _)) with r;
          change (padding_expected (with_decoder _ _ _ _ ?x _ _ _ _)) with x; lia).
    rewrite read_baton_last;
      change (ctx (upd_ctx (fun _ => ?c) _)) with c;
      change (padding_received (with_decoder _ _ _ _ _ ?r _ _ _)) with r;
      change (padding_expected (with_decoder _ _ _ _ ?x _ _ _ _)) with x;
      try apply P_known; try reflexivity; try lia.
    rewrite Z.add_0_r. replace r0 with P by lia. reflexivity.
  - rewrite skip_padding_end; try apply P_known;
      change (padding_received (with_decoder _ _ _ _ _ ?r _ _ _)) with r;
      change (padding_expected (with_decoder _ _ _ _ ?x _ _ _ _)) with x; try lia.
    rewrite read_baton_last;
      change (ctx (upd_ctx (fun _ => ?c) _)) with c;
      change (set_padding_received ?v (with_decoder ?a1 ?a2 ?a3 ?a4 ?a5 _ ?a7 ?a8 ?c))
        with (with_decoder a1 a2 a3 a4 a5 v a7 a8 c);
      change (padding_received (with_decoder _ _ _ _ _ ?r _ _ _)) with r;
      change (padding_expected (with_decoder _ _ _ _ ?x _ _ _ _)) with x;
      try apply P_known; try reflexivity; try lia.
    replace (p + (P - r0)) with (p + q) by lia. reflexivity.
Qed.

End Tail.

Section Slices.
Variables (e : list Z) (P : nat) (b : Z).
Local Abbreviation f := (e ++ replicate P 0 ++ [b]).

Lemma slice_length (j n : nat) :
  (j + n <= length e)%nat -> take n (drop j f) = take n (drop j e).
Proof.
  intros H. rewrite drop_app_le by lia.
  apply take_app_le. rewrite length_drop. lia.
Qed.

Lemma slice_length_padding (j n : nat) :
  (j <= length e)%nat -> (length e <= j + n <= length e + P)%nat ->
  take n (drop j f) = drop j e ++ replicate (j + n - length e) 0.
Proof.
  intros Hj H. rewrite drop_app_le by lia.
  rewrite take_app_ge by (rewrite length_drop; lia).
  rewrite length_drop. f_equal.
  rewrite take_app_le by (rewrite length_replicate; lia).
  rewrite take_replicate. f_equal. lia.
Qed.

Lemma slice_length_baton (j n : nat) :
  (j <= length e)%nat -> (j + n = length e + P + 1)%nat ->
  take n (drop j f) = drop j e ++ replicate P 0 ++ [b].
Proof.
  intros Hj H. rewrite drop_app_le by lia.
  apply take_ge. rewrite !length_app, length_drop, length_replicate. simpl. lia.
Qed.

Lemma slice_padding (k n : nat) :
  (length e <= k)%nat -> (k + n <= length e + P)%nat ->
  take n (drop k f) = replicate n 0.
Proof.
  intros Hk H. rewrite drop_app_ge by lia.
  rewrite drop_app_le by (rewrite length_replicate; lia).
  rewrite take_app_le by (rewrite length_drop, length_replicate; lia).
  rewrite drop_replicate, take_replicate. f_equal. lia.
Qed.

Lemma slice_padding_baton (k n : nat) :
  (length e <= k <= length e + P)%nat -> (k + n = length e + P + 1)%nat ->
  take n (drop k f) = replicate (length e + P - k) 0 ++ [b].
Proof.
  intros Hk H. rewrite drop_app_ge by lia.
  rewrite drop_app_le by (rewrite length_replicate; lia).
  rewrite take_ge
    by (rewrite length_app, length_drop, length_replicate; simpl; lia).
  rewrite drop_replicate. f_equal. f_equal. lia.
Qed.

End Slices.

Lemma nth_last_app (l : list Z) (b : Z) (i : nat) :
  i = length l -> nth i (l ++ [b]) 0 = b.
Proof. intros ->. rewrite app_nth2 by lia. rewrite Nat.sub_diag. reflexivity. Qed.

Section Frame.
Variables (e : list Z) (P : Z) (b sid : Z).
Hypothesis Hpre : length_prefix e P.
Hypothesis HP : 0 <= P < 4611686018427387904.
Hypothesis Hshort : (length e <= 8)%nat.

Lemma take_prefix_all : take (length e) e = e.
Proof using Type. apply take_ge. apply Nat.le_refl. Qed.

(** A range that ends inside the length prefix, or with it. *)
Lemma step_length (j n : nat) r rid nbytes buf bat c0 w :
  rid = UINT64_MAX \/ rid = sid ->
  (j + n <= length e)%nat -> r = take n (drop j e) ->
  ctx w = with_decoder rid nbytes (stored (take j e) buf) (Z.of_nat j)
            UINT64_MAX 0 bat true c0 ->
  stream_data_bytes r sid w
  = (0, upd_ctx (fun _ =>
          with_decoder sid (u64 (nbytes + Z.of_nat n))
            (stored (take (j + n) e) buf) (Z.of_nat (j + n)) UINT64_MAX 0 bat
            true c0) w).
Proof using Hpre HP Hshort.
  intros Hrid Hfit Hr Hctx.
  assert (Hn : length r = n) by (subst r; rewrite length_take, length_drop; lia).
  rewrite stream_data_bytes_stages by (rewrite Hctx; exact Hrid).
  rewrite Hctx, Hn.
  change (claimed sid ?m (with_decoder _ ?a2 ?a3 ?a4 ?a5 ?a6 ?a7 ?a8 ?c))
    with (with_decoder sid (u64 (a2 + m)) a3 a4 a5 a6 a7 a8 c).
  replace (read_padding_length r) with (read_padding_length (r ++ []))
    by (rewrite app_nil_r; reflexivity).
  rewrite (read_padding_length_store e P Hpre r j)
    by (rewrite Hn; first [lia | symmetry; exact Hr]).
  rewrite read_padding_length_nil, Hn.
  unfold decode_tail.
  rewrite skip_padding_none by (left; reflexivity).
  rewrite read_baton_idle by (left; reflexivity).
  reflexivity.
Qed.

(** A range that brings the end of the length prefix and some padding. *)
Lemma step_length_padding (j q : nat) r rid nbytes buf bat c0 w :
  rid = UINT64_MAX \/ rid = sid ->
  (j <= length e)%nat -> (1 <= q)%nat -> Z.of_nat q <= P ->
  r = drop j e ++ replicate q 0 ->
  ctx w = with_decoder rid nbytes (stored (take j e) buf) (Z.of_nat j)
            UINT64_MAX 0 bat true c0 ->
  stream_data_bytes r sid w
  = (0, upd_ctx (fun _ =>
          with_decoder sid (u64 (nbytes + Z.of_nat (length r)))
            (stored e buf) (Z.of_nat (length e)) P (Z.of_nat q) bat true c0) w).
Proof using Hpre HP Hshort.
  intros Hrid Hj Hq HqP Hr Hctx.
  assert (Hn : length r = (length e - j + q)%nat)
    by (subst r; rewrite length_app, length_drop, length_replicate; lia).
  rewrite stream_data_bytes_stages by (rewrite Hctx; exact Hrid).
  rewrite Hctx.
  change (claimed sid ?m (with_decoder _ ?a2 ?a3 ?a4 ?a5 ?a6 ?a7 ?a8 ?c))
    with (with_decoder sid (u64 (a2 + m)) a3 a4 a5 a6 a7 a8 c).
  rewrite Hr at 2.
  rewrite (read_padding_length_store e P Hpre (drop j e) j)
    by (rewrite length_drop; first [lia | apply take_ge; rewrite length_drop; lia]).
  rewrite length_drop.
  replace (j + (length e - j))%nat with (length e) by lia.
  rewrite take_prefix_all.
  destruct q as [|q']; [lia|]. simpl replicate.
  rewrite (read_padding_length_decode e P Hpre).
  rewrite (decode_tail_padding P HP r w _ (Z.of_nat (S q'))); try lia.
  reflexivity.
Qed.

(** A range that brings the end of the length prefix, the padding and the
    baton. *)
Lemma step_length_baton (j : nat) r rid nbytes buf bat c0 w :
  rid = UINT64_MAX \/ rid = sid ->
  (j <= length e)%nat ->
  r = drop j e ++ replicate (Z.to_nat P) 0 ++ [b] ->
  ctx w = with_decoder rid nbytes (stored (take j e) buf) (Z.of_nat j)
            UINT64_MAX 0 bat true c0 ->
  stream_data_bytes r sid w
  = (0, upd_ctx (fun _ =>
          with_decoder sid (u64 (nbytes + Z.of_nat (length r)))
            (stored e buf) (Z.of_nat (length e)) P P b false c0) w).
Proof using Hpre HP Hshort.
  intros Hrid Hj Hr Hctx.
  assert (Hn : length r = (length e - j + Z.to_nat P + 1)%nat)
    by (subst r; rewrite !length_app, length_drop, length_replicate; simpl; lia).
  rewrite stream_data_bytes_stages by (rewrite Hctx; exact Hrid).
  rewrite Hctx.
  change (claimed sid ?m (with_decoder _ ?a2 ?a3 ?a4 ?a5 ?a6 ?a7 ?a8 ?c))
    with (with_decoder sid (u64 (a2 + m)) a3 a4 a5 a6 a7 a8 c).
  rewrite Hr at 2.
  rewrite (read_padding_length_store e P Hpre (drop j e) j)
    by (rewrite length_drop; first [lia | apply take_ge; rewrite length_drop; lia]).
  rewrite length_drop.
  replace (j + (length e - j))%nat with (length e) by lia.
  rewrite take_prefix_all.
  destruct (replicate (Z.to_nat P) 0 ++ [b]) as [|x more] eqn:Hrest.
  { destruct (replicate (Z.to_nat P) 0); discriminate. }
  rewrite (read_padding_length_decode e P Hpre).
  rewrite (decode_tail_baton P HP r w _ P); try lia.
  replace (nth (Z.to_nat (0 + Z.of_nat (length e - j) + P)) r 0) with b;
    [reflexivity|].
  symmetry. rewrite Hr, <- Hrest, app_assoc. apply nth_last_app.
  rewrite length_app, length_drop, length_replicate. lia.
Qed.

(** A range of padding. *)
Lemma step_padding (q : nat) r nbytes buf r0 bat c0 w :
  0 <= r0 -> r0 + Z.of_nat q <= P -> r = replicate q 0 ->
  ctx w = with_decoder sid nbytes buf (Z.of_nat (length e)) P r0 bat true c0 ->
  stream_data_bytes r sid w
  = (0, upd_ctx (fun _ =>
          with_decoder sid (u64 (nbytes + Z.of_nat (length r))) buf
            (Z.of_nat (length e)) P (r0 + Z.of_nat q) bat true c0) w).
Proof using Hpre HP Hshort.
  intros Hr0 Hfit Hr Hctx.
  assert (Hn : length r = q) by (subst r; apply length_replicate).
  rewrite stream_data_bytes_stages by (rewrite Hctx; right; reflexivity).
  rewrite Hctx.
  change (claimed sid ?m (with_decoder _ ?a2 ?a3 ?a4 ?a5 ?a6 ?a7 ?a8 ?c))
    with (with_decoder sid (u64 (a2 + m)) a3 a4 a5 a6 a7 a8 c).
  rewrite read_padding_length_known by (apply P_known, HP).
  rewrite (decode_tail_padding P HP r w 0 (Z.of_nat q)); try lia.
  reflexivity.
Qed.

(** A range that brings the end of the padding and the baton. *)
Lemma step_padding_baton (q : nat) r nbytes buf r0 bat c0 w :
  0 <= r0 -> r0 + Z.of_nat q = P -> r = replicate q 0 ++ [b] ->
  ctx w = with_decoder sid nbytes buf (Z.of_nat (length e)) P r0 bat true c0 ->
  stream_data_bytes r sid w
  = (0, upd_ctx (fun _ =>
          with_decoder sid (u64 (nbytes + Z.of_nat (length r))) buf
            (Z.of_nat (length e)) P P b false c0) w).
Proof using Hpre HP Hshort.
  intros Hr0 Hfit Hr Hctx.
  assert (Hn : length r = (q + 1)%nat)
    by (subst r; rewrite length_app, length_replicate; reflexivity).
  rewrite stream_data_bytes_stages by (rewrite Hctx; right; reflexivity).
  rewrite Hctx.
  change (claimed sid ?m (with_decoder _ ?a2 ?a3 ?a4 ?a5 ?a6 ?a7 ?a8 ?c))
    with (with_decoder sid (u64 (a2 + m)) a3 a4 a5 a6 a7 a8 c).
  rewrite read_padding_length_known by (apply P_known, HP).
  rewrite (decode_tail_baton P HP r w 0 (Z.of_nat q)); try lia.
  replace (nth (Z.to_nat (0 + Z.of_nat q)) r 0) with b; [reflexivity|].
  symmetry. rewrite Hr. apply nth_last_app. rewrite length_replicate. lia.
Qed.

End Frame.

Lemma varint_encode_length P :
  0 <= P < 16384 -> (length (picoquic_frames_varint_encode P) <= 8)%nat.
Proof.
  intros HP. destruct (Z.lt_ge_cases P 64).
  - rewrite varint_encode_short by lia. simpl. lia.
  - rewrite varint_encode_long by lia. simpl. lia.
Qed.

Lemma world_eta w : upd_ctx (fun _ => ctx w) w = w.
Proof. destruct w. reflexivity. Qed.

Lemma upd_ctx_const c1 c2 w :
  upd_ctx (fun _ => c2) (upd_ctx (fun _ => c1) w) = upd_ctx (fun _ => c2) w.
Proof. reflexivity. Qed.

Section Positions.
Variables (P b sid : Z).
Hypothesis HP : 0 <= P < 16384.
Local Abbreviation e := (picoquic_frames_varint_encode P).
Local Abbreviation f := (baton_frame P b).

Lemma frame_length : length f = (length e + Z.to_nat P + 1)%nat.
Proof.
  unfold baton_frame. rewrite !length_app, length_replicate. simpl. lia.
Qed.

Lemma decoder_at_start c :
  receive_ready c ->
  c = with_decoder UINT64_MAX (nb_baton_bytes_received c)
        (stored (take 0 e) (receive_buffer c)) (Z.of_nat 0) UINT64_MAX 0
        (baton_received c) true c.
Proof.
  intros H. decoding_fields H.
  rewrite <- (with_decoder_eta c) at 1.
  rewrite Hrecv, Hrid, Hexp, Hrcv, Hnb. reflexivity.
Qed.

Lemma decoder_at_length k c :
  (0 < k <= length e)%nat ->
  decoder_at P b sid k c
  = with_decoder sid (u64 (nb_baton_bytes_received c + Z.of_nat k))
      (stored (take k e) (receive_buffer c)) (Z.of_nat k) UINT64_MAX 0
      (baton_received c) true c.
Proof.
  intros Hk. unfold decoder_at. destruct k as [|k']; [lia|].
  rewrite (proj2 (Nat.leb_le _ _)) by lia. reflexivity.
Qed.

Lemma decoder_at_padding k c :
  (length e < k <= length e + Z.to_nat P)%nat ->
  decoder_at P b sid k c
  = with_decoder sid (u64 (nb_baton_bytes_received c + Z.of_nat k))
      (stored e (receive_buffer c)) (Z.of_nat (length e)) P
      (Z.of_nat (k - length e)) (baton_received c) true c.
Proof.
  intros Hk. unfold decoder_at. destruct k as [|k']; [lia|].
  rewrite (proj2 (Nat.leb_gt _ _)) by lia.
  rewrite (proj2 (Nat.leb_le _ _)) by lia. reflexivity.
Qed.

Lemma decoder_at_baton k c :
  (length e + Z.to_nat P < k)%nat ->
  decoder_at P b sid k c
  = with_decoder sid (u64 (nb_baton_bytes_received c + Z.of_nat k))
      (stored e (receive_buffer c)) (Z.of_nat (length e)) P P b false c.
Proof.
  intros Hk. unfold decoder_at. destruct k as [|k']; [lia|].
  rewrite (proj2 (Nat.leb_gt _ _)) by lia.
  rewrite (proj2 (Nat.leb_gt _ _)) by lia. reflexivity.
Qed.

Lemma decoder_at_keeps k c :
  control_stream_id (decoder_at P b sid k c) = control_stream_id c
  /\ baton_state (decoder_at P b sid k c) = baton_state c.
Proof.
  unfold decoder_at. destruct k; [split; reflexivity|].
  destruct (_ <=? _)%nat; [|destruct (_ <=? _)%nat]; split; reflexivity.
Qed.

Lemma u64_count_on n k m :
  u64 (u64 (n + Z.of_nat k) + Z.of_nat m) = u64 (n + Z.of_nat (k + m)).
Proof. rewrite u64_add_l. f_equal. lia. Qed.

(** One range of the frame, from any position of the decoder. *)
Lemma decode_range c0 w (k : nat) r :
  receive_ready c0 -> r <> [] ->
  (k + length r <= length f)%nat -> r = take (length r) (drop k f) ->
  stream_data_bytes r sid (upd_ctx (fun _ => decoder_at P b sid k c0) w)
  = (0, upd_ctx (fun _ => decoder_at P b sid (k + length r) c0) w).
Proof.
  intros Hready Hne Hfit Hr.
  pose proof (varint_length_prefix P HP) as Hpre.
  pose proof (varint_encode_length P HP) as Hshort.
  assert (HP' : 0 <= P < 4611686018427387904) by lia.
  assert (Hn : (0 < length r)%nat) by (destruct r; [congruence|simpl; lia]).
  rewrite frame_length in Hfit.
  set (n := length r) in *.
  set (w1 := upd_ctx (fun _ => decoder_at P b sid k c0) w).
  assert (Hw1 : forall c, upd_ctx (fun _ => c) w1 = upd_ctx (fun _ => c) w)
    by reflexivity.
  destruct (le_lt_dec k (length e)) as [Hk|Hk].
  - (* the length prefix is not complete *)
    assert (Hstate : exists rid nbytes,
      (rid = UINT64_MAX \/ rid = sid)
      /\ ctx w1 = with_decoder rid nbytes (stored (take k e) (receive_buffer c0))
                   (Z.of_nat k) UINT64_MAX 0 (baton_received c0) true c0
      /\ u64 (nbytes + Z.of_nat n)
         = u64 (nb_baton_bytes_received c0 + Z.of_nat (k + n))).
    { destruct k as [|k'].
      - exists UINT64_MAX, (nb_baton_bytes_received c0).
        split; [left; reflexivity|]. split; [|reflexivity].
        apply decoder_at_start, Hready.
      - exists sid, (u64 (nb_baton_bytes_received c0 + Z.of_nat (S k'))).
        split; [right; reflexivity|]. split; [|apply u64_count_on].
        apply decoder_at_length. lia. }
    destruct Hstate as (rid & nbytes & Hrid & Hctx & Hcount).
    destruct (le_lt_dec (k + n) (length e)) as [Hin|Hout].
    + rewrite (step_length e P sid Hpre HP' Hshort k n r rid nbytes
                 (receive_buffer c0) (baton_received c0) c0 w1 Hrid Hin);
        [|rewrite Hr; apply (slice_length e (Z.to_nat P) b); lia|exact Hctx].
      rewrite Hw1, Hcount, decoder_at_length by lia. reflexivity.
    + destruct (le_lt_dec (k + n) (length e + Z.to_nat P)) as [Hpad|Hall].
      * rewrite (step_length_padding e P sid Hpre HP' Hshort k (k + n - length e)
                   r rid nbytes (receive_buffer c0) (baton_received c0) c0 w1
                   Hrid);
          [|lia|lia|lia
           |rewrite Hr; apply (slice_length_padding e (Z.to_nat P) b); lia
           |exact Hctx].
        rewrite Hw1. fold n. rewrite Hcount, decoder_at_padding by lia.
        reflexivity.
      * rewrite (step_length_baton e P b sid Hpre HP' Hshort k
                   r rid nbytes (receive_buffer c0) (baton_received c0) c0 w1
                   Hrid);
          [|lia
           |rewrite Hr; apply (slice_length_baton e (Z.to_nat P) b); lia
           |exact Hctx].
        rewrite Hw1. fold n. rewrite Hcount, decoder_at_baton by lia.
        reflexivity.
  - (* the length is known *)
    assert (Hctx : ctx w1
      = with_decoder sid (u64 (nb_baton_bytes_received c0 + Z.of_nat k))
          (stored e (receive_buffer c0)) (Z.of_nat (length e)) P
          (Z.of_nat (k - length e)) (baton_received c0) true c0)
      by (apply decoder_at_padding; lia).
    destruct (le_lt_dec (k + n) (length e + Z.to_nat P)) as [Hpad|Hall].
    + rewrite (step_padding e P sid Hpre HP' Hshort n r
                 (u64 (nb_baton_bytes_received c0 + Z.of_nat k))
                 (stored e (receive_buffer c0)) (Z.of_nat (k - length e))
                 (baton_received c0) c0 w1);
        [|lia|lia
         |rewrite Hr; apply (slice_padding e (Z.to_nat P) b); lia|exact Hctx].
      rewrite Hw1. fold n. rewrite u64_count_on, decoder_at_padding by lia.
      replace (Z.of_nat (k - length e) + Z.of_nat n)
        with (Z.of_nat (k + n - length e)) by lia.
      reflexivity.
    + rewrite (step_padding_baton e P b sid Hpre HP' Hshort
                 (length e + Z.to_nat P - k) r
                 (u64 (nb_baton_bytes_received c0 + Z.of_nat k))
                 (stored e (receive_buffer c0)) (Z.of_nat (k - length e))
                 (baton_received c0) c0 w1);
        [|lia|lia
         |rewrite Hr; apply (slice_padding_baton e (Z.to_nat P) b); lia
         |exact Hctx].
      rewrite Hw1. fold n. rewrite u64_count_on, decoder_at_baton by lia.
      reflexivity.
Qed.

End Positions.

Lemma deliver_app ranges1 ranges2 sid r :
  deliver (ranges1 ++ ranges2) sid r = deliver ranges2 sid (deliver ranges1 sid r).
Proof.
  revert r. induction ranges1 as [|[bytes is_fin] ranges1 IH]; intros r; simpl.
  - reflexivity.
  - destruct (fst r =? 0) eqn:Hret; [apply IH|].
    clear IH. induction ranges2 as [|[bytes2 fin2] ranges2 IH2]; simpl;
      [reflexivity|]. rewrite Hret. reflexivity.
Qed.

Section Cuts.
Variables (P b sid : Z).
Hypothesis HP : 0 <= P < 16384.
Local Abbreviation f := (baton_frame P b).

Lemma relay_stream_decoder_at k w :
  relay_stream sid w ->
  relay_stream sid (upd_ctx (fun _ => decoder_at P b sid k (ctx w)) w).
Proof using Type.
  intros Hrelay. destruct (decoder_at_keeps P b sid k (ctx w)) as [Hc Hs].
  apply relay_stream_upd_ctx; assumption.
Qed.

(** The ranges of a cut, without the end of the stream, move the decoder
    along the frame by the bytes they bring. *)
Lemma deliver_cut w chunks :
  relay_stream sid w -> receive_ready (ctx w) ->
  forall k : nat,
  (k + length (concat chunks) <= length f)%nat ->
  concat chunks = take (length (concat chunks)) (drop k f) ->
  deliver (without_fin chunks) sid
    (0, upd_ctx (fun _ => decoder_at P b sid k (ctx w)) w)
  = (0, upd_ctx (fun _ =>
          decoder_at P b sid (k + length (concat chunks)) (ctx w)) w).
Proof using HP.
  intros Hrelay Hready.
  induction chunks as [|r chunks IH]; intros k Hk Hcut.
  - simpl. rewrite Nat.add_0_r. reflexivity.
  - simpl in Hcut, Hk. rewrite length_app in Hk, Hcut. simpl.
    rewrite (stream_data_relay_stream r false sid _
               (relay_stream_decoder_at k w Hrelay)).
    unfold stream_data_baton.
    destruct r as [|x r'] eqn:Hr.
    + simpl. apply IH; assumption.
    + rewrite <- Hr in *.
      assert (Hpos : (0 <? Z.of_nat (length r)) = true)
        by (apply Z.ltb_lt; rewrite Hr; simpl; lia).
      rewrite Hpos.
      assert (Hhead : r = take (length r) (drop k f)).
      { rewrite <- (take_app_length r (concat chunks)) at 1.
        rewrite Hcut at 1. rewrite take_take.
        f_equal. lia. }
      assert (Htail : concat chunks
                      = take (length (concat chunks)) (drop (k + length r) f)).
      { rewrite <- (drop_app_length r (concat chunks)) at 1.
        rewrite Hcut at 1. rewrite <- drop_drop, <- take_drop_commute.
        reflexivity. }
      rewrite (decode_range P b sid HP (ctx w) w k r Hready);
        [|rewrite Hr; discriminate|lia|exact Hhead].
      rewrite (IH (k + length r)%nat) by (lia || exact Htail).
      rewrite length_app, Nat.add_assoc. reflexivity.
Qed.

(** The same from the start of the frame, where the decoder is ready. *)
Lemma deliver_cut_start w chunks :
  relay_stream sid w -> receive_ready (ctx w) ->
  (length (concat chunks) <= length f)%nat ->
  concat chunks = take (length (concat chunks)) f ->
  deliver (without_fin chunks) sid (0, w)
  = (0, upd_ctx (fun _ =>
          decoder_at P b sid (length (concat chunks)) (ctx w)) w).
Proof using HP.
  intros Hrelay Hready Hlen Hcut.
  pose proof (deliver_cut w chunks Hrelay Hready 0 Hlen Hcut) as H.
  change (decoder_at P b sid 0 (ctx w)) with (ctx w) in H.
  rewrite world_eta in H. exact H.
Qed.

Lemma decode_whole_frame w :
  receive_ready (ctx w) ->
  stream_data_bytes f sid w
  = (0, upd_ctx (fun _ => decoder_at P b sid (length f) (ctx w)) w).
Proof using HP.
  intros Hready.
  pose proof (frame_length P b) as Hlen.
  assert (Hne : f <> []) by (intros Hnil; rewrite Hnil in Hlen; simpl in Hlen; lia).
  pose proof (decode_range P b sid HP (ctx w) w 0 f Hready Hne) as H.
  change (decoder_at P b sid 0 (ctx w)) with (ctx w) in H.
  rewrite world_eta in H. apply H; [lia|].
  rewrite drop_0, take_ge by lia. reflexivity.
Qed.

End Cuts.

(** X7.  A baton frame delivered in one range: the decoder returns 0, has read
    the baton and is no longer receiving; it has counted the bytes of the
    frame and skipped the padding announced; the stream tree, the
    connection and the calls made are as before. *)
Theorem decode_baton_frame (P b sid : Z) (w : world) :
  0 <= P < 16384 -> relay_stream sid w -> receive_ready (ctx w) ->
  let r := wt_baton_stream_data (baton_frame P b) false sid w in
  fst r = 0
  /\ baton_received (ctx (snd r)) = b
  /\ is_receiving (ctx (snd r)) = false
  /\ receiving_stream_id (ctx (snd r)) = sid
  /\ padding_expected (ctx (snd r)) = P
  /\ padding_received (ctx (snd r)) = P
  /\ nb_baton_bytes_received (ctx (snd r))
     = u64 (nb_baton_bytes_received (ctx w)
            + Z.of_nat (length (baton_frame P b)))
  /\ streams (snd r) = streams w
  /\ cnx (snd r) = cnx w
  /\ trace (snd r) = trace w.
Proof.
  intros HP Hrelay Hready r. subst r.
  rewrite (stream_data_relay_stream _ false sid w Hrelay).
  unfold stream_data_baton.
  assert (Hlen : length (baton_frame P b)
                 = (length (picoquic_frames_varint_encode P) + Z.to_nat P + 1)%nat)
    by apply frame_length.
  rewrite (proj2 (Z.ltb_lt 0 _)) by lia.
  rewrite (decode_whole_frame P b sid HP w Hready).
  simpl. rewrite decoder_at_baton by lia.
  repeat split.
Qed.

(** The frame of the baton 42 with 70 bytes of padding, whose length takes
    two bytes. *)
Lemma decode_baton_frame_witness :
  baton_received
    (ctx (snd (wt_baton_stream_data (baton_frame 70 42) false 2
                 (sample_server 41 3 127))))
  = 42
  /\ is_receiving
       (ctx (snd (wt_baton_stream_data (baton_frame 70 42) false 2
                    (sample_server 41 3 127))))
     = false.
Proof.
  destruct (decode_baton_frame 70 42 2 (sample_server 41 3 127))
    as (_ & Hbaton & Hread & _);
    [lia|sample_relay_stream|repeat split|].
  split; [exact Hbaton|exact Hread].
Defined.

(** X8.  However the frame is cut into ranges, the decoder ends as it does when
    the frame comes in one range; the last range may carry the end of the
    stream. *)
Theorem decode_any_cut (P b sid : Z) (w : world) (chunks : list (list Z))
    (last : list Z) (is_fin : bool) :
  0 <= P < 16384 -> relay_stream sid w -> receive_ready (ctx w) ->
  last <> [] -> concat chunks ++ last = baton_frame P b ->
  deliver (without_fin chunks ++ [(last, is_fin)]) sid (0, w)
  = wt_baton_stream_data (baton_frame P b) is_fin sid w.
Proof.
  intros HP Hrelay Hready Hlast Hcut.
  assert (Hlen : (length (concat chunks) + length last
                  = length (baton_frame P b))%nat)
    by (rewrite <- Hcut, length_app; reflexivity).
  assert (Hpos : (0 < length last)%nat)
    by (destruct last; [congruence|simpl; lia]).
  rewrite deliver_app.
  rewrite (deliver_cut_start P b sid HP w chunks Hrelay Hready);
    [|lia|rewrite <- Hcut, take_app_length; reflexivity].
  simpl deliver.
  rewrite (stream_data_relay_stream last is_fin sid _
             (relay_stream_decoder_at P b sid _ w Hrelay)).
  rewrite (stream_data_relay_stream _ is_fin sid w Hrelay).
  unfold stream_data_baton.
  rewrite (proj2 (Z.ltb_lt 0 (Z.of_nat (length last)))) by lia.
  rewrite (proj2 (Z.ltb_lt 0 (Z.of_nat (length (baton_frame P b))))) by lia.
  rewrite (decode_range P b sid HP (ctx w) w (length (concat chunks)) last Hready
             Hlast);
    [|lia|rewrite <- Hcut, drop_app_length, take_ge by lia; reflexivity].
  rewrite (decode_whole_frame P b sid HP w Hready).
  rewrite Hlen. reflexivity.
Qed.

(** The same frame cut after the first byte of the length, inside the
    padding twice, with the baton and the end of the stream in the last
    range. *)
Lemma decode_any_cut_witness :
  deliver
    (without_fin [[64]; [70; 0; 0]; replicate 60 0]
     ++ [(replicate 8 0 ++ [42], true)]) 2 (0, sample_server 41 3 127)
  = wt_baton_stream_data (baton_frame 70 42) true 2 (sample_server 41 3 127).
Proof.
  apply (decode_any_cut 70 42 2 (sample_server 41 3 127));
    [lia|sample_relay_stream|repeat split|discriminate|reflexivity].
Defined.

(** ** The encoder, call after call *)

Lemma u64_small x : 0 <= x < 18446744073709551616 -> u64 x = x.
Proof. intros H. apply Z.mod_small. exact H. Qed.

(** A call that does not finish the frame. *)
Lemma provide_frame_part space sid w c1 pll :
  choose_padding space (ctx w) = (c1, pll) ->
  0 <= pll <= space -> pll <= 2 ->
  0 <= padding_sent c1 <= padding_required c1 ->
  padding_required c1 < 4611686018427387904 ->
  space < pll + (padding_required c1 - padding_sent c1) + 1 ->
  is_sending c1 = true ->
  exists w',
    provide_frame space sid w = Some (0, w')
    /\ trace w'
       = trace w
         ++ [Call_provide_stream_data_buffer space false true
               ((if 0 <? pll then
                   picoquic_frames_varint_encode (padding_required c1)
                 else [])
                ++ replicate (Z.to_nat (space - pll)) 0)]
    /\ is_sending (ctx w') = true
    /\ padding_required (ctx w') = padding_required c1
    /\ padding_sent (ctx w') = padding_sent c1 + (space - pll)
    /\ baton (ctx w') = baton c1
    /\ baton_state (ctx w') = baton_state c1
    /\ sending_stream_id (ctx w') = sending_stream_id c1
    /\ streams w' = streams w.
Proof.
  intros Hchoose Hpll Hpll2 Hsent Hmax Hpart Hsending.
  unfold provide_frame. rewrite Hchoose.
  rewrite (u64_small (padding_required c1 - padding_sent c1)) by lia.
  rewrite (u64_small (pll + _ + 1)) by lia.
  rewrite (proj2 (Z.ltb_lt space _)) by lia.
  rewrite (u64_small (space - pll)) by lia.
  rewrite Hsending. rewrite (proj2 (Z.ltb_ge space _)) by lia.
  simpl negb. rewrite app_nil_r.
  destruct (0 <? space - pll) eqn:Hpad.
  - rewrite (u64_small (padding_sent c1 + (space - pll))) by lia.
    simpl. rewrite Hsending. eexists. split; [reflexivity|].
    simpl. repeat split; assumption.
  - assert (space - pll = 0) by (apply Z.ltb_ge in Hpad; lia).
    simpl. rewrite Hsending. eexists. split; [reflexivity|].
    simpl. repeat split; first [assumption|lia].
Qed.

(** A call that finishes the frame. *)
Lemma provide_frame_last space sid w c1 pll :
  choose_padding space (ctx w) = (c1, pll) ->
  0 <= pll <= space -> pll <= 2 ->
  0 <= padding_sent c1 <= padding_required c1 ->
  padding_required c1 < 4611686018427387904 ->
  space < 9223372036854775808 ->
  pll + (padding_required c1 - padding_sent c1) + 1 <= space ->
  is_sending c1 = true ->
  exists w',
    provide_frame space sid w = Some (0, w')
    /\ trace w'
       = trace w
         ++ [Call_provide_stream_data_buffer
               (pll + (padding_required c1 - padding_sent c1) + 1) true false
               ((if 0 <? pll then
                   picoquic_frames_varint_encode (padding_required c1)
                 else [])
                ++ replicate (Z.to_nat (padding_required c1 - padding_sent c1)) 0
                ++ [baton c1])]
    /\ is_sending (ctx w') = false
    /\ baton_state (ctx w') = wt_baton_state_sent
    /\ receive_ready (ctx w')
    /\ baton (ctx w') = baton c1
    /\ sending_stream_id (ctx w') = sending_stream_id c1.
Proof.
  intros Hchoose Hpll Hpll2 Hsent Hmax Hspace Hlast Hsending.
  unfold provide_frame. rewrite Hchoose.
  rewrite (u64_small (padding_required c1 - padding_sent c1)) by lia.
  rewrite (u64_small (pll + _ + 1)) by lia.
  rewrite (proj2 (Z.ltb_ge space _)) by lia.
  change (is_sending (set_is_sending false c1)) with false. simpl negb.
  change (padding_required (set_is_sending false c1)) with (padding_required c1).
  change (baton (set_is_sending false c1)) with (baton c1).
  cbv iota beta.
  rewrite (proj2 (Z.ltb_ge _ _)) by lia.
  destruct (0 <? padding_required c1 - padding_sent c1) eqn:Hpad.
  - simpl.
    destruct (alter (set_is_fin_sent true) sid (streams w) !! sid) as [sc|];
      [destruct (is_fin_received sc)|]; eexists; (split; [reflexivity|]);
      simpl; repeat split.
  - simpl.
    destruct (alter (set_is_fin_sent true) sid (streams w) !! sid) as [sc|];
      [destruct (is_fin_received sc)|]; eexists; (split; [reflexivity|]);
      simpl; repeat split.
Qed.

Lemma committed_length P :
  P = 0 \/ P = 0x3F \/ P = 0x3FFF ->
  0 <= P < 16384 /\ P <> UINT64_MAX
  /\ (0 < length (picoquic_frames_varint_encode P) <= 2)%nat.
Proof.
  intros [-> | [-> | ->]]; (split; [lia|]); (split; [discriminate|]); simpl; lia.
Qed.

(** What the choice of the padding length leaves: a committed length, with
    a prefix to write in this call when the choice is made in it. *)
Lemma choose_padding_sending space c :
  sending c -> (padding_required c = UINT64_MAX -> 1 <= space) ->
  exists c1 pll,
    choose_padding space c = (c1, pll)
    /\ is_sending c1 = true
    /\ baton c1 = baton c
    /\ sending_stream_id c1 = sending_stream_id c
    /\ padding_sent c1 = padding_sent c
    /\ (padding_required c1 = 0 \/ padding_required c1 = 0x3F
        \/ padding_required c1 = 0x3FFF)
    /\ 0 <= padding_sent c1 <= padding_required c1
    /\ ((pll = 0 /\ padding_required c <> UINT64_MAX
         /\ padding_required c1 = padding_required c)
        \/ (padding_required c = UINT64_MAX /\ padding_sent c1 = 0
            /\ pll = Z.of_nat (length (picoquic_frames_varint_encode
                                         (padding_required c1)))
            /\ pll <= space)).
Proof.
  intros (Hsending & [[Hmax Hsent]|[Hcommitted Hsent]]) Hspace.
  - specialize (Hspace Hmax).
    rewrite (choose_padding_first space c Hmax).
    destruct (state_eqb (baton_state c) wt_baton_state_done);
      [|destruct (space =? 1) eqn:Hone];
      eexists _, _; (split; [reflexivity|]); simpl; rewrite ?Hsent;
      repeat split; try assumption; try lia; auto;
      right; repeat split; try assumption; try lia.
  - destruct (committed_length _ Hcommitted) as (_ & Hknown & _).
    rewrite (choose_padding_later space c Hknown).
    exists c, 0. repeat split; try assumption; try lia.
Qed.

(** The frame is the one of the padding length that the call commits to. *)
Lemma frame_chosen_choice space c :
  frame_chosen space c
  = baton_frame (padding_required (fst (choose_padding space c))) (baton c).
Proof.
  unfold frame_chosen, committed_padding, choose_padding.
  destruct (padding_required c =? UINT64_MAX); [|reflexivity].
  destruct (state_eqb _ _); [|destruct (space =? 1)]; reflexivity.
Qed.

(** What a call writes of the frame, and where it leaves the encoder. *)
Lemma provide_frame_next (space sid : Z) (w : world) :
  sending (ctx w) ->
  0 <= space < 9223372036854775808 ->
  (padding_required (ctx w) = UINT64_MAX -> 1 <= space) ->
  let chunk := next_chunk space (ctx w) in
  let is_last := last_chunk space (ctx w) in
  exists w',
    provide_frame space sid w = Some (0, w')
    /\ trace w'
       = trace w
         ++ [Call_provide_stream_data_buffer (Z.of_nat (length chunk)) is_last
               (negb is_last) chunk]
    /\ Z.of_nat (length chunk) <= space
    /\ baton (ctx w') = baton (ctx w)
    /\ sending_stream_id (ctx w') = sending_stream_id (ctx w)
    /\ (if is_last then
          is_sending (ctx w') = false
          /\ baton_state (ctx w') = wt_baton_state_sent
          /\ receive_ready (ctx w')
        else
          sending (ctx w')
          /\ padding_required (ctx w') <> UINT64_MAX
          /\ baton_frame (padding_required (ctx w')) (baton (ctx w'))
             = frame_chosen space (ctx w)
          /\ frame_offset (ctx w') = frame_offset (ctx w) + space).
Proof.
  intros Hsend Hspace Hfirst chunk is_last.
  destruct (choose_padding_sending space (ctx w) Hsend Hfirst)
    as (c1 & pll & Hchoose & Hsending & Hbaton & Hsid & Hsent & Hcommitted
        & Hrange & Hcase).
  destruct (committed_length _ Hcommitted) as (HP & Hknown & Hprefix).
  set (P := padding_required c1) in *.
  set (e := picoquic_frames_varint_encode P) in *.
  assert (HF : frame_chosen space (ctx w) = e ++ replicate (Z.to_nat P) 0 ++ [baton c1]).
  { rewrite frame_chosen_choice, Hchoose, <- Hbaton. reflexivity. }
  assert (Hlen : length (frame_chosen space (ctx w))
                 = (length e + Z.to_nat P + 1)%nat).
  { rewrite HF, !length_app, length_replicate. simpl. lia. }
  assert (Hoff : frame_offset (ctx w) + pll
                 = Z.of_nat (length e) + padding_sent c1
                 /\ (if 0 <? pll then e else []) = drop (Z.to_nat (frame_offset (ctx w))) e).
  { unfold frame_offset.
    destruct Hcase as [(-> & Hk & Hsame)|(Hmax & Hz & -> & _)].
    - apply Z.eqb_neq in Hk. rewrite Hk. fold P in Hsame. rewrite <- Hsame.
      fold e. rewrite Hsent. split; [lia|]. simpl.
      rewrite drop_ge; [reflexivity|lia].
    - rewrite Hmax. simpl. rewrite Hz. split; [lia|].
      rewrite (proj2 (Z.ltb_lt 0 _)) by lia. reflexivity. }
  destruct Hoff as [Hoff Hwritten].
  assert (Hpll : 0 <= pll <= space /\ pll <= 2).
  { destruct Hcase as [(-> & _)|(_ & _ & -> & Hfit)]; lia. }
  subst chunk is_last. unfold next_chunk, last_chunk. rewrite Hlen.
  destruct (Z.lt_ge_cases space (pll + (P - padding_sent c1) + 1)) as [Hpart|Hlast].
  - destruct (provide_frame_part space sid w c1 pll Hchoose)
      as (w' & Hret & Htrace & Hs' & Hp' & Hsent' & Hb' & _ & Hsid' & _);
      try lia; try assumption.
    rewrite (proj2 (Z.leb_gt _ _)) by lia. simpl negb.
    assert (Hchunk :
      take (Z.to_nat space) (drop (Z.to_nat (frame_offset (ctx w)))
                               (frame_chosen space (ctx w)))
      = (if 0 <? pll then e else []) ++ replicate (Z.to_nat (space - pll)) 0).
    { rewrite HF.
      destruct Hcase as [(-> & _)|(_ & Hz & -> & Hfit)].
      - simpl.
        rewrite (slice_padding e (Z.to_nat P) (baton c1)) by lia.
        f_equal. lia.
      - rewrite (proj2 (Z.ltb_lt 0 _)) by lia.
        replace (Z.to_nat (frame_offset (ctx w))) with 0%nat by lia.
        rewrite (slice_length_padding e (Z.to_nat P) (baton c1)) by lia.
        rewrite drop_0. f_equal. f_equal. lia. }
    rewrite Hchunk.
    assert (Hsize : Z.of_nat (length ((if 0 <? pll then e else [])
                                      ++ replicate (Z.to_nat (space - pll)) 0))
                    = space).
    { rewrite length_app, length_replicate.
      destruct Hcase as [(-> & _)|(_ & _ & -> & Hfit)].
      - simpl. lia.
      - rewrite (proj2 (Z.ltb_lt 0 _)) by lia. lia. }
    exists w'. rewrite Hsize, Htrace, Hb', Hsid', Hbaton, Hsid.
    split; [exact Hret|]. split; [reflexivity|]. split; [lia|].
    split; [reflexivity|]. split; [reflexivity|].
    split; [|split; [|split]].
    + split; [exact Hs'|].
      right. rewrite Hp', Hsent'. split; [exact Hcommitted|lia].
    + rewrite Hp'. exact Hknown.
    + rewrite Hp', HF, Hbaton. reflexivity.
    + unfold frame_offset at 1. rewrite Hp', Hsent'.
      apply Z.eqb_neq in Hknown. fold P. rewrite Hknown. fold e. lia.
  - destruct (provide_frame_last space sid w c1 pll Hchoose)
      as (w' & Hret & Htrace & Hs' & Hstate & Hready & Hb' & Hsid');
      try lia; try assumption.
    rewrite (proj2 (Z.leb_le _ _)) by lia. simpl negb.
    assert (Hchunk :
      take (Z.to_nat space) (drop (Z.to_nat (frame_offset (ctx w)))
                               (frame_chosen space (ctx w)))
      = (if 0 <? pll then e else [])
        ++ replicate (Z.to_nat (P - padding_sent c1)) 0 ++ [baton c1]).
    { rewrite take_ge by (rewrite length_drop, Hlen; lia).
      rewrite HF.
      destruct Hcase as [(-> & _)|(_ & Hz & -> & Hfit)].
      - simpl.
        rewrite <- (take_ge (drop _ _)
                      (length e + Z.to_nat P + 1 - Z.to_nat (frame_offset (ctx w))))
          by (rewrite length_drop, !length_app, length_replicate; simpl; lia).
        rewrite (slice_padding_baton e (Z.to_nat P) (baton c1)) by lia.
        f_equal. f_equal. lia.
      - rewrite (proj2 (Z.ltb_lt 0 _)) by lia.
        replace (Z.to_nat (frame_offset (ctx w))) with 0%nat by lia.
        rewrite !drop_0, Hz, Z.sub_0_r. reflexivity. }
    rewrite Hchunk.
    assert (Hsize : Z.of_nat (length ((if 0 <? pll then e else [])
                                      ++ replicate (Z.to_nat (P - padding_sent c1)) 0
                                      ++ [baton c1]))
                    = pll + (P - padding_sent c1) + 1).
    { rewrite !length_app, length_replicate.
      destruct Hcase as [(-> & _)|(_ & _ & -> & Hfit)].
      - simpl. lia.
      - rewrite (proj2 (Z.ltb_lt 0 _)) by lia. simpl. lia. }
    exists w'. rewrite Hsize, Htrace, Hb', Hsid', Hbaton, Hsid.
    split; [exact Hret|]. split; [reflexivity|]. split; [lia|].
    split; [reflexivity|]. split; [reflexivity|].
    split; [exact Hs'|]. split; [exact Hstate|exact Hready].
Qed.

Lemma chunks_provided_app t1 t2 :
  chunks_provided (t1 ++ t2) = chunks_provided t1 ++ chunks_provided t2.
Proof. apply omap_app. Qed.

(** On the stream that is armed, the call goes straight to the frame. *)
Lemma provide_data_armed space sid w :
  sending_stream_id (ctx w) = sid -> is_sending (ctx w) = true ->
  wt_baton_provide_data space sid w = provide_frame space sid w.
Proof.
  intros Hsid Hsending.
  rewrite (provide_data_armed_stream space sid w Hsending (or_intror Hsid)).
  f_equal. destruct w as [c st q tr]. destruct c. simpl in *. subst.
  reflexivity.
Qed.

(** When no frame is being sent, a call writes nothing on the stream, and
    no frame is being sent after it. *)
Lemma provide_data_idle space sid w :
  is_sending (ctx w) = false ->
  exists ret w',
    wt_baton_provide_data space sid w = Some (ret, w')
    /\ is_sending (ctx w') = false
    /\ chunks_provided (trace w') = chunks_provided (trace w) ++ [[]].
Proof.
  intros Hidle. unfold wt_baton_provide_data.
  set (r := if sending_stream_id (ctx w) =? UINT64_MAX then _ else _).
  assert (Hr : is_sending (ctx (snd r)) = false
               /\ chunks_provided (trace (snd r)) = chunks_provided (trace w)).
  { subst r.
    destruct (sending_stream_id (ctx w) =? UINT64_MAX);
      [split; [exact Hidle|reflexivity]|].
    destruct (negb (sending_stream_id (ctx w) =? sid));
      [|split; [exact Hidle|reflexivity]].
    destruct (close_session_effect WT_BATON_SESSION_ERR_BRUH
                (Some "Sending on wrong stream!"%string) w) as [Ht _].
    split.
    - destruct (close_session_ctx WT_BATON_SESSION_ERR_BRUH
                  (Some "Sending on wrong stream!"%string) w) as [Hc|Hc];
        rewrite Hc; exact Hidle.
    - rewrite Ht, chunks_provided_app.
      destruct (control_stream_open w); simpl; apply app_nil_r. }
  destruct r as [ret w1]. simpl in Hr. destruct Hr as [Hidle1 Hchunks].
  rewrite Hidle1, andb_false_r. eexists _, _. split; [reflexivity|].
  simpl. rewrite chunks_provided_app, Hchunks.
  split; [exact Hidle1|reflexivity].
Qed.

Lemma provide_all_idle spaces sid w :
  is_sending (ctx w) = false ->
  exists w',
    provide_all spaces sid w = Some w'
    /\ is_sending (ctx w') = false
    /\ concat (chunks_provided (trace w')) = concat (chunks_provided (trace w)).
Proof.
  revert w. induction spaces as [|space spaces IH]; intros w Hidle; simpl.
  - exists w. split; [reflexivity|]. split; [exact Hidle|reflexivity].
  - destruct (provide_data_idle space sid w Hidle)
      as (ret & w1 & Hcall & Hidle' & Hchunks).
    destruct (IH _ Hidle') as (w' & Hall & Hfinal & Hconcat).
    exists w'. rewrite Hcall. split; [exact Hall|]. split; [exact Hfinal|].
    rewrite Hconcat, Hchunks, concat_app. simpl. rewrite !app_nil_r.
    reflexivity.
Qed.

Lemma total_nonneg spaces :
  Forall (fun space => 0 <= space < 9223372036854775808) spaces ->
  0 <= total spaces.
Proof.
  induction 1 as [|space spaces Hspace _ IH]; simpl; [lia|].
  unfold total in *. simpl. lia.
Qed.

(** Calls in a row, once a padding length is committed: together they
    write the next bytes of the frame, as many as they are offered, up to
    the end of the frame. *)
Lemma provide_all_committed spaces sid :
  Forall (fun space => 0 <= space < 9223372036854775808) spaces ->
  forall w,
  sending (ctx w) -> padding_required (ctx w) <> UINT64_MAX ->
  sending_stream_id (ctx w) = sid ->
  exists w',
    provide_all spaces sid w = Some w'
    /\ concat (chunks_provided (trace w'))
       = concat (chunks_provided (trace w))
         ++ take (Z.to_nat (total spaces))
              (drop (Z.to_nat (frame_offset (ctx w)))
                 (baton_frame (padding_required (ctx w)) (baton (ctx w)))).
Proof.
  induction 1 as [|space spaces Hspace Hspaces IH]; intros w Hsend Hknown Hsid.
  - exists w. split; [reflexivity|]. simpl. rewrite app_nil_r. reflexivity.
  - simpl provide_all.
    rewrite (provide_data_armed space sid w Hsid (proj1 Hsend)).
    destruct (provide_frame_next space sid w Hsend Hspace)
      as (w1 & Hcall & Htrace & Hsize & Hbaton & Hsid' & Hnext);
      [intros Hmax; contradiction|].
    rewrite Hcall.
    assert (Hframe : frame_chosen space (ctx w)
                     = baton_frame (padding_required (ctx w)) (baton (ctx w))).
    { rewrite frame_chosen_choice, choose_padding_later by exact Hknown.
      reflexivity. }
    unfold next_chunk, last_chunk in *. rewrite Hframe in *.
    set (F := baton_frame (padding_required (ctx w)) (baton (ctx w))) in *.
    set (off := Z.to_nat (frame_offset (ctx w))) in *.
    pose proof (total_nonneg spaces Hspaces) as Htotal.
    assert (Hsum : Z.to_nat (total (space :: spaces))
                   = (Z.to_nat space + Z.to_nat (total spaces))%nat)
      by (unfold total in *; simpl; lia).
    rewrite Hsum, <- take_take_drop.
    destruct (Z.of_nat (length F) <=? frame_offset (ctx w) + space) eqn:Hlast.
    + destruct Hnext as (Hidle & _).
      destruct (provide_all_idle spaces sid _ Hidle) as (w' & Hall & _ & Hconcat).
      exists w'. split; [exact Hall|].
      rewrite Hconcat, Htrace, chunks_provided_app, concat_app. simpl.
      rewrite app_nil_r. f_equal.
      apply Z.leb_le in Hlast.
      rewrite (drop_ge (drop off F))
        by (rewrite length_drop; subst off; lia).
      rewrite take_nil, app_nil_r. reflexivity.
    + destruct Hnext as (Hsend' & Hknown' & Hframe' & Hoff').
      destruct (IH _ Hsend' Hknown') as (w' & Hall & Hconcat);
        [rewrite Hsid'; exact Hsid|].
      exists w'. split; [exact Hall|].
      rewrite Hconcat, Htrace.
      rewrite chunks_provided_app, concat_app. simpl. rewrite app_nil_r.
      rewrite <- app_assoc. f_equal. f_equal.
      rewrite Hframe', Hoff', drop_drop. fold F. f_equal. f_equal.
      destruct Hsend as (_ & [[Hmax _]|[_ Hsent]]); [contradiction|].
      subst off. unfold frame_offset.
      apply Z.eqb_neq in Hknown. rewrite Hknown. lia.
Qed.

(** X10.  Each call on the stream that is armed returns 0 and writes the next
    bytes of the frame: as many as it is offered, up to the end of the
    frame; it announces the end of the stream exactly when it writes the
    last byte; until then the encoder goes on sending the same frame, from
    where the call stopped. *)
Theorem provide_data_chunk (space sid : Z) (w : world) :
  sending (ctx w) -> sending_stream_id (ctx w) = sid ->
  0 <= space < 9223372036854775808 ->
  (padding_required (ctx w) = UINT64_MAX -> 1 <= space) ->
  let chunk := next_chunk space (ctx w) in
  let is_last := last_chunk space (ctx w) in
  exists w',
    wt_baton_provide_data space sid w = Some (0, w')
    /\ trace w'
       = trace w
         ++ [Call_provide_stream_data_buffer (Z.of_nat (length chunk)) is_last
               (negb is_last) chunk]
    /\ Z.of_nat (length chunk) <= space
    /\ baton (ctx w') = baton (ctx w)
    /\ (if is_last then
          is_sending (ctx w') = false
          /\ baton_state (ctx w') = wt_baton_state_sent
          /\ receive_ready (ctx w')
        else
          sending (ctx w')
          /\ sending_stream_id (ctx w') = sid
          /\ frame_chosen space (ctx w') = frame_chosen space (ctx w)
          /\ frame_offset (ctx w') = frame_offset (ctx w) + space).
Proof.
  intros Hsend Hsid Hspace Hfirst chunk is_last. subst chunk is_last.
  rewrite (provide_data_armed space sid w Hsid (proj1 Hsend)).
  destruct (provide_frame_next space sid w Hsend Hspace Hfirst)
    as (w' & Hret & Htrace & Hsize & Hbaton & Hsid' & Hnext).
  exists w'.
  split; [exact Hret|]. split; [exact Htrace|]. split; [exact Hsize|].
  split; [exact Hbaton|].
  destruct (last_chunk space (ctx w)); [exact Hnext|].
  destruct Hnext as (Hsend' & Hknown' & Hframe' & Hoff').
  split; [exact Hsend'|]. split; [rewrite Hsid'; exact Hsid|].
  split; [|exact Hoff'].
  rewrite (frame_chosen_choice space (ctx w')).
  rewrite (choose_padding_later space _ Hknown'). exact Hframe'.
Qed.

(** The first call on the armed stream 4, offered 100 bytes: the length
    0x3FFF on two bytes and 98 bytes of padding. *)
Lemma provide_data_chunk_witness :
  exists w',
    wt_baton_provide_data 100 4 (armed_server 127) = Some (0, w')
    /\ trace w'
       = trace (armed_server 127)
         ++ [Call_provide_stream_data_buffer 100 false true
               ([0x7F; 0xFF] ++ replicate 98 0)]
    /\ sending (ctx w').
Proof.
  destruct (provide_data_chunk 100 4 (armed_server 127))
    as (w' & Hret & Htrace & _ & _ & Hnext);
    [split; [reflexivity|left; split; reflexivity]|reflexivity|lia
    |intros _; lia|].
  exists w'. split; [exact Hret|]. split; [exact Htrace|].
  exact (proj1 Hnext).
Defined.

(** Calls in a row from the first call for a frame on. *)
Lemma provide_all_first (space : Z) (spaces : list Z) (sid : Z) (w : world) :
  sending (ctx w) -> padding_required (ctx w) = UINT64_MAX ->
  sending_stream_id (ctx w) = sid ->
  1 <= space ->
  Forall (fun space => 0 <= space < 9223372036854775808) (space :: spaces) ->
  exists w',
    provide_all (space :: spaces) sid w = Some w'
    /\ concat (chunks_provided (trace w'))
       = concat (chunks_provided (trace w))
         ++ take (Z.to_nat (total (space :: spaces))) (frame_chosen space (ctx w)).
Proof.
  intros Hsend Hmax Hsid Hone Hall.
  apply Forall_cons in Hall as [Hspace Hspaces].
  simpl provide_all.
  rewrite (provide_data_armed space sid w Hsid (proj1 Hsend)).
  destruct (provide_frame_next space sid w Hsend Hspace)
    as (w1 & Hcall & Htrace & Hsize & Hbaton & Hsid' & Hnext);
    [intros _; exact Hone|].
  rewrite Hcall.
  assert (Hoff : frame_offset (ctx w) = 0)
    by (unfold frame_offset; rewrite Hmax; reflexivity).
  unfold next_chunk, last_chunk in *. rewrite Hoff in *.
  change (Z.to_nat 0) with 0%nat in *. rewrite drop_0 in *.
  set (F := frame_chosen space (ctx w)) in *.
  pose proof (total_nonneg spaces Hspaces) as Htotal.
  assert (Hsum : Z.to_nat (total (space :: spaces))
                 = (Z.to_nat space + Z.to_nat (total spaces))%nat)
    by (unfold total in *; simpl; lia).
  rewrite Hsum, <- take_take_drop.
  destruct (Z.of_nat (length F) <=? 0 + space) eqn:Hlast.
  - destruct Hnext as (Hidle & _).
    destruct (provide_all_idle spaces sid _ Hidle) as (w' & Hrest & _ & Hconcat).
    exists w'. split; [exact Hrest|].
    rewrite Hconcat, Htrace, chunks_provided_app, concat_app. simpl.
    rewrite app_nil_r. f_equal.
    apply Z.leb_le in Hlast.
    rewrite (drop_ge F) by lia.
    rewrite take_nil, app_nil_r. reflexivity.
  - destruct Hnext as (Hsend' & Hknown' & Hframe' & Hoff').
    destruct (provide_all_committed spaces sid Hspaces _ Hsend' Hknown')
      as (w' & Hrest & Hconcat); [rewrite Hsid'; exact Hsid|].
    exists w'. split; [exact Hrest|].
    rewrite Hconcat, Htrace.
    rewrite chunks_provided_app, concat_app. simpl. rewrite app_nil_r.
    rewrite <- app_assoc. f_equal. f_equal.
    rewrite Hframe', Hoff'. reflexivity.
Qed.

(** X11.  Calls in a row on the stream that is armed, from the first call for a
    frame on, the first of them offered at least one byte: every call has
    a result, and the bytes they write, put end to end, are the first bytes
    of the frame chosen by the first call, as many as the calls are offered
    in total; once that total reaches the length of the frame, the frame is
    written in full, and no byte follows it. *)
Theorem provide_data_frame (space : Z) (spaces : list Z) (sid : Z) (w : world) :
  sending (ctx w) -> padding_required (ctx w) = UINT64_MAX ->
  sending_stream_id (ctx w) = sid ->
  1 <= space ->
  Forall (fun space => 0 <= space < 9223372036854775808) (space :: spaces) ->
  let frame := frame_chosen space (ctx w) in
  exists w',
    provide_all (space :: spaces) sid w = Some w'
    /\ concat (chunks_provided (trace w'))
       = concat (chunks_provided (trace w))
         ++ take (Z.to_nat (total (space :: spaces))) frame
    /\ (Z.of_nat (length frame) <= total (space :: spaces) ->
        concat (chunks_provided (trace w'))
        = concat (chunks_provided (trace w)) ++ frame).
Proof.
  intros Hsend Hmax Hsid Hone Hall frame.
  destruct (provide_all_first space spaces sid w Hsend Hmax Hsid Hone Hall)
    as (w' & Hcalls & Hprefix).
  fold frame in Hprefix.
  exists w'. split; [exact Hcalls|]. split; [exact Hprefix|].
  intros Hfull. rewrite Hprefix, take_ge by lia. reflexivity.
Qed.

(** Three calls that are offered 1, 20 and 100 bytes write the frame of
    the baton 43 with 0x3F bytes of padding. *)
Lemma provide_data_frame_witness :
  exists w',
    provide_all [1; 20; 100] 4 (armed_server 127) = Some w'
    /\ concat (chunks_provided (trace w')) = baton_frame 0x3F 43.
Proof.
  destruct (provide_data_frame 1 [20; 100] 4 (armed_server 127))
    as (w' & Hcalls & _ & Hfull);
    [split; [reflexivity|left; split; reflexivity]|reflexivity|reflexivity
    |lia|repeat constructor; lia|].
  exists w'. split; [exact Hcalls|].
  apply Hfull. vm_compute. discriminate.
Defined.

(** X14.  The frame that one side writes on a stream, in however many calls, is
    decoded by the other side to the baton that was sent: delivered range
    by range as it was written, it leaves the decoder with that baton and
    no longer receiving. *)
Theorem baton_round_trip (space : Z) (spaces : list Z) (sid rid : Z)
    (sender sender' receiver : world) (chunks : list (list Z)) :
  sending (ctx sender) -> padding_required (ctx sender) = UINT64_MAX ->
  sending_stream_id (ctx sender) = sid ->
  1 <= space ->
  Forall (fun space => 0 <= space < 9223372036854775808) (space :: spaces) ->
  Z.of_nat (length (frame_chosen space (ctx sender))) <= total (space :: spaces) ->
  provide_all (space :: spaces) sid sender = Some sender' ->
  chunks_provided (trace sender') = chunks_provided (trace sender) ++ chunks ->
  relay_stream rid receiver -> receive_ready (ctx receiver) ->
  let r := deliver (without_fin chunks) rid (0, receiver) in
  fst r = 0
  /\ baton_received (ctx (snd r)) = baton (ctx sender)
  /\ is_receiving (ctx (snd r)) = false.
Proof.
  intros Hsend Hmax Hsid Hone Hall Hfull Hcalls Hchunks Hrelay Hready r.
  destruct (provide_all_first space spaces sid sender Hsend Hmax Hsid Hone Hall)
    as (w' & Hcalls' & Hwritten).
  rewrite Hcalls in Hcalls'. injection Hcalls' as <-.
  rewrite take_ge in Hwritten by lia.
  rewrite Hchunks, concat_app in Hwritten.
  apply app_inv_head in Hwritten.
  destruct (choose_padding_sending space (ctx sender) Hsend (fun _ => Hone))
    as (c1 & pll & Hchoose & _ & _ & _ & _ & Hcommitted & _).
  destruct (committed_length _ Hcommitted) as (HP & _).
  rewrite frame_chosen_choice, Hchoose in Hwritten. simpl in Hwritten.
  set (P := padding_required c1) in *.
  set (b := baton (ctx sender)) in *.
  pose proof (frame_length P b) as Hlen.
  subst r.
  rewrite (deliver_cut_start P b rid HP receiver chunks Hrelay Hready)
    by (rewrite Hwritten; first [lia | rewrite take_ge by lia; reflexivity]).
  rewrite Hwritten. simpl. rewrite decoder_at_baton by lia.
  repeat split.
Qed.

(** The frame that the armed server writes in three calls, read by a
    server that is ready to receive on stream 2. *)
Lemma baton_round_trip_witness :
  baton_received
    (ctx (snd (deliver
                 (without_fin [[63]; replicate 20 0; replicate 43 0 ++ [43]])
                 2 (0, sample_server 41 3 127))))
  = 43.
Proof.
  destruct (baton_round_trip 1 [20; 100] 4 2 (armed_server 127) sent_server
              (sample_server 41 3 127)
              [[63]; replicate 20 0; replicate 43 0 ++ [43]])
    as (_ & Hbaton & _);
    [split; [reflexivity|left; split; reflexivity]|reflexivity|reflexivity
    |lia|repeat constructor; lia|vm_compute; discriminate
    |vm_compute; reflexivity|vm_compute; reflexivity
    |sample_relay_stream|repeat split|].
  exact Hbaton.
Defined.

(** ** Datagrams written and read *)

Lemma datagram_prefix pl :
  0 <= pl < 16384 ->
  u8 (Z.lor 0x40 (Z.land (Z.shiftr pl 8) 0x3F)) = 64 + pl / 256
  /\ u8 (Z.land pl 0xFF) = pl mod 256.
Proof.
  intros Hpl.
  assert (Hh : 0 <= pl / 256 < 64).
  { split; [apply Z.div_pos; lia|apply Z.div_lt_upper_bound; lia]. }
  pose proof (long_first_byte_ok _ Hh) as Hok. unfold long_first_byte in Hok.
  apply andb_prop in Hok as [Hok _]. apply andb_prop in Hok as [Hok _].
  apply andb_prop in Hok as [_ Hb0%Z.eqb_eq].
  split.
  - rewrite Z.shiftr_div_pow2 by lia. change (2 ^ 8) with 256.
    rewrite Hb0. lia.
  - change 255 with (Z.ones 8). rewrite Z.land_ones by lia.
    change (2 ^ 8) with 256. unfold u8. apply Z.mod_mod. lia.
Qed.

(** A datagram written by [wt_baton_provide_datagram] is well formed, and
    carries its baton. *)
Lemma datagram_baton_long (size b : Z) :
  3 <= size <= 1536 -> datagram_baton (baton_datagram size b) = Some b.
Proof.
  intros Hsize. unfold datagram_baton, baton_datagram.
  assert (Hh : 0 <= (size - 3) / 256 < 64).
  { split; [apply Z.div_pos; lia|apply Z.div_lt_upper_bound; lia]. }
  simpl app. rewrite (Z.add_comm 64).
  rewrite (varint_decode_long _ _ _ Hh).
  replace ((size - 3) / 256 * 256 + (size - 3) mod 256) with (size - 3)
    by (pose proof (Z.div_mod (size - 3) 256); lia).
  unfold picoquic_frames_fixed_skip.
  rewrite length_app, length_replicate. simpl length.
  rewrite (proj2 (Z.leb_le _ _)) by lia.
  rewrite drop_app_length'; [reflexivity|symmetry; apply length_replicate].
Qed.

(** The call that sends an armed datagram. *)
Lemma provide_datagram_sent (space : Z) (w : world) :
  is_datagram_ready (ctx w) = true ->
  3 <= space -> datagram_buffer (cnx w) = true ->
  wt_baton_provide_datagram space w
  = (0, upd_ctx (datagram_sent (Z.min space 1536))
          (emit (Call_provide_datagram_buffer
                   (baton_datagram (Z.min space 1536)
                      (baton_datagram_send_next (ctx w)))) w)).
Proof.
  intros Hready Hspace Hbuffer.
  unfold wt_baton_provide_datagram. rewrite Hready, Hbuffer.
  replace (if 1536 <? space then 1536 else space) with (Z.min space 1536)
    by (destruct (Z.ltb_spec 1536 space); lia).
  rewrite (proj2 (Z.ltb_ge (Z.min space 1536) 3)) by lia. simpl negb. cbv iota.
  destruct (datagram_prefix (Z.min space 1536 - 3)) as [Hb0 Hb1]; [lia|].
  rewrite Hb0, Hb1. reflexivity.
Qed.

Lemma baton_datagram_length size b :
  3 <= size -> Z.of_nat (length (baton_datagram size b)) = size.
Proof.
  intros Hsize. unfold baton_datagram.
  rewrite !length_app, length_replicate. simpl. lia.
Qed.

(** X16.  An armed datagram goes out when at least three bytes are offered and
    the transport has a buffer: it fills the space offered, up to 1536
    bytes, with a padding length on two bytes, the padding and the baton
    that armed it; the datagram is counted and disarmed, so that no call
    sends another until a baton arms one again. *)
Theorem provide_datagram_frame (space : Z) (w : world) :
  is_datagram_ready (ctx w) = true ->
  3 <= space -> datagram_buffer (cnx w) = true ->
  let size := Z.min space 1536 in
  let datagram := baton_datagram size (baton_datagram_send_next (ctx w)) in
  let w' := snd (wt_baton_provide_datagram space w) in
  fst (wt_baton_provide_datagram space w) = 0
  /\ trace w' = trace w ++ [Call_provide_datagram_buffer datagram]
  /\ Z.of_nat (length datagram) = size
  /\ size <= space /\ size <= 1536
  /\ is_datagram_ready (ctx w') = false
  /\ baton_datagram_send_next (ctx w') = 0
  /\ nb_datagrams_sent (ctx w') = s32 (nb_datagrams_sent (ctx w) + 1)
  /\ nb_datagram_bytes_sent (ctx w') = u64 (nb_datagram_bytes_sent (ctx w) + size)
  /\ ctx w' = datagram_sent size (ctx w)
  /\ streams w' = streams w
  /\ forall space', wt_baton_provide_datagram space' w' = (0, w').
Proof.
  intros Hready Hspace Hbuffer size datagram w'.
  subst w'. rewrite (provide_datagram_sent space w Hready Hspace Hbuffer).
  simpl.
  split; [reflexivity|]. split; [reflexivity|].
  split; [apply baton_datagram_length; lia|].
  split; [apply Z.le_min_l|]. split; [apply Z.le_min_r|].
  do 6 (split; [reflexivity|]).
  intros space'. reflexivity.
Qed.

(** The datagram armed by the baton 42, in ten bytes. *)
Lemma provide_datagram_frame_witness :
  trace (snd (wt_baton_provide_datagram 10 (armed_server 127)))
  = trace (armed_server 127)
    ++ [Call_provide_datagram_buffer [64; 7; 0; 0; 0; 0; 0; 0; 0; 42]].
Proof.
  destruct (provide_datagram_frame 10 (armed_server 127))
    as (_ & Htrace & _); [reflexivity|lia|reflexivity|].
  exact Htrace.
Defined.

(** X17.  The datagram that one side writes is accepted by the other, on the
    control stream of the session or on no stream: it records the baton
    that armed the datagram, and counts the datagram and its bytes. *)
Theorem datagram_round_trip (space : Z) (sender receiver : world)
    (stream_ctx : option Z) (datagram : list Z) :
  is_datagram_ready (ctx sender) = true ->
  3 <= space -> datagram_buffer (cnx sender) = true ->
  trace (snd (wt_baton_provide_datagram space sender))
  = trace sender ++ [Call_provide_datagram_buffer datagram] ->
  datagram_expected stream_ctx receiver = true ->
  let r := wt_baton_receive_datagram datagram stream_ctx receiver in
  fst r = 0
  /\ baton_datagram_received (ctx (snd r)) = baton_datagram_send_next (ctx sender)
  /\ nb_datagrams_received (ctx (snd r))
     = s32 (nb_datagrams_received (ctx receiver) + 1)
  /\ nb_datagram_bytes_received (ctx (snd r))
     = u64 (nb_datagram_bytes_received (ctx receiver) + Z.min space 1536)
  /\ snd r
     = upd_ctx (datagram_recorded (baton_datagram_send_next (ctx sender))
                  (Z.min space 1536)) receiver.
Proof.
  intros Hready Hspace Hbuffer Hsent Hexpected r.
  rewrite (provide_datagram_sent space sender Hready Hspace Hbuffer) in Hsent.
  simpl in Hsent. apply app_inv_head in Hsent.
  injection Hsent as <-.
  subst r. rewrite receive_datagram_cases.
  rewrite datagram_baton_long by lia.
  rewrite Hexpected, baton_datagram_length by lia. repeat split.
Qed.

(** That datagram, received on the control stream of a server. *)
Lemma datagram_round_trip_witness :
  baton_datagram_received
    (ctx (snd (wt_baton_receive_datagram [64; 7; 0; 0; 0; 0; 0; 0; 0; 42]
                 (Some 0) (sample_server 41 3 127))))
  = 42.
Proof.
  destruct (datagram_round_trip 10 (armed_server 127) (sample_server 41 3 127)
              (Some 0) [64; 7; 0; 0; 0; 0; 0; 0; 0; 42])
    as (_ & Hbaton & _);
    [reflexivity|lia|reflexivity|vm_compute; reflexivity|reflexivity|].
  exact Hbaton.
Defined.

(** ** Closing twice *)

(** A close with a reason of its own: what it returns, what it sends,
    and the fields of the context that it leaves as they are. *)
Lemma close_session_sends err msg w :
  let r := wt_baton_close_session err (Some msg) w in
  fst r = (if control_stream_open w then send_close_ret (cnx w) err else 0)
  /\ trace (snd r)
     = trace w
       ++ (if control_stream_open w then
             [Call_send_close_session_message (control_stream_id (ctx w)) err
                (Some msg)]
           else [])
  /\ baton_state (ctx (snd r))
     = (if control_stream_open w then wt_baton_state_closed
        else baton_state (ctx w))
  /\ baton_received (ctx (snd r)) = baton_received (ctx w)
  /\ nb_baton_bytes_received (ctx (snd r)) = nb_baton_bytes_received (ctx w)
  /\ is_receiving (ctx (snd r)) = is_receiving (ctx w)
  /\ baton (ctx (snd r)) = baton (ctx w).
Proof.
  destruct (control_stream_open w) eqn:Hopen; cbv zeta.
  - rewrite (close_session_open _ _ _ Hopen). repeat split.
  - rewrite (close_session_finished _ _ _ Hopen). simpl.
    rewrite app_nil_r. repeat split.
Qed.

(** X1.  Closing is done at most once.  On a control stream that is open, the
    close sends one message, with the code and the reason given or the
    reason that goes with the code, returns what the transport answers and
    leaves the state closed; on a control stream that is missing or
    finished it returns 0 and changes nothing, not even the state.  After
    any close, a second close, whatever its code and reason, returns 0 and
    changes nothing. *)
Theorem close_session_once (err1 err2 : Z) (msg1 msg2 : option string)
    (w : world) :
  let r1 := wt_baton_close_session err1 msg1 w in
  let r2 := wt_baton_close_session err2 msg2 (snd r1) in
  r2 = (0, snd r1)
  /\ (control_stream_open w = false -> r1 = (0, w))
  /\ (control_stream_open w = true ->
      fst r1 = send_close_ret (cnx w) err1
      /\ baton_state (ctx (snd r1)) = wt_baton_state_closed
      /\ trace (snd r1) = trace w ++ [close_message err1 msg1 w]
      /\ control_stream_open (snd r1) = false).
Proof.
  intros r1 r2. subst r1 r2.
  split; [apply close_session_twice|].
  split.
  - intros Hfinished. apply close_session_finished, Hfinished.
  - intros Hopen. rewrite (close_session_open err1 msg1 w Hopen). simpl.
    repeat split. apply closed_world_finished, Hopen.
Qed.

(** ** A dispatch that finds no stream *)

Lemma relay_route stream_ctx w :
  relay_next_stream stream_ctx w
  = match route_relay_game stream_ctx (is_client (ctx w)) with
    | Route_new_unidir => relay_new_stream false h3zero_stream_type_webtransport w
    | Route_new_bidir => relay_new_stream true h3zero_frame_webtransport_stream w
    | Route_same_stream sid => (0, Some sid, w)
    end.
Proof.
  unfold relay_next_stream, route_relay_game.
  destruct stream_ctx as [sid|]; [|reflexivity].
  destruct (IS_BIDIR_STREAM_ID sid);
    [destruct (IS_LOCAL_STREAM_ID sid (is_client (ctx w)))|]; reflexivity.
Qed.

Lemma relay_new_stream_route stream_ctx w id :
  relay_stream_id stream_ctx w = Some id ->
  exists is_bidir,
    relay_next_stream stream_ctx w
    = relay_new_stream is_bidir (relay_tag stream_ctx w) w
    /\ picoquic_get_next_local_stream_id w (negb is_bidir) = id.
Proof.
  unfold relay_stream_id, relay_tag. rewrite relay_route.
  destruct (route_relay_game stream_ctx (is_client (ctx w)));
    intros [= <-]; [exists false|exists true]; split; reflexivity.
Qed.

(** X2.  When the route needs a new stream and no context can be had for it,
    the dispatch returns -1 and leaves the world as it is: no turn is
    counted and nothing is armed.  When the context is had and the
    transport refuses the header, the dispatch returns the code of the
    transport; no turn is counted and nothing is armed, but the stream
    stays in the stream tree, bound to the session and without callback. *)
Theorem relay_without_stream (stream_ctx : option Z) (w : world) (id : Z) :
  relay_stream_id stream_ctx w = Some id ->
  streams w !! id = None ->
  (stream_ctx_alloc (cnx w) id = false -> wt_baton_relay stream_ctx w = (-1, w))
  /\ (stream_ctx_alloc (cnx w) id = true ->
      add_to_stream_ret (cnx w) id <> 0 ->
      let r := wt_baton_relay stream_ctx w in
      fst r = add_to_stream_ret (cnx w) id
      /\ ctx (snd r) = ctx w
      /\ (exists header,
            trace (snd r) = trace w ++ [Call_add_to_stream id header false]
            /\ header_of (relay_tag stream_ctx w) (control_stream_id (ctx w))
                 header)
      /\ streams (snd r)
         = <[id := mk_stream_ctx id (control_stream_id (ctx w)) false false false]>
             (streams w)).
Proof.
  intros Hroute Hfresh.
  destruct (relay_new_stream_route stream_ctx w id Hroute)
    as (is_bidir & Hnext & Hid).
  unfold wt_baton_relay. rewrite Hnext. split.
  - intros Halloc. unfold relay_new_stream, wt_baton_create_stream,
      h3zero_find_or_create_stream.
    rewrite Hid, Hfresh, Halloc. reflexivity.
  - intros Halloc Hrefused. cbv zeta.
    unfold relay_new_stream.
    pose proof (create_stream_fresh is_bidir w) as Hcreate.
    simpl in Hcreate. rewrite Hid in Hcreate.
    rewrite (Hcreate Hfresh Halloc).
    unfold picoquic_add_to_stream_with_ctx. simpl.
    apply Z.eqb_neq in Hrefused. rewrite Hrefused. simpl.
    split; [reflexivity|]. split; [reflexivity|]. split; [|reflexivity].
    eexists. split; [reflexivity|]. apply header_read_back.
    unfold relay_tag, h3zero_frame_webtransport_stream,
      h3zero_stream_type_webtransport.
    destruct (route_relay_game _ _); lia.
Qed.

(** On a server whose connection has no stream context left, the first
    dispatch of a session returns -1 and changes nothing. *)
Lemma relay_without_stream_witness :
  wt_baton_relay None exhausted_server = (-1, exhausted_server).
Proof.
  destruct (relay_without_stream None exhausted_server 3) as [Hnone _];
    [reflexivity|reflexivity|].
  apply Hnone. reflexivity.
Defined.

(** ** What the check records *)

Lemma datagram_calls_app t1 t2 :
  datagram_calls (t1 ++ t2) = datagram_calls t1 ++ datagram_calls t2.
Proof. apply omap_app. Qed.

Lemma close_session_datagram_calls err err_msg w :
  datagram_calls (trace (snd (wt_baton_close_session err err_msg w)))
  = datagram_calls (trace w).
Proof.
  destruct (close_session_effect err err_msg w) as [Htrace _].
  rewrite Htrace, datagram_calls_app.
  destruct (control_stream_open w); apply app_nil_r.
Qed.

Lemma relay_new_stream_datagram_calls is_bidir tag w :
  datagram_calls (trace (snd (relay_new_stream is_bidir tag w)))
  = datagram_calls (trace w).
Proof.
  unfold relay_new_stream.
  destruct (create_stream_ctx is_bidir w) as [_ Ht].
  destruct (wt_baton_create_stream is_bidir w) as [[sid|] w1]; simpl in *.
  - rewrite datagram_calls_app, Ht. apply app_nil_r.
  - rewrite Ht. reflexivity.
Qed.

Lemma relay_datagram_calls stream_ctx w :
  datagram_calls (trace (snd (wt_baton_relay stream_ctx w)))
  = datagram_calls (trace w).
Proof.
  unfold wt_baton_relay. rewrite relay_route.
  assert (Harm : forall sid w1,
    datagram_calls (trace (snd (relay_arm sid w1))) = datagram_calls (trace w1)).
  { intros sid w1. unfold relay_arm, picoquic_mark_active_stream. simpl.
    rewrite datagram_calls_app. apply app_nil_r. }
  assert (Hnew : forall is_bidir tag,
    datagram_calls
      (trace (snd (match relay_new_stream is_bidir tag w with
                   | (ret, Some sid, w1) =>
                       if ret =? 0 then relay_arm sid w1 else (ret, w1)
                   | (ret, None, w1) => (ret, w1)
                   end)))
    = datagram_calls (trace w)).
  { intros is_bidir tag.
    pose proof (relay_new_stream_datagram_calls is_bidir tag w) as Hn.
    destruct (relay_new_stream is_bidir tag w) as [[ret [sid|]] w1];
      simpl in Hn; [|exact Hn].
    destruct (ret =? 0); [rewrite Harm|]; exact Hn. }
  destruct (route_relay_game stream_ctx (is_client (ctx w))) as [| |sid].
  - apply Hnew.
  - apply Hnew.
  - simpl. apply Harm.
Qed.

(** The fields that a dispatch and a close leave alone. *)
Lemma relay_records stream_ctx w :
  let c' := ctx (snd (wt_baton_relay stream_ctx w)) in
  first_baton c' = first_baton (ctx w)
  /\ is_datagram_ready c' = is_datagram_ready (ctx w)
  /\ baton_datagram_send_next c' = baton_datagram_send_next (ctx w).
Proof.
  destruct (relay_ctx stream_ctx w) as [[H|[sid H]] _]; simpl; rewrite H;
    repeat split.
Qed.

Lemma close_session_records err err_msg w :
  let c' := ctx (snd (wt_baton_close_session err err_msg w)) in
  first_baton c' = first_baton (ctx w)
  /\ is_datagram_ready c' = is_datagram_ready (ctx w)
  /\ baton_datagram_send_next c' = baton_datagram_send_next (ctx w).
Proof.
  destruct (close_session_ctx err err_msg w) as [H|H]; simpl; rewrite H;
    repeat split.
Qed.

Lemma check_next_baton_records c :
  first_baton (check_next_baton c) = first_baton c
  /\ is_datagram_ready (check_next_baton c) = is_datagram_ready c
  /\ baton_datagram_send_next (check_next_baton c) = baton_datagram_send_next c.
Proof.
  unfold check_next_baton. simpl.
  repeat match goal with |- context [if ?b then _ else _] => destruct b end;
    simpl; repeat split.
Qed.

(** The three ways of a check. *)
Lemma check_cases sid w :
  wt_baton_check sid w
  = if baton_received (ctx w) =? 0 then
      wt_baton_close_session 0 None (zero_checked sid w)
    else if wrong_baton (ctx w) then
      wt_baton_close_session WT_BATON_SESSION_ERR_BRUH None
        (upd_ctx (set_baton_state wt_baton_state_error) w)
    else wt_baton_relay (Some sid) (checked_world w).
Proof.
  unfold wt_baton_check, zero_checked, checked_world, wrong_baton.
  destruct (baton_received (ctx w) =? 0); [reflexivity|].
  destruct (state_eqb (baton_state (ctx w)) wt_baton_state_sent) eqn:Hsent;
    [|reflexivity].
  simpl. destruct (negb _); [|reflexivity].
  assert (Hready : state_eqb (baton_state (ctx w)) wt_baton_state_ready = false)
    by (destruct (baton_state (ctx w)); try discriminate; reflexivity).
  rewrite Hready. reflexivity.
Qed.

(** X3.  The first baton of a session is recorded once: by the check of the
    first baton that is not 0, in a session that is ready and has recorded
    none.  No other check changes it. *)
Theorem check_first_baton (sid : Z) (w : world) :
  let c := ctx w in
  first_baton (ctx (snd (wt_baton_check sid w)))
  = if negb (baton_received c =? 0)
       && state_eqb (baton_state c) wt_baton_state_ready
       && (first_baton c =? 0)
    then baton_received c
    else first_baton c.
Proof.
  intros c. subst c. rewrite check_cases.
  destruct (baton_received (ctx w) =? 0) eqn:Hzero; simpl.
  - destruct (close_session_records 0 None (zero_checked sid w)) as (-> & _).
    destruct (zero_checked_world sid w) as (-> & _). reflexivity.
  - destruct (wrong_baton (ctx w)) eqn:Hwrong.
    + destruct (close_session_records WT_BATON_SESSION_ERR_BRUH None
                  (upd_ctx (set_baton_state wt_baton_state_error) w))
        as (-> & _).
      simpl. unfold wrong_baton in Hwrong.
      apply andb_prop in Hwrong as [Hsent _].
      destruct (baton_state (ctx w)); try discriminate; reflexivity.
    + destruct (relay_records (Some sid) (checked_world w)) as (-> & _).
      unfold checked_world. simpl.
      destruct (check_next_baton_records
                  (ctx (check_arm_datagram
                          (if state_eqb (baton_state (ctx w)) wt_baton_state_ready
                              && (first_baton (ctx w) =? 0)
                           then upd_ctx (set_first_baton (baton_received (ctx w))) w
                           else w)))) as (-> & _).
      unfold check_arm_datagram, h3zero_set_datagram_ready.
      destruct (state_eqb (baton_state (ctx w)) wt_baton_state_ready
                && (first_baton (ctx w) =? 0));
        simpl; destruct (_ && _); reflexivity.
Qed.

(** X4.  A check arms a datagram exactly when the baton is neither zero nor
    wrong and its remainder modulo 7 is the client mode of the connection:
    0 on a server, 1 on a client.  The datagram then carries the baton
    received, and h3zero is told once that a datagram is ready on the
    control stream.  In every other case the datagram fields are left as
    they are and h3zero is told nothing. *)
Theorem check_arms_datagram (sid : Z) (w : world) :
  let c := ctx w in
  let w' := snd (wt_baton_check sid w) in
  is_datagram_ready (ctx w') = arms_datagram w || is_datagram_ready c
  /\ baton_datagram_send_next (ctx w')
     = (if arms_datagram w then baton_received c
        else baton_datagram_send_next c)
  /\ datagram_calls (trace w')
     = datagram_calls (trace w)
       ++ (if arms_datagram w then [control_stream_id c] else []).
Proof.
  intros c w'. subst c w'. unfold arms_datagram. rewrite check_cases.
  destruct (baton_received (ctx w) =? 0) eqn:Hzero; simpl.
  - destruct (close_session_records 0 None (zero_checked sid w))
      as (_ & -> & ->).
    rewrite close_session_datagram_calls.
    destruct (zero_checked_world sid w) as (-> & -> & _).
    rewrite datagram_calls_app, app_nil_r. simpl.
    destruct (_ && _); simpl; rewrite ?app_nil_r; repeat split.
  - destruct (wrong_baton (ctx w)) eqn:Hwrong; simpl.
    + destruct (close_session_records WT_BATON_SESSION_ERR_BRUH None
                  (upd_ctx (set_baton_state wt_baton_state_error) w))
        as (_ & -> & ->).
      rewrite close_session_datagram_calls. simpl. rewrite app_nil_r.
      repeat split.
    + destruct (relay_records (Some sid) (checked_world w)) as (_ & -> & ->).
      rewrite relay_datagram_calls.
      unfold checked_world. simpl.
      set (w1 := if state_eqb (baton_state (ctx w)) wt_baton_state_ready
                    && (first_baton (ctx w) =? 0)
                 then upd_ctx (set_first_baton (baton_received (ctx w))) w
                 else w).
      destruct (check_next_baton_records (ctx (check_arm_datagram w1)))
        as (_ & -> & ->).
      assert (Hw1 : baton_received (ctx w1) = baton_received (ctx w)
                    /\ is_datagram_ready (ctx w1) = is_datagram_ready (ctx w)
                    /\ baton_datagram_send_next (ctx w1)
                       = baton_datagram_send_next (ctx w)
                    /\ control_stream_id (ctx w1) = control_stream_id (ctx w)
                    /\ cnx w1 = cnx w /\ trace w1 = trace w).
      { subst w1. destruct (_ && _); repeat split. }
      destruct Hw1 as (Hr & Hd & Hn & Hc & Hq & Ht).
      unfold check_arm_datagram, h3zero_set_datagram_ready, picoquic_is_client.
      rewrite Hr, Hq, Hzero. simpl. rewrite andb_true_r.
      destruct (baton_received (ctx w) mod 7 =? client_mode (cnx w)); simpl.
      * rewrite datagram_calls_app, Ht, Hr, Hc. repeat split.
      * rewrite Ht, Hd, Hn, app_nil_r. repeat split.
Qed.

(** ** What no event changes *)

Lemma same_session_refl c : same_session c c.
Proof. repeat split. Qed.

Lemma same_session_trans c1 c2 c3 :
  same_session c1 c2 -> same_session c2 c3 -> same_session c1 c3.
Proof.
  intros (H1 & H2 & H3 & H4) (G1 & G2 & G3 & G4).
  repeat split; congruence.
Qed.

Lemma close_session_same err err_msg w :
  same_session (ctx w) (ctx (snd (wt_baton_close_session err err_msg w))).
Proof.
  destruct (close_session_ctx err err_msg w) as [H|H]; rewrite H; repeat split.
Qed.

Lemma relay_same stream_ctx w :
  same_session (ctx w) (ctx (snd (wt_baton_relay stream_ctx w))).
Proof.
  destruct (relay_ctx stream_ctx w) as [[H|[sid H]] _]; rewrite H; repeat split.
Qed.

Lemma check_next_baton_same c : same_session c (check_next_baton c).
Proof.
  unfold check_next_baton. simpl.
  repeat match goal with |- context [if ?b then _ else _] => destruct b end;
    repeat split.
Qed.

Lemma check_same sid w :
  same_session (ctx w) (ctx (snd (wt_baton_check sid w))).
Proof.
  rewrite check_cases.
  destruct (baton_received (ctx w) =? 0).
  - eapply same_session_trans; [|apply close_session_same].
    destruct (zero_checked_world sid w) as (-> & _). repeat split.
  - destruct (wrong_baton (ctx w)).
    + eapply same_session_trans; [|apply close_session_same]. repeat split.
    + eapply same_session_trans; [|apply relay_same].
      unfold checked_world. simpl.
      eapply same_session_trans; [|apply check_next_baton_same].
      unfold check_arm_datagram, h3zero_set_datagram_ready.
      destruct (state_eqb (baton_state (ctx w)) wt_baton_state_ready
                && (first_baton (ctx w) =? 0));
        simpl; destruct (_ && _); repeat split.
Qed.

Lemma read_padding_length_same rest :
  forall c p, same_session c (fst (read_padding_length rest c p)).
Proof.
  induction rest as [|b rest IH]; intros c p; simpl.
  - destruct (padding_expected c =? UINT64_MAX); apply same_session_refl.
  - destruct (padding_expected c =? UINT64_MAX); [|apply same_session_refl].
    destruct (_ && _).
    + simpl. destruct (picoquic_frames_varint_decode _) as [[tl v]|];
        repeat split.
    + eapply same_session_trans; [|apply IH]. repeat split.
Qed.

Lemma skip_padding_same len c p :
  same_session c (fst (skip_padding len c p)).
Proof.
  unfold skip_padding.
  destruct (_ && _); [|apply same_session_refl].
  destruct (_ <? _); repeat split.
Qed.

Lemma read_baton_same bytes len p w :
  same_session (ctx w) (ctx (snd (read_baton bytes len p w))).
Proof.
  unfold read_baton.
  destruct (_ && _); [|apply same_session_refl].
  destruct (_ || _); [apply close_session_same|repeat split].
Qed.

Lemma stream_data_bytes_same bytes sid w :
  same_session (ctx w) (ctx (snd (stream_data_bytes bytes sid w))).
Proof.
  unfold stream_data_bytes.
  set (w1 := if receiving_stream_id (ctx w) =? UINT64_MAX then _ else w).
  assert (H1 : same_session (ctx w) (ctx w1))
    by (subst w1; destruct (_ =? _); repeat split).
  destruct (negb _).
  - eapply same_session_trans; [exact H1|apply close_session_same].
  - set (c2 := ctx (upd_ctx _ w1)).
    assert (H2 : same_session (ctx w) c2)
      by (eapply same_session_trans; [exact H1|]; subst c2; repeat split).
    pose proof (read_padding_length_same bytes c2 0) as H3.
    destruct (read_padding_length bytes c2 0) as [c3 p3]. simpl in H3.
    pose proof (skip_padding_same (Z.of_nat (length bytes)) c3 p3) as H4.
    destruct (skip_padding _ c3 p3) as [c4 p4]. simpl in H4.
    eapply same_session_trans; [|apply read_baton_same]. simpl.
    eapply same_session_trans; [exact H2|].
    eapply same_session_trans; [exact H3|exact H4].
Qed.

Lemma stream_data_fin_same sid w :
  same_session (ctx w) (ctx (snd (stream_data_fin sid w))).
Proof.
  unfold stream_data_fin.
  set (r := if is_receiving (ctx w) then _ else _).
  assert (Hr : same_session (ctx w) (ctx (snd r)))
    by (subst r; destruct (is_receiving (ctx w));
        [apply close_session_same|apply check_same]).
  destruct r as [ret w1]. simpl in Hr.
  destruct (streams w1 !! sid) as [sc|]; [|exact Hr].
  destruct (_ && _); [|exact Hr].
  destruct (callback_context (cnx w1)); exact Hr.
Qed.

Lemma stream_data_same bytes is_fin sid w :
  same_session (ctx w) (ctx (snd (wt_baton_stream_data bytes is_fin sid w))).
Proof.
  unfold wt_baton_stream_data.
  destruct (streams w !! sid) as [sc|]; [|apply same_session_refl].
  destruct (sid =? control_stream_id (ctx w)).
  - destruct (negb is_fin); [apply same_session_refl|].
    simpl. destruct (negb (is_client (ctx w) =? 0)); simpl; [repeat split|].
    destruct (negb (is_fin_sent sc)); repeat split.
  - destruct (stream_control_stream_id sc =? UINT64_MAX);
      [apply same_session_refl|].
    destruct (_ && _); [apply close_session_same|].
    unfold stream_data_baton.
    destruct (0 <? _); [|apply same_session_refl].
    pose proof (stream_data_bytes_same bytes sid w) as Hbytes.
    destruct (stream_data_bytes bytes sid w) as [ret w1]. simpl in Hbytes.
    destruct is_fin; [|exact Hbytes].
    eapply same_session_trans; [exact Hbytes|apply stream_data_fin_same].
Qed.

Lemma provide_frame_same space sid w ret w' :
  provide_frame space sid w = Some (ret, w') ->
  same_session (ctx w) (ctx w').
Proof.
  unfold provide_frame.
  assert (Hchoose : same_session (ctx w) (fst (choose_padding space (ctx w)))).
  { unfold choose_padding.
    destruct (_ =? _); [|apply same_session_refl].
    destruct (state_eqb _ _); [|destruct (space =? 1)]; repeat split. }
  destruct (choose_padding space (ctx w)) as [c pll]. simpl in Hchoose.
  destruct Hchoose as (H1 & H2 & H3 & H4).
  destruct (space <? _); simpl.
  - destruct (_ <? _); [discriminate|].
    destruct (0 <? u64 (space - pll)); simpl;
      (destruct (is_sending c); simpl;
       [intros [= <- <-]; repeat split; assumption|]);
      repeat (case_if; simpl); intros [= <- <-]; repeat split; assumption.
  - destruct (_ <? _); [discriminate|].
    destruct (0 <? u64 (padding_required c - padding_sent c)); simpl;
      repeat (case_if; simpl); intros [= <- <-]; repeat split; assumption.
Qed.

Lemma provide_data_same space sid w ret w' :
  wt_baton_provide_data space sid w = Some (ret, w') ->
  same_session (ctx w) (ctx w').
Proof.
  unfold wt_baton_provide_data.
  set (r := if sending_stream_id (ctx w) =? UINT64_MAX then _ else _).
  assert (Hr : same_session (ctx w) (ctx (snd r))).
  { subst r. destruct (_ =? _); [repeat split|].
    destruct (negb _); [apply close_session_same|apply same_session_refl]. }
  destruct r as [ret1 w1]. simpl in Hr.
  destruct (_ && _); [|intros [= <- <-]; exact Hr].
  intros Hframe.
  eapply same_session_trans; [exact Hr|].
  exact (provide_frame_same space sid w1 ret w' Hframe).
Qed.

Lemma receive_datagram_same bytes stream_ctx w :
  same_session (ctx w)
    (ctx (snd (wt_baton_receive_datagram bytes stream_ctx w))).
Proof.
  rewrite receive_datagram_cases. simpl.
  destruct (datagram_baton bytes); [|apply same_session_refl].
  destruct (datagram_expected stream_ctx w); repeat split.
Qed.

Lemma provide_datagram_same space w :
  same_session (ctx w) (ctx (snd (wt_baton_provide_datagram space w))).
Proof.
  unfold wt_baton_provide_datagram.
  destruct (is_datagram_ready (ctx w)); [|apply same_session_refl].
  destruct (_ <? 3); [apply same_session_refl|].
  destruct (negb _); repeat split.
Qed.

Lemma stream_reset_same has_ctx w :
  same_session (ctx w) (ctx (snd (wt_baton_stream_reset has_ctx w))).
Proof.
  unfold wt_baton_stream_reset.
  destruct has_ctx; [|apply same_session_refl].
  pose proof (close_session_same WT_BATON_SESSION_ERR_GAME_OVER None w) as Hc.
  destruct (wt_baton_close_session _ _ w) as [ret w1]. simpl in Hc.
  destruct Hc as (H1 & H2 & H3 & H4). simpl.
  destruct (negb (is_client (ctx w1) =? 0)); simpl; repeat split; assumption.
Qed.

Lemma on_world_ctx f s :
  session_world (snd (on_world f s)) = snd (f (session_world s))
  /\ fst (on_world f s) = fst (f (session_world s)).
Proof. unfold on_world. destruct (f (session_world s)). split; reflexivity. Qed.

(** X22.  The callback of a session that is set up keeps it the same session:
    no event but the two that set a session up, the outgoing connect and
    the incoming one, changes the h3zero context, the control stream, the
    role or the number of turns required, whatever the event brings and
    whatever the transport answers. *)
Theorem callback_keeps_session (a : callback_args)
    (wt_event : picohttp_call_back_event_t) (s : session) (ret : Z)
    (s' : session) :
  sets_up_session wt_event = false ->
  wt_baton_callback a wt_event s = Some (ret, s') ->
  same_session (ctx (session_world s)) (ctx (session_world s')).
Proof.
  intros Hevent Hcall.
  assert (Hstream : forall f,
    (forall sid w ret w',
       f sid w = Some (ret, w') -> same_session (ctx w) (ctx w')) ->
    with_stream a f s = Some (ret, s') ->
    same_session (ctx (session_world s)) (ctx (session_world s'))).
  { intros f Hf. unfold with_stream.
    destruct (cb_stream_ctx a) as [sid|]; [|discriminate].
    destruct (cb_has_ctx a); [|discriminate].
    destruct (f sid (session_world s)) as [[ret1 w1]|] eqn:Hr; [|discriminate].
    intros [= <- <-]. simpl. exact (Hf _ _ _ _ Hr). }
  assert (Hworld : forall f,
    (forall w, same_session (ctx w) (ctx (snd (f w)))) ->
    Some (on_world f s) = Some (ret, s') ->
    same_session (ctx (session_world s)) (ctx (session_world s'))).
  { intros f Hf [= Hr]. destruct (on_world_ctx f s) as [Hw _].
    rewrite Hr in Hw. simpl in Hw. rewrite Hw. apply Hf. }
  assert (Htotal : forall (f : Z -> world -> Z * world),
    (forall sid w, same_session (ctx w) (ctx (snd (f sid w)))) ->
    forall sid w ret w',
      Some (f sid w) = Some (ret, w') -> same_session (ctx w) (ctx w')).
  { intros f Hf sid w ret1 w1 [= Hr]. specialize (Hf sid w).
    rewrite Hr in Hf. exact Hf. }
  destruct wt_event; simpl in Hcall; try discriminate Hevent.
  - injection Hcall as _ <-. apply same_session_refl.
  - injection Hcall as _ <-. destruct (cb_stream_ctx a); apply same_session_refl.
  - apply (Hstream _ (Htotal _ (stream_data_same (cb_bytes a) true)) Hcall).
  - apply (Hstream _ (Htotal _ (stream_data_same (cb_bytes a) false)) Hcall).
  - apply (Hstream _ (provide_data_same (cb_space a)) Hcall).
  - destruct (_ || _); [|discriminate].
    apply (Hworld _ (receive_datagram_same (cb_bytes a) (cb_stream_ctx a)) Hcall).
  - destruct (cb_has_ctx a); [|discriminate].
    apply (Hworld _ (provide_datagram_same (cb_space a)) Hcall).
  - destruct (cb_stream_ctx a) as [sid|]; [|discriminate].
    apply (Hworld _ (stream_reset_same (cb_has_ctx a)) Hcall).
  - injection Hcall as _ <-. apply same_session_refl.
  - destruct (cb_stream_ctx a) as [sid|]; [|discriminate].
    destruct (cb_has_ctx a); [|discriminate].
    unfold wt_baton_unlink_context in Hcall.
    destruct (callback_context _); [|discriminate].
    destruct (_ =? 0); injection Hcall as _ <-; apply same_session_refl.
  - injection Hcall as _ <-. apply same_session_refl.
Qed.

(** The frame of the baton 42 delivered through the callback. *)
Lemma callback_keeps_session_witness :
  same_session (ctx (sample_server 41 3 127))
    (ctx (snd (wt_baton_stream_data [0x02; 0x00; 0x00; 0x2A] true 2
                 (sample_server 41 3 127)))).
Proof.
  apply (callback_keeps_session sample_args picohttp_callback_post_fin
           sample_session
           (fst (wt_baton_stream_data [0x02; 0x00; 0x00; 0x2A] true 2
                   (sample_server 41 3 127)))
           (mk_session
              (snd (wt_baton_stream_data [0x02; 0x00; 0x00; 0x2A] true 2
                      (sample_server 41 3 127)))
              true false false ∅ ∅));
    [reflexivity|vm_compute; reflexivity].
Defined.

(** ** The end of the control stream *)

(** X5.  Data on the control stream is looked at only for the end of the
    stream.  When the peer ends the control stream, the session is closed
    without any close message and whatever bytes came with it: the end is
    recorded on the stream and the state is closed; a client closes the
    connection with code 0 and returns what that call returns; a server
    sends the end of the control stream unless it is sent already, asks
    h3zero to forget the prefix of the session, and returns 0.  Without
    the end of the stream the call does nothing. *)
Theorem stream_data_control_stream (bytes : list Z) (is_fin : bool) (sid : Z)
    (w : world) (stream_ctx : picohttp_server_stream_ctx_t) :
  streams w !! sid = Some stream_ctx ->
  sid = control_stream_id (ctx w) ->
  let r := wt_baton_stream_data bytes is_fin sid w in
  if is_fin then
    baton_state (ctx (snd r)) = wt_baton_state_closed
    /\ ctx (snd r) = set_baton_state wt_baton_state_closed (ctx w)
    /\ is_fin_received <$> streams (snd r) !! sid = Some true
    /\ streams (snd r) = <[sid := set_is_fin_received true stream_ctx]> (streams w)
    /\ close_messages (trace (snd r)) = close_messages (trace w)
    /\ (if is_client (ctx w) =? 0 then
          fst r = 0
          /\ trace (snd r)
             = trace w
               ++ (if is_fin_sent stream_ctx then []
                   else [Call_add_to_stream sid [] true])
               ++ [Call_delete_stream_prefix sid]
        else
          fst r = close_ret (cnx w)
          /\ trace (snd r) = trace w ++ [Call_close 0])
  else r = (0, w).
Proof.
  intros Hstream Hcontrol r. subst r.
  unfold wt_baton_stream_data. rewrite Hstream, <- Hcontrol, Z.eqb_refl.
  destruct is_fin; [|reflexivity].
  assert (Halter : alter (set_is_fin_received true) sid (streams w)
                   = <[sid := set_is_fin_received true stream_ctx]> (streams w)).
  { apply map_eq. intros k. destruct (Z.eq_dec k sid) as [->|Hne].
    - rewrite lookup_alter_eq, lookup_insert_eq, Hstream. reflexivity.
    - rewrite lookup_alter_ne, lookup_insert_ne by congruence. reflexivity. }
  simpl negb. cbv iota. simpl.
  destruct (is_client (ctx w) =? 0); simpl.
  - destruct (is_fin_sent stream_ctx); simpl; rewrite Halter;
      rewrite ?close_messages_app, <- ?app_assoc; simpl;
      rewrite ?app_nil_r, lookup_insert_eq; repeat split.
  - rewrite Halter, close_messages_app. simpl.
    rewrite app_nil_r, lookup_insert_eq. repeat split.
Qed.

(** The end of the control stream 0 on the sample server: the state is
    closed, the end of the stream is sent back and the prefix deleted. *)
Lemma stream_data_control_stream_witness :
  baton_state (ctx (snd (wt_baton_stream_data [] true 0 (sample_server 41 3 127))))
  = wt_baton_state_closed
  /\ trace (snd (wt_baton_stream_data [] true 0 (sample_server 41 3 127)))
     = [Call_add_to_stream 0 [] true; Call_delete_stream_prefix 0].
Proof.
  pose proof (stream_data_control_stream [] true 0 (sample_server 41 3 127)
                (mk_stream_ctx 0 0 false false true) eq_refl eq_refl) as H.
  cbv zeta iota in H. destruct H as (Hstate & _ & _ & _ & _ & Hserver).
  change (is_client (ctx (sample_server 41 3 127)) =? 0) with true in Hserver.
  cbv iota in Hserver. destruct Hserver as [_ Htrace].
  split; [exact Hstate|exact Htrace].
Defined.

(** ** Data that the decoder refuses *)





(** ** Data asked for on another stream *)

Lemma close_session_sending err err_msg w :
  sending (ctx w) -> sending (ctx (snd (wt_baton_close_session err err_msg w))).
Proof.
  intros Hsend.
  destruct (close_session_ctx err err_msg w) as [H|H]; rewrite H; exact Hsend.
Qed.

(** What a close leaves of the context: the state is closed when the
    message goes out, and nothing else changes. *)
Lemma close_session_leaves err err_msg w :
  ctx (snd (wt_baton_close_session err err_msg w))
  = if control_stream_open w then
      set_baton_state wt_baton_state_closed (ctx w)
    else ctx w.
Proof.
  destruct (control_stream_open w) eqn:Hopen.
  - rewrite (close_session_open _ _ _ Hopen). reflexivity.
  - rewrite (close_session_finished _ _ _ Hopen). reflexivity.
Qed.

(** X13.  When the transport asks for the data of a stream other than the one
    that is armed, the session is closed with the malformed-message code
    and the reason "Sending on wrong stream!": the message goes out when
    the control stream is open, and the state is then closed.  The call
    goes on as on the armed stream whenever that close returns 0, which it
    does also when it has nothing to send: if a frame is being sent, its
    next bytes are written on the stream the transport asked for.  Only
    when the close fails, or no frame is being sent, is an empty buffer
    handed over, and the call returns what the close returned. *)
Theorem provide_data_wrong_stream (space sid : Z) (w : world) :
  sending_stream_id (ctx w) <> UINT64_MAX ->
  sending_stream_id (ctx w) <> sid ->
  let code :=
    if control_stream_open w then
      send_close_ret (cnx w) WT_BATON_SESSION_ERR_BRUH
    else 0 in
  let sent :=
    if control_stream_open w then
      [Call_send_close_session_message (control_stream_id (ctx w))
         WT_BATON_SESSION_ERR_BRUH (Some "Sending on wrong stream!"%string)]
    else [] in
  let c :=
    if control_stream_open w then
      set_baton_state wt_baton_state_closed (ctx w)
    else ctx w in
  (code = 0 -> sending (ctx w) ->
   0 <= space < 9223372036854775808 ->
   (padding_required (ctx w) = UINT64_MAX -> 1 <= space) ->
   let chunk := next_chunk space c in
   let is_last := last_chunk space c in
   exists w',
     wt_baton_provide_data space sid w = Some (0, w')
     /\ trace w'
        = trace w ++ sent
          ++ [Call_provide_stream_data_buffer (Z.of_nat (length chunk)) is_last
                (negb is_last) chunk])
  /\ (code <> 0 \/ is_sending (ctx w) = false ->
      exists w',
        wt_baton_provide_data space sid w = Some (code, w')
        /\ trace w'
           = trace w ++ sent ++ [Call_provide_stream_data_buffer 0 false false []]
        /\ ctx w' = c).
Proof.
  intros Hclaimed Hother code sent c.
  set (closing := wt_baton_close_session WT_BATON_SESSION_ERR_BRUH
                    (Some "Sending on wrong stream!"%string) w).
  assert (Hcall : wt_baton_provide_data space sid w
                  = if (fst closing =? 0) && is_sending (ctx (snd closing)) then
                      provide_frame space sid (snd closing)
                    else
                      Some (fst closing,
                            emit (Call_provide_stream_data_buffer 0 false false [])
                              (snd closing))).
  { unfold wt_baton_provide_data.
    apply Z.eqb_neq in Hclaimed, Hother. rewrite Hclaimed, Hother. simpl.
    subst closing. destruct (wt_baton_close_session _ _ w). reflexivity. }
  destruct (close_session_sends WT_BATON_SESSION_ERR_BRUH
              "Sending on wrong stream!" w) as (Hcode & Hsent & _).
  fold closing code sent in Hcode, Hsent.
  assert (Hctx : ctx (snd closing) = c) by apply close_session_leaves.
  assert (Hsending : is_sending (ctx (snd closing)) = is_sending (ctx w))
    by (rewrite Hctx; subst c; destruct (control_stream_open w); reflexivity).
  assert (Hrequired : padding_required (ctx (snd closing))
                      = padding_required (ctx w))
    by (rewrite Hctx; subst c; destruct (control_stream_open w); reflexivity).
  rewrite Hcall, Hsending, Hcode. split.
  - intros Hret Hsend Hspace Hfirst chunk is_last.
    rewrite Hret, (proj1 Hsend). simpl.
    destruct (provide_frame_next space sid (snd closing))
      as (w' & Hzero & Htrace & _).
    + apply close_session_sending, Hsend.
    + exact Hspace.
    + rewrite Hrequired. exact Hfirst.
    + exists w'. split; [exact Hzero|].
      rewrite Htrace, Hsent, Hctx, <- app_assoc. reflexivity.
  - intros Hidle.
    assert (Hnone : (code =? 0) && is_sending (ctx w) = false).
    { destruct Hidle as [Hret|Hidle].
      - apply Z.eqb_neq in Hret. rewrite Hret. reflexivity.
      - rewrite Hidle. apply andb_false_r. }
    rewrite Hnone. eexists. split; [reflexivity|]. simpl.
    rewrite Hsent, <- app_assoc. split; [reflexivity|exact Hctx].
Qed.

(** The transport asks for the data of stream 8 while stream 4 is armed:
    the close message goes out, and the first bytes of the frame with it. *)
Lemma provide_data_wrong_stream_witness :
  exists w',
    wt_baton_provide_data 100 8 (armed_server 127) = Some (0, w')
    /\ close_messages (trace w')
       = [(WT_BATON_SESSION_ERR_BRUH, Some "Sending on wrong stream!"%string)]
    /\ chunks_provided (trace w') = [[0x7F; 0xFF] ++ replicate 98 0].
Proof.
  destruct (provide_data_wrong_stream 100 8 (armed_server 127))
    as (Hframe & _); [discriminate|discriminate|].
  destruct Hframe as (w' & Hret & Htrace);
    [reflexivity|split; [reflexivity|left; split; reflexivity]|lia
    |intros _; lia|].
  exists w'. split; [exact Hret|].
  rewrite Htrace, close_messages_app, chunks_provided_app.
  split; reflexivity.
Defined.

(** ** A turn of the relay *)

Lemma relay_new_stream_chunks is_bidir tag w :
  chunks_provided (trace (snd (relay_new_stream is_bidir tag w)))
  = chunks_provided (trace w).
Proof.
  unfold relay_new_stream.
  destruct (create_stream_ctx is_bidir w) as [_ Ht].
  destruct (wt_baton_create_stream is_bidir w) as [[sid|] w1]; simpl in *.
  - rewrite chunks_provided_app, Ht. apply app_nil_r.
  - rewrite Ht. reflexivity.
Qed.

(** A dispatch hands no stream data to the transport. *)
Lemma relay_chunks_provided stream_ctx w :
  chunks_provided (trace (snd (wt_baton_relay stream_ctx w)))
  = chunks_provided (trace w).
Proof.
  unfold wt_baton_relay. rewrite relay_route.
  assert (Harm : forall sid w1,
    chunks_provided (trace (snd (relay_arm sid w1))) = chunks_provided (trace w1)).
  { intros sid w1. unfold relay_arm, picoquic_mark_active_stream. simpl.
    rewrite chunks_provided_app. apply app_nil_r. }
  assert (Hnew : forall is_bidir tag,
    chunks_provided
      (trace (snd (match relay_new_stream is_bidir tag w with
                   | (ret, Some sid, w1) =>
                       if ret =? 0 then relay_arm sid w1 else (ret, w1)
                   | (ret, None, w1) => (ret, w1)
                   end)))
    = chunks_provided (trace w)).
  { intros is_bidir tag.
    pose proof (relay_new_stream_chunks is_bidir tag w) as Hn.
    destruct (relay_new_stream is_bidir tag w) as [[ret [sid|]] w1];
      simpl in Hn; [|exact Hn].
    destruct (ret =? 0); [rewrite Harm|]; exact Hn. }
  destruct (route_relay_game stream_ctx (is_client (ctx w))) as [| |sid].
  - apply Hnew.
  - apply Hnew.
  - simpl. apply Harm.
Qed.

(** The baton that a valid check chooses, in a turn that neither ends the
    game nor injects an error. *)
Lemma checked_world_next w :
  s32 (nb_turns (ctx w) + 1) < nb_turns_required (ctx w) ->
  ~ (4 <= s32 (nb_turns (ctx w) + 1) /\ nb_turns_required (ctx w) = 257) ->
  baton (ctx (checked_world w)) = u8 (baton_received (ctx w) + 1)
  /\ baton_state (ctx (checked_world w)) = wt_baton_state_sent
  /\ chunks_provided (trace (checked_world w)) = chunks_provided (trace w).
Proof.
  intros Hmore Hplain.
  destruct (checked_world_keeps w) as (Hb & Hs & _). cbv zeta in Hb, Hs.
  assert (Hnext : baton (check_next_baton (ctx w))
                  = u8 (baton_received (ctx w) + 1)
                  /\ baton_state (check_next_baton (ctx w)) = wt_baton_state_sent).
  { unfold check_next_baton. simpl.
    rewrite (proj2 (Z.leb_gt _ _)) by lia.
    destruct ((4 <=? s32 (nb_turns (ctx w) + 1))
              && (nb_turns_required (ctx w) =? 257)) eqn:Hinject.
    - exfalso. apply Hplain. apply andb_prop in Hinject as [H4 H257]. lia.
    - split; reflexivity. }
  rewrite Hb, Hs. split; [apply Hnext|]. split; [apply Hnext|].
  unfold checked_world, check_arm_datagram, h3zero_set_datagram_ready. simpl.
  destruct (state_eqb (baton_state (ctx w)) wt_baton_state_ready
            && (first_baton (ctx w) =? 0));
    simpl; destruct (_ && _); simpl;
    rewrite ?chunks_provided_app; rewrite ?app_nil_r; reflexivity.
Qed.

(** What the way to the dispatch leaves alone. *)
Lemma checked_world_same w :
  same_session (ctx w) (ctx (checked_world w))
  /\ cnx (checked_world w) = cnx w
  /\ streams (checked_world w) = streams w.
Proof.
  unfold checked_world. split.
  - simpl. eapply same_session_trans; [|apply check_next_baton_same].
    unfold check_arm_datagram, h3zero_set_datagram_ready.
    destruct (state_eqb (baton_state (ctx w)) wt_baton_state_ready
              && (first_baton (ctx w) =? 0));
      simpl; destruct (_ && _); repeat split.
  - unfold check_arm_datagram, h3zero_set_datagram_ready.
    destruct (state_eqb (baton_state (ctx w)) wt_baton_state_ready
              && (first_baton (ctx w) =? 0));
      simpl; destruct (_ && _); split; reflexivity.
Qed.

(** The dispatch that finds its stream arms it. *)
Lemma relay_arms stream_ctx w :
  match relay_stream_id stream_ctx w with
  | Some id => can_open id w = true
  | None => True
  end ->
  exists out,
    ctx (snd (wt_baton_relay stream_ctx w)) = arm_sending out (ctx w).
Proof.
  unfold relay_stream_id, wt_baton_relay. rewrite relay_route.
  destruct (route_relay_game stream_ctx (is_client (ctx w))) as [| |sid];
    intros Hopen.
  - pose proof (relay_new_stream_opens false h3zero_stream_type_webtransport w)
      as Hnew.
    simpl in Hnew. rewrite (Hnew Hopen). simpl. eexists. reflexivity.
  - pose proof (relay_new_stream_opens true h3zero_frame_webtransport_stream w)
      as Hnew.
    simpl in Hnew. rewrite (Hnew Hopen). simpl. eexists. reflexivity.
  - simpl. exists sid. reflexivity.
Qed.

(** X15.  One turn of the relay game.  A frame with a baton that is right comes
    on a stream, with the end of the stream, in a turn that neither ends
    the game nor injects an error, and the dispatch finds its stream.  Then
    the frame that this side writes next, on the stream that the dispatch
    armed and in however many calls, is the frame of the baton received
    plus one, on a byte, with 0x3F bytes of padding when the first call
    offers one byte and 0x3FFF otherwise. *)
Theorem turn_sends_next_baton (P b sid : Z) (w : world) (space : Z)
    (spaces : list Z) :
  0 <= P < 16384 -> relay_stream sid w -> receive_ready (ctx w) ->
  b <> 0 ->
  (baton_state (ctx w) = wt_baton_state_sent -> b = baton (ctx w) + 1) ->
  s32 (nb_turns (ctx w) + 1) < nb_turns_required (ctx w) ->
  ~ (4 <= s32 (nb_turns (ctx w) + 1) /\ nb_turns_required (ctx w) = 257) ->
  match relay_stream_id (Some sid) w with
  | Some id => can_open id w = true
  | None => True
  end ->
  1 <= space ->
  Forall (fun space => 0 <= space < 9223372036854775808) (space :: spaces) ->
  (if space =? 1 then 65 else 16386) <= total (space :: spaces) ->
  let w1 := snd (wt_baton_stream_data (baton_frame P b) true sid w) in
  let out := sending_stream_id (ctx w1) in
  baton (ctx w1) = u8 (b + 1)
  /\ exists w2,
       provide_all (space :: spaces) out w1 = Some w2
       /\ concat (chunks_provided (trace w2))
          = concat (chunks_provided (trace w))
            ++ baton_frame (if space =? 1 then 0x3F else 0x3FFF) (u8 (b + 1)).
Proof.
  intros HP Hrelay Hready Hnz Hright Hmore Hplain Hopen Hone Hall Htotal w1 out.
  (* the frame is decoded, and its baton checked *)
  pose proof (frame_length P b) as Hlen.
  assert (Hne : baton_frame P b <> [])
    by (intros Hnil; rewrite Hnil in Hlen; simpl in Hlen; lia).
  set (w0 := upd_ctx (fun _ => decoder_at P b sid (length (baton_frame P b)) (ctx w)) w).
  assert (Hdata : wt_baton_stream_data (baton_frame P b) true sid w
                  = stream_data_fin sid w0).
  { apply (stream_data_last _ sid w _ Hrelay Hne).
    apply (decode_whole_frame P b sid HP w Hready). }
  assert (Hctx0 : ctx w0
    = with_decoder sid
        (u64 (nb_baton_bytes_received (ctx w)
              + Z.of_nat (length (baton_frame P b))))
        (stored (picoquic_frames_varint_encode P) (receive_buffer (ctx w)))
        (Z.of_nat (length (picoquic_frames_varint_encode P))) P P b false (ctx w))
    by (subst w0; simpl; apply decoder_at_baton; lia).
  assert (Hread : is_receiving (ctx w0) = false) by (rewrite Hctx0; reflexivity).
  destruct (stream_data_fin_checks sid w0 Hread) as (_ & Hctx & Htrace).
  assert (Hvalid : wt_baton_check sid w0 = wt_baton_relay (Some sid) (checked_world w0)).
  { apply check_valid; rewrite Hctx0; simpl; [exact Hnz|exact Hright]. }
  destruct (checked_world_next w0) as (Hbaton & Hstate & Hchunks);
    [rewrite Hctx0; exact Hmore|rewrite Hctx0; exact Hplain|].
  assert (Hopen1 : match relay_stream_id (Some sid) (checked_world w0) with
                   | Some id => can_open id (checked_world w0) = true
                   | None => True
                   end).
  { unfold relay_stream_id in *.
    assert (Hsame : is_client (ctx (checked_world w0)) = is_client (ctx w)
                    /\ cnx (checked_world w0) = cnx w
                    /\ streams (checked_world w0) = streams w).
    { destruct (checked_world_same w0) as ((_ & _ & Hclient & _) & Hcnx & Hstreams).
      rewrite Hclient, Hcnx, Hstreams, Hctx0. repeat split. }
    destruct Hsame as (Hclient & Hcnx & Hstreams).
    rewrite Hclient, Hcnx.
    destruct (route_relay_game (Some sid) (is_client (ctx w)));
      try exact I; unfold can_open in *; rewrite Hcnx, Hstreams; exact Hopen. }
  destruct (relay_arms (Some sid) (checked_world w0) Hopen1) as [id Harmed].
  assert (Hctx1 : ctx w1 = arm_sending id (ctx (checked_world w0)))
    by (subst w1; rewrite Hdata, Hctx, Hvalid; exact Harmed).
  assert (Htrace1 : chunks_provided (trace w1) = chunks_provided (trace w)).
  { subst w1. rewrite Hdata, Htrace, Hvalid, relay_chunks_provided, Hchunks.
    reflexivity. }
  assert (Hbaton1 : baton (ctx w1) = u8 (b + 1)).
  { rewrite Hctx1. change (baton (ctx (checked_world w0)) = u8 (b + 1)).
    rewrite Hbaton, Hctx0. reflexivity. }
  split; [exact Hbaton1|].
  assert (Hsend : sending (ctx w1)).
  { rewrite Hctx1. split; [reflexivity|]. left. split; reflexivity. }
  assert (Hframe : frame_chosen space (ctx w1)
                   = baton_frame (if space =? 1 then 0x3F else 0x3FFF) (u8 (b + 1))).
  { rewrite frame_chosen_choice, Hbaton1.
    rewrite choose_padding_first by (rewrite Hctx1; reflexivity).
    replace (state_eqb (baton_state (ctx w1)) wt_baton_state_done) with false
      by (rewrite Hctx1;
          change (baton_state (arm_sending id (ctx (checked_world w0))))
            with (baton_state (ctx (checked_world w0)));
          rewrite Hstate; reflexivity).
    destruct (space =? 1); reflexivity. }
  destruct (provide_all_first space spaces out w1 Hsend)
    as (w2 & Hcalls & Hwritten);
    [rewrite Hctx1; reflexivity|reflexivity|assumption|assumption|].
  exists w2. split; [exact Hcalls|].
  rewrite Hwritten, Htrace1, Hframe. f_equal.
  apply take_ge.
  destruct (space =? 1); rewrite frame_length; simpl length; lia.
Qed.

(** The baton 42 comes on the unidirectional stream 2 after the server
    sent 41: the server opens the bidirectional stream 5 and writes the
    frame of the baton 43 on it. *)
Lemma turn_sends_next_baton_witness :
  baton (ctx (snd (wt_baton_stream_data (baton_frame 2 42) true 2
                     (sample_server 41 3 127))))
  = 43
  /\ exists w2,
       provide_all [1; 100] 5
         (snd (wt_baton_stream_data (baton_frame 2 42) true 2
                 (sample_server 41 3 127)))
       = Some w2
       /\ concat (chunks_provided (trace w2)) = baton_frame 0x3F 43.
Proof.
  destruct (turn_sends_next_baton 2 42 2 (sample_server 41 3 127) 1 [100])
    as [Hbaton Hframe];
    [lia|sample_relay_stream|repeat split|discriminate|reflexivity
    |vm_compute; reflexivity|intros [_ H]; discriminate H|reflexivity|lia
    |repeat constructor; lia|vm_compute; discriminate|].
  split; [exact Hbaton|exact Hframe].
Defined.

(** ** Unlinking the streams of a session *)







(** ** Accepting a session *)

Lemma can_open_same id w w' :
  cnx w' = cnx w -> streams w' !! id = None ->
  can_open id w = true -> can_open id w' = true.
Proof.
  unfold can_open. intros -> ->.
  destruct (streams w !! id); [discriminate|]. intros H. exact H.
Qed.

Lemma lookup_alter_none (f : picohttp_server_stream_ctx_t -> picohttp_server_stream_ctx_t)
    (sid id : Z) (m : gmap Z picohttp_server_stream_ctx_t) :
  m !! id = None -> alter f sid m !! id = None.
Proof.
  intros Hid. destruct (Z.eq_dec id sid) as [->|Hne].
  - rewrite lookup_alter_eq, Hid. reflexivity.
  - rewrite lookup_alter_ne by congruence. exact Hid.
Qed.

(** The world in which an accepted session starts its relay. *)
Lemma accept_relays random app_ctx sid s :
  callback_context (cnx (session_world s)) = true ->
  declare_prefix_ret (cnx (session_world s)) sid = 0 ->
  0 <= random < 128 ->
  let w := session_world s in
  wt_baton_accept true random app_ctx (Some sid) s
  = (let '(ret, w') :=
       wt_baton_relay None
         (mk_world (accepted_ctx app_ctx sid (random + 1))
            (alter (set_path_callback true) sid
               (alter (set_stream_control_stream_id sid) sid (streams w)))
            (cnx w) (trace w ++ [Call_declare_stream_prefix sid])) in
     Some (ret, mk_session w' true false false ({[sid]} ∪ is_web_transport s)
                  (is_upgraded s))).
Proof.
  intros Hcontext Hdeclare Hrandom w. subst w.
  unfold wt_baton_accept, wt_baton_ctx_init, h3zero_declare_stream_prefix.
  rewrite Hcontext. simpl. rewrite Hdeclare. simpl.
  assert (Hbaton : u8 (u8 random + 1) = random + 1).
  { unfold u8. rewrite (Z.mod_small random) by lia. apply Z.mod_small. lia. }
  rewrite Hbaton. reflexivity.
Qed.

(** X18.  A server that accepts a session, on a connection that has its h3zero
    context and lets it register the control stream and open a stream,
    starts the relay at once: the context is initialised for the control
    stream, the baton and the first baton are the random number plus one,
    which is between 1 and 128 and so never the 0 that ends the game; a
    new unidirectional stream is opened for it, its header written, and the
    stream armed; one turn is counted.  The state is still the initial
    one: it becomes sent when the frame has gone out. *)
Theorem accept_first_baton (random : Z) (app_ctx : option wt_baton_app_ctx_t)
    (sid : Z) (s : session) :
  let w := session_world s in
  let uni := next_local_unidir (cnx w) in
  callback_context (cnx w) = true ->
  declare_prefix_ret (cnx w) sid = 0 ->
  0 <= random < 128 ->
  can_open uni w = true ->
  exists s',
    wt_baton_accept true random app_ctx (Some sid) s
    = Some (mark_active_stream_ret (cnx w) uni, s')
    /\ ctx (session_world s')
       = mk_baton_ctx true sid 0 wt_baton_state_none (turns_configured app_ctx)
           1 (random + 1) (random + 1) 0 true uni UINT64_MAX 0 false 0 0 0 []
           0 0 0 false 0 0 0 0 0 0
    /\ baton (ctx (session_world s')) = random + 1
    /\ first_baton (ctx (session_world s')) = random + 1
    /\ nb_turns (ctx (session_world s')) = 1
    /\ baton_state (ctx (session_world s')) = wt_baton_state_none
    /\ trace (session_world s')
       = trace w
         ++ [Call_declare_stream_prefix sid;
             Call_add_to_stream uni
               (picoquic_frames_varint_encode h3zero_stream_type_webtransport
                ++ picoquic_frames_varint_encode sid) false;
             Call_mark_active_stream uni]
    /\ connection_ready s' = true
    /\ sid ∈ is_web_transport s'.
Proof.
  intros w uni Hcontext Hdeclare Hrandom Hopen.
  rewrite (accept_relays random app_ctx sid s Hcontext Hdeclare Hrandom).
  fold w.
  set (w1 := mk_world (accepted_ctx app_ctx sid (random + 1)) _ (cnx w) _).
  assert (Hopen1 : can_open uni w1 = true).
  { apply (can_open_same uni w w1); [reflexivity| |exact Hopen].
    subst w1. simpl. apply lookup_alter_none, lookup_alter_none.
    unfold can_open in Hopen.
    destruct (streams w !! uni); [discriminate|reflexivity]. }
  unfold wt_baton_relay, relay_next_stream.
  pose proof (relay_new_stream_opens false h3zero_stream_type_webtransport w1)
    as Hnew.
  simpl in Hnew. specialize (Hnew Hopen1).
  rewrite Hnew. simpl.
  eexists. split; [reflexivity|]. simpl.
  split; [reflexivity|]. split; [reflexivity|]. split; [reflexivity|].
  split; [reflexivity|]. split; [reflexivity|].
  split; [rewrite <- !app_assoc; reflexivity|].
  split; [reflexivity|]. apply elem_of_union_l, elem_of_singleton. reflexivity.
Qed.

(** A session accepted on the control stream 0 with the random number
    99: the first baton is 100. *)
Lemma accept_first_baton_witness :
  exists s',
    wt_baton_accept true 99 None (Some 0) sample_session = Some (0, s')
    /\ baton (ctx (session_world s')) = 100.
Proof.
  destruct (accept_first_baton 99 None 0 sample_session)
    as (s' & Hcall & _ & Hbaton & _); [reflexivity|reflexivity|lia|reflexivity|].
  exists s'. split; [exact Hcall|exact Hbaton].
Defined.

(** X19.  A session that cannot be accepted.  Without memory for the context the
    call returns -1 and changes nothing.  Without the h3zero context of
    the connection it returns -1: the context is cleared and nothing is
    sent.  When h3zero refuses to register the control stream it returns
    the code of that refusal: the context is initialised, but no baton is
    chosen, no stream is opened and no turn is counted. *)
Theorem accept_refused (alloc : bool) (random : Z)
    (app_ctx : option wt_baton_app_ctx_t) (sid : Z) (s : session) :
  let w := session_world s in
  alloc = false \/ callback_context (cnx w) = false
  \/ declare_prefix_ret (cnx w) sid <> 0 ->
  exists ret s',
    wt_baton_accept alloc random app_ctx (Some sid) s = Some (ret, s')
    /\ ret <> 0
    /\ (alloc = false -> ret = -1 /\ s' = s)
    /\ (alloc = true ->
        ret = (if callback_context (cnx w) then declare_prefix_ret (cnx w) sid
               else -1)
        /\ trace (session_world s')
           = trace w
             ++ (if callback_context (cnx w) then [Call_declare_stream_prefix sid]
                 else [])
        /\ baton (ctx (session_world s')) = 0
        /\ nb_turns (ctx (session_world s')) = 0
        /\ is_sending (ctx (session_world s')) = false
        /\ dom (streams (session_world s')) = dom (streams w)
        /\ connection_ready s' = false).
Proof.
  intros w Hrefused.
  unfold wt_baton_accept, wt_baton_ctx_init, h3zero_declare_stream_prefix.
  fold w.
  destruct alloc; simpl.
  - destruct (callback_context (cnx w)) eqn:Hcontext; simpl.
    + destruct Hrefused as [H|[H|Hdeclare]]; try discriminate.
      apply Z.eqb_neq in Hdeclare as Htest. rewrite Htest.
      eexists _, _. split; [reflexivity|]. simpl.
      split; [exact Hdeclare|]. split; [discriminate|].
      intros _. repeat split. apply dom_alter_L.
    + eexists _, _. split; [reflexivity|]. simpl.
      split; [discriminate|]. split; [discriminate|].
      intros _. rewrite app_nil_r. repeat split.
  - eexists _, _. split; [reflexivity|].
    split; [discriminate|]. split; [intros _; split; reflexivity|].
    discriminate.
Qed.

(** Without memory for the context nothing changes. *)
Lemma accept_refused_witness :
  wt_baton_accept false 99 None (Some 0) sample_session
  = Some (-1, sample_session).
Proof.
  destruct (accept_refused false 99 None 0 sample_session)
    as (ret & s' & Hcall & _ & Hnone & _); [left; reflexivity|].
  destruct (Hnone eq_refl) as [-> ->]. exact Hcall.
Defined.

(** ** A stream that is reset *)

(** X20.  A reset of any stream of a session abandons the session.  The session
    is closed with the all-streams-reset code, which sends the close
    message when the control stream is open; the state is closed in every
    case; a client then closes the connection with code 0, and the call
    returns what that returns, whatever the close of the session returned;
    a server returns what the close of the session returned; in both cases
    h3zero is last asked to forget the prefix of the session.  Without a
    session context the call returns 0 and does nothing. *)
Theorem stream_reset_closes (has_ctx : bool) (w : world) :
  let r := wt_baton_stream_reset has_ctx w in
  let closing :=
    if control_stream_open w then
      [Call_send_close_session_message (control_stream_id (ctx w))
         WT_BATON_SESSION_ERR_GAME_OVER
         (Some "All baton streams have been reset"%string)]
    else [] in
  if has_ctx then
    baton_state (ctx (snd r)) = wt_baton_state_closed
    /\ ctx (snd r) = set_baton_state wt_baton_state_closed (ctx w)
    /\ (if is_client (ctx w) =? 0 then
          fst r = (if control_stream_open w then
                     send_close_ret (cnx w) WT_BATON_SESSION_ERR_GAME_OVER
                   else 0)
          /\ trace (snd r)
             = trace w ++ closing
               ++ [Call_delete_stream_prefix (control_stream_id (ctx w))]
        else
          fst r = close_ret (cnx w)
          /\ trace (snd r)
             = trace w ++ closing
               ++ [Call_close 0;
                   Call_delete_stream_prefix (control_stream_id (ctx w))])
  else r = (0, w).
Proof.
  intros r closing. subst r closing.
  destruct has_ctx; [|reflexivity].
  unfold wt_baton_stream_reset.
  destruct (control_stream_open w) eqn:Hopen.
  - rewrite (close_session_open _ _ _ Hopen). simpl.
    destruct (is_client (ctx w) =? 0); simpl;
      rewrite <- ?app_assoc; repeat split;
      destruct (ctx w); reflexivity.
  - rewrite (close_session_finished _ _ _ Hopen). simpl.
    destruct (is_client (ctx w) =? 0); simpl;
      rewrite <- ?app_assoc; repeat split.
Qed.
